(** * karmaMotor: pose planning and action sequencing

    A shallow embedding of [src/karmaMotor/main.cpp] (class [KarmaMotor]).

    Conventions of the model.
    - A C++ [double] is a real number of [R]; [sin], [cos], [sqrt] and
      [fabs] are the functions of the Standard Library, so rounding is not
      modelled.  The one exception is the normalisation of the angle, whose
      range depends on the doubles: [normalize_d] has the constant [M_PI],
      the rounding of the operations and the functions of the C library as
      parameters.
    - A [yarp::sig::Vector] is a [list R]; a [yarp::sig::Matrix] is a record
      of its dimensions and an entry function.
    - Calls made on the motion and gaze endpoints are recorded, in order, in a
      list of [call]s; what an endpoint answers, and what the [interrupting]
      flag holds each time it is read, is supplied by an environment.
    - Sizes agree wherever the module adds, subtracts or multiplies: positions
      have three components, orientations four, poses are 4x4 matrices. *)

From Stdlib Require Import Reals Lra Lia List Ascii String ZArith Bool PeanoNat.
From Stdlib Require Import QArith Qpower Qreals Machin.
Import ListNotations.

Local Open Scope R_scope.

(** ** Doubles *)

Module Dbl.

Definition ltb (x y : R) : bool := if Rlt_dec x y then true else false.
Definition leb (x y : R) : bool := if Rle_dec x y then true else false.
Definition geb (x y : R) : bool := leb y x.
Definition neqb (x y : R) : bool := if Req_dec_T x y then false else true.

(** [atan2] of the C library, on exact reals: the angle of the point
    [(x, y)], in (-PI, PI], and 0 at the origin. *)
Definition atan2 (y x : R) : R :=
  if Rlt_dec 0 x then atan (y / x)
  else if Rlt_dec x 0 then
    if Rle_dec 0 y then atan (y / x) + PI else atan (y / x) - PI
  else
    if Rlt_dec 0 y then PI / 2
    else if Rlt_dec y 0 then - (PI / 2) else 0.

(** The conversion [(int)d]: truncation towards zero. *)
Definition to_int (d : R) : Z :=
  if Rle_dec 0 d then Int_part d else (- Int_part (- d))%Z.

(** [CTRL_DEG2RAD] and [CTRL_RAD2DEG] of [iCub/ctrl/math.h]. *)
Definition CTRL_DEG2RAD : R := PI / 180.
Definition CTRL_RAD2DEG : R := 180 / PI.

End Dbl.

(** ** Angle normalisation, as [push] and [push2] do it

    [theta_rad=CTRL_DEG2RAD*theta; _c=cos(theta_rad); _s=sin(theta_rad);
     _theta=CTRL_RAD2DEG*atan2(_s,_c)].  First on reals, with pi itself, as
    the plans use it. *)

Definition theta_rad (theta : R) : R := Dbl.CTRL_DEG2RAD * theta.
Definition cos_theta (theta : R) : R := cos (theta_rad theta).
Definition sin_theta (theta : R) : R := sin (theta_rad theta).
Definition normalize (theta : R) : R :=
  Dbl.CTRL_RAD2DEG * Dbl.atan2 (sin_theta theta) (cos_theta theta).

(** *** The same lines on doubles

    [M_PI] is a double, every operation rounds its result to a double, and
    the functions of the C library return doubles.  The constant, what an
    operation makes of its exact result ([round]) and the three functions
    are parameters. *)

Section Doubles.

Variable M_PI : R.
Variable round : R -> R.
Variable cos_d sin_d : R -> R.
Variable atan2_d : R -> R -> R.

(** The macros of [iCub/ctrl/math.h]: [(M_PI/180.0)] and [(180.0/M_PI)]. *)
Definition CTRL_DEG2RAD_d : R := round (M_PI / 180).
Definition CTRL_RAD2DEG_d : R := round (180 / M_PI).

Definition normalize_d (theta : R) : R :=
  let theta_rad := round (CTRL_DEG2RAD_d * theta) in
  let _c := cos_d theta_rad in
  let _s := sin_d theta_rad in
  round (CTRL_RAD2DEG_d * atan2_d _s _c).

End Doubles.

(** The doubles with their operations taken as exact.  What is kept of them
    is the constant, which is not pi, and the two ends of what [atan2] can
    return. *)
Module Double.

(** [M_PI] of [<cmath>] is written 3.14159265358979323846; the double it
    denotes is 0x1.921fb54442d18p+1, that is 884279719003555 / 2^48. *)
Definition M_PI : R := 884279719003555 / 281474976710656.

Definition exact (x : R) : R := x.

(** [atan2] returns a double, and no double lies between [M_PI] and pi: an
    angle beyond [M_PI] comes back as [M_PI], and likewise at the other
    end. *)
Definition atan2 (y x : R) : R := Rmax (- M_PI) (Rmin M_PI (Dbl.atan2 y x)).

Definition normalize : R -> R := normalize_d M_PI exact cos sin atan2.

(** The partial sums of Machin's series for [PI / 4], as
    [2 * atan (1/3) + atan (1/7)], on rationals: they bound pi from both
    sides. *)
Definition machin_term (i : nat) : Q :=
  let k := Z.of_nat (2 * i + 1) in
  ((if Nat.even i then 1 else -1)
   * (2 * (1 # 3) ^ k / inject_Z k + (1 # 7) ^ k / inject_Z k))%Q.

Fixpoint machin_sum (n : nat) : Q :=
  match n with
  | O => machin_term O
  | S m => (machin_sum m + machin_term n)%Q
  end.

End Double.

(** ** Vectors and matrices of [yarp::sig] and [yarp::math] *)

Definition Vector := list R.

Module Vec.

Definition get (v : Vector) (i : nat) : R := nth i v 0.

(** [v[i]=x]; a write past the end is undefined in C++ and changes nothing
    here. *)
Fixpoint set (v : Vector) (i : nat) (x : R) : Vector :=
  match v, i with
  | [], _ => []
  | _ :: t, O => x :: t
  | h :: t, S i' => h :: set t i' x
  end.

(** [v=x] on a vector: every element becomes [x]. *)
Definition fill (v : Vector) (x : R) : Vector := map (fun _ => x) v.

Fixpoint add (u v : Vector) : Vector :=
  match u, v with
  | a :: u', b :: v' => (a + b) :: add u' v'
  | _, _ => []
  end.

Fixpoint sub (u v : Vector) : Vector :=
  match u, v with
  | a :: u', b :: v' => (a - b) :: sub u' v'
  | _, _ => []
  end.

Definition scale (k : R) (v : Vector) : Vector := map (Rmult k) v.

Definition sumsq (v : Vector) : R := fold_right (fun x acc => x * x + acc) 0 v.

(** [yarp::math::norm]. *)
Definition norm (v : Vector) : R := sqrt (sumsq v).

(** [v.subVector(first,last)], both ends included. *)
Definition subVector (v : Vector) (first last : nat) : Vector :=
  firstn (last - first + 1) (skipn first v).

Definition push_back (v : Vector) (x : R) : Vector := v ++ [x].
Definition pop_back (v : Vector) : Vector := removelast v.

End Vec.

Record Matrix : Type := mkMatrix {
  rows : nat;
  cols : nat;
  entry : nat -> nat -> R
}.

Module Mat.

Definition sum_upto (n : nat) (f : nat -> R) : R :=
  fold_right (fun k acc => f k + acc) 0 (seq 0 n).

(** [Matrix M(r,c)] and [M.zero()]: the constructor fills with zeros. *)
Definition zeros (r c : nat) : Matrix := mkMatrix r c (fun _ _ => 0).

(** [eye(r,c)], and [M.eye()] on a matrix of that size. *)
Definition eye (r c : nat) : Matrix :=
  mkMatrix r c (fun i j => if Nat.eqb i j then 1 else 0).

(** [M(r,c)=v]. *)
Definition upd (M : Matrix) (r c : nat) (v : R) : Matrix :=
  mkMatrix (rows M) (cols M)
    (fun i j => if Nat.eqb i r && Nat.eqb j c then v else entry M i j).

(** A run of assignments [M(r,c)=v], in the order of the source. *)
Definition assign (M : Matrix) (l : list (nat * nat * R)) : Matrix :=
  fold_left (fun A '(r, c, v) => upd A r c v) l M.

Definition mul (A B : Matrix) : Matrix :=
  mkMatrix (rows A) (cols B)
    (fun i j => sum_upto (cols A) (fun k => entry A i k * entry B k j)).

Definition sub (A B : Matrix) : Matrix :=
  mkMatrix (rows A) (cols A) (fun i j => entry A i j - entry B i j).

Definition mulv (A : Matrix) (v : Vector) : Vector :=
  map (fun i => sum_upto (cols A) (fun k => entry A i k * Vec.get v k))
      (seq 0 (rows A)).

Definition getCol (M : Matrix) (j : nat) : Vector :=
  map (fun i => entry M i j) (seq 0 (rows M)).

(** [M.setCol(j,v)], for a vector with one component per row. *)
Definition setCol (M : Matrix) (j : nat) (v : Vector) : Matrix :=
  mkMatrix (rows M) (cols M)
    (fun i c => if Nat.eqb c j then Vec.get v i else entry M i c).

(** [M.setSubmatrix(S,r,c)]: [S] is copied with its corner at [(r,c)]. *)
Definition setSubmatrix (M S : Matrix) (r c : nat) : Matrix :=
  mkMatrix (rows M) (cols M)
    (fun i j =>
       if Nat.leb r i && Nat.ltb i (r + rows S)
          && Nat.leb c j && Nat.ltb j (c + cols S)
       then entry S (i - r) (j - c) else entry M i j).

End Mat.

(** [KarmaMotor::dist]: the Frobenius norm of a matrix. *)
Definition dist (M : Matrix) : R :=
  sqrt (Mat.sum_upto (rows M) (fun r =>
          Mat.sum_upto (cols M) (fun c => entry M r c * entry M r c))).

Infix "*m" := Mat.mul (at level 40, left associativity).

(** ** Bottles of [yarp::os], as far as the module reads and builds them *)

Local Set Warnings "-register-all,-notation-for-abbreviation".

Inductive Value : Type :=
| VNull
| VInt (n : Z)
| VDouble (d : R)
| VString (s : string)
| VVocab (code : Z)
| VList (l : list Value).

Definition Bottle := list Value.

Module Vocab.

Definition byte_at (s : string) (i : nat) : Z :=
  match String.get i s with
  | Some ch => Z.of_N (Ascii.N_of_ascii ch)
  | None => 0%Z
  end.

(** [VOCAB4(a,b,c,d)]. *)
Definition VOCAB4 (a b c d : Ascii.ascii) : Z :=
  (Z.shiftl (Z.of_N (Ascii.N_of_ascii d)) 24
   + Z.shiftl (Z.of_N (Ascii.N_of_ascii c)) 16
   + Z.shiftl (Z.of_N (Ascii.N_of_ascii b)) 8
   + Z.of_N (Ascii.N_of_ascii a))%Z.

Arguments VOCAB4 (a b c d)%_char_scope.

(** [Vocab::encode]: the first four characters of the string, missing ones
    being 0. *)
Definition encode (s : string) : Z :=
  (Z.shiftl (byte_at s 3) 24 + Z.shiftl (byte_at s 2) 16
   + Z.shiftl (byte_at s 1) 8 + byte_at s 0)%Z.

Definition char_of (n : Z) (i : Z) : Ascii.ascii :=
  Ascii.ascii_of_N (Z.to_N (Z.land (Z.shiftr n (8 * i)) 255)).

(** [Vocab::decode]: the characters of the code, up to the first 0. *)
Definition decode (n : Z) : string :=
  let keep (i : Z) (rest : string) : string :=
    if Z.eqb (Z.land (Z.shiftr n (8 * i)) 255) 0 then EmptyString
    else String (char_of n i) rest in
  keep 0%Z (keep 1%Z (keep 2%Z (keep 3%Z EmptyString))).

End Vocab.

Module Btl.

Definition size (b : Bottle) : nat := List.length b.
Definition get (b : Bottle) (i : nat) : Value := nth i b VNull.
Definition tail (b : Bottle) : Bottle := tl b.

Definition asVocab (v : Value) : Z :=
  match v with
  | VInt n => n
  | VVocab n => n
  | VString s => Vocab.encode s
  | _ => 0%Z
  end.

Definition asDouble (v : Value) : R :=
  match v with
  | VInt n => IZR n
  | VVocab n => IZR n
  | VDouble d => d
  | _ => 0
  end.

Definition asInt (v : Value) : Z :=
  match v with
  | VInt n => n
  | VVocab n => n
  | VDouble d => Dbl.to_int d
  | _ => 0%Z
  end.

Definition asString (v : Value) : string :=
  match v with
  | VString s => s
  | VVocab n => Vocab.decode n
  | _ => EmptyString
  end.

Definition addVocab (b : Bottle) (n : Z) : Bottle := b ++ [VVocab n].
Definition addDouble (b : Bottle) (d : R) : Bottle := b ++ [VDouble d].
Definition addInt (b : Bottle) (n : Z) : Bottle := b ++ [VInt n].
Definition addString (b : Bottle) (s : string) : Bottle := b ++ [VString s].
Definition addList (b : Bottle) (l : Bottle) : Bottle := b ++ [VList l].
Definition append (b l : Bottle) : Bottle := b ++ l.

End Btl.

(** ** The module's state and the calls it makes *)

Inductive Arm : Type := LeftArm | RightArm.

Definition Arm_eqb (a b : Arm) : bool :=
  match a, b with
  | LeftArm, LeftArm | RightArm, RightArm => true
  | _, _ => false
  end.

(** The members of [KarmaMotor] that the actions read or write.
    [iCartCtrl] holds [iCartCtrlL] or [iCartCtrlR] once an action has
    assigned it, and nothing before. *)
Record KarmaMotor : Type := mkKarmaMotor {
  iCartCtrl : option Arm;
  pushHand : string;
  toolFrame : Matrix;
  handUsed : string;
  interrupting : bool;
  mov_time : R;
  elbow_set : bool;
  elbow_height : R;
  elbow_weight : R
}.

Definition set_iCartCtrl (st : KarmaMotor) (a : Arm) : KarmaMotor :=
  mkKarmaMotor (Some a) (pushHand st) (toolFrame st) (handUsed st)
    (interrupting st) (mov_time st) (elbow_set st) (elbow_height st)
    (elbow_weight st).

Definition set_tool (st : KarmaMotor) (hand : string) (frame : Matrix)
  : KarmaMotor :=
  mkKarmaMotor (iCartCtrl st) hand frame (handUsed st)
    (interrupting st) (mov_time st) (elbow_set st) (elbow_height st)
    (elbow_weight st).

Definition set_interrupting (st : KarmaMotor) (b : bool) : KarmaMotor :=
  mkKarmaMotor (iCartCtrl st) (pushHand st) (toolFrame st) (handUsed st)
    b (mov_time st) (elbow_set st) (elbow_height st) (elbow_weight st).

(** A call on the Cartesian controller of an arm ([ICartesianControl]) or on
    the gaze controller ([IGazeControl]), with the arguments passed in. *)
Inductive call : Type :=
| storeContext (a : Arm)
| restoreContext (a : Arm) (id : Z)
| deleteContext (a : Arm) (id : Z)
| tweakSet (a : Arm) (options : Bottle)
| getDOF (a : Arm)
| setDOF (a : Arm) (dof : Vector)
| askForPose (a : Arm) (xd od : Vector)
| askForPoseQ (a : Arm) (q0 xd od : Vector)
| goToPoseSync (a : Arm) (xd od : Vector) (t : R)
| waitMotionDone (a : Arm) (period timeout : R)
| lookAtMonoPixel (camSel : Z) (px : Vector).

Definition is_motion (c : call) : bool :=
  match c with
  | goToPoseSync _ _ _ _ => true
  | _ => false
  end.

Definition is_restore (c : call) : bool :=
  match c with
  | restoreContext _ _ => true
  | _ => false
  end.

Definition is_delete (c : call) : bool :=
  match c with
  | deleteContext _ _ => true
  | _ => false
  end.

Definition is_store (c : call) : bool :=
  match c with
  | storeContext _ => true
  | _ => false
  end.

Definition count (p : call -> bool) (t : list call) : nat :=
  List.length (filter p t).

(** What the world outside the worker thread supplies during one action:
    the answers of the chosen arm's controller, and the moment the stop port
    sets [interrupting].  [stop_at = Some k] says that [interruptModule] runs
    after the worker has read the flag [k] times in this action and before
    it reads it again; [None] says that no stop request arrives.  The calls
    [interruptModule] makes itself, from the thread of the stop port, are
    not part of the list of calls of the action. *)
Record Env : Type := mkEnv {
  env_context : Z;
  env_dof : Vector;
  env_ask1 : Vector * Vector * Vector;
  env_ask2 : Vector * Vector * Vector;
  stop_at : option nat
}.

(** The value of [interrupting] at its [i]-th read (from 0) within the
    action: set on entry, or set since by the stop port; only the end of
    [respond] clears it. *)
Definition flag (st : KarmaMotor) (env : Env) (i : nat) : bool :=
  interrupting st ||
  match stop_at env with
  | Some k => Nat.leb k i
  | None => false
  end.

Definition at_ (r c : nat) (v : R) : nat * nat * R := (r, c, v).

Definition selectable : string := "selectable".

Section Actions.

(** Functions of the libraries the module is linked with:
    [yarp::math::SE3inv], [iCub::ctrl::dcm2axis], [iCub::ctrl::axis2dcm].
    Nothing is assumed about them. *)
Variable SE3inv : Matrix -> Matrix.
Variable dcm2axis : Matrix -> Vector.
Variable axis2dcm : Vector -> Matrix.

(** *** [KarmaMotor::changeElbowHeight] *)
Definition changeElbowHeight (st : KarmaMotor) (a : Arm) : list call :=
  if elbow_set st then
    [tweakSet a
       [VList [VString "task_2";
               VList [VInt 6;
                      VList [VDouble 0; VDouble 0; VDouble (elbow_height st)];
                      VList [VDouble 0; VDouble 0; VDouble (elbow_weight st)]]]]]
  else [].

(** *** [KarmaMotor::push] *)

(** The frame centred at [c]. *)
Definition push_H0 (c : Vector) : Matrix :=
  Mat.assign (Mat.zeros 4 4)
    [at_ 1 0 1; at_ 0 1 (-1); at_ 2 2 1;
     at_ 0 3 (Vec.get c 0); at_ 1 3 (Vec.get c 1); at_ 2 3 (Vec.get c 2);
     at_ 3 3 1].

(** Candidate 1, in the frame [H0]: z-axis pointing inward. *)
Definition push_H1 (_c _s radius : R) : Matrix :=
  Mat.assign (Mat.zeros 4 4)
    [at_ 0 0 (- _s); at_ 1 0 _c;
     at_ 2 1 (-1);
     at_ 0 2 (- _c); at_ 1 2 (- _s);
     at_ 0 3 (radius * _c); at_ 1 3 (radius * _s); at_ 3 3 1].

(** Candidate 2, in the frame [H0]: z-axis pointing outward. *)
Definition push_H2 (_c _s radius : R) : Matrix :=
  Mat.assign (Mat.zeros 4 4)
    [at_ 0 0 _s; at_ 1 0 (- _c);
     at_ 2 1 (-1);
     at_ 0 2 _c; at_ 1 2 _s;
     at_ 0 3 (radius * _c); at_ 1 3 (radius * _s); at_ 3 3 1].

(** [Heps(0,3)+=epsilon*_c; Heps(1,3)+=epsilon*_s]. *)
Definition push_eps_shift (H : Matrix) (_c _s epsilon : R) : Matrix :=
  Mat.assign H
    [at_ 0 3 (entry H 0 3 + epsilon * _c);
     at_ 1 3 (entry H 1 3 + epsilon * _s)].

(** The four poses [push] identifies, in the root frame, and the two
    matrices it compares with the controller's answers. *)
Record PushPlan : Type := mkPushPlan {
  pp_H1 : Matrix;
  pp_H2 : Matrix;
  pp_xd1 : Vector;    pp_od1 : Vector;
  pp_xd2 : Vector;    pp_od2 : Vector;
  pp_xd1eps : Vector; pp_od1eps : Vector;
  pp_xd2eps : Vector; pp_od2eps : Vector
}.

Definition push_plan (c : Vector) (theta radius : R) (frame : Matrix)
  : PushPlan :=
  let H0 := push_H0 c in
  let _c := cos_theta theta in
  let _s := sin_theta theta in
  let epsilon := 0.05 in
  let H1 := push_H1 _c _s radius in
  let H2 := push_H2 _c _s radius in
  let H1eps := push_eps_shift H1 _c _s epsilon in
  let H2eps := push_eps_shift H2 _c _s epsilon in
  let invFrame := SE3inv frame in
  let H1 := H0 *m H1 *m invFrame in
  let H2 := H0 *m H2 *m invFrame in
  let H1eps := H0 *m H1eps *m invFrame in
  let H2eps := H0 *m H2eps *m invFrame in
  mkPushPlan H1 H2
    (Vec.subVector (Mat.getCol H1 3) 0 2) (dcm2axis H1)
    (Vec.subVector (Mat.getCol H2 3) 0 2) (dcm2axis H2)
    (Vec.subVector (Mat.getCol H1eps 3) 0 2) (dcm2axis H1eps)
    (Vec.subVector (Mat.getCol H2eps 3) 0 2) (dcm2axis H2eps).

(** "choose the arm": the controller [iCartCtrl] is pointed at. *)
Definition push_arm (armType : string) (xd1 : Vector) : Arm :=
  if String.eqb armType selectable then
    if Dbl.geb (Vec.get xd1 1) 0 then RightArm else LeftArm
  else if String.eqb armType "left" then LeftArm
  else RightArm.

(** The pose the pointers [xd] and [od] designate. *)
Inductive Candidate : Type := Cand1 | Cand2 | Cand1eps | Cand2eps.

Definition Candidate_eqb (a b : Candidate) : bool :=
  match a, b with
  | Cand1, Cand1 | Cand2, Cand2 | Cand1eps, Cand1eps | Cand2eps, Cand2eps => true
  | _, _ => false
  end.

(** "compare solutions and choose the best": [d1] and [d2] are the
    distances between each candidate and the controller's answer to it. *)
Definition push_choose (_theta : R) (a : Arm) (d1 d2 : R) : Candidate :=
  if Dbl.ltb (Rabs (_theta - 90)) 45 then
    if Arm_eqb a RightArm then Cand1 else Cand2
  else if Dbl.ltb (Rabs (_theta + 90)) 45 then
    if Arm_eqb a RightArm then Cand2 else Cand1
  else if Dbl.ltb d1 d2 then Cand1
  else Cand2.

(** "(increased radius)". *)
Definition push_increase (_theta : R) (a : Arm) (sel : Candidate) : Candidate :=
  if Arm_eqb a RightArm && Dbl.ltb _theta 0 && Candidate_eqb sel Cand2
  then Cand2eps
  else if Arm_eqb a LeftArm && Dbl.ltb _theta 0 && Candidate_eqb sel Cand1
  then Cand1eps
  else sel.

Definition cand_xd (p : PushPlan) (sel : Candidate) : Vector :=
  match sel with
  | Cand1 => pp_xd1 p | Cand2 => pp_xd2 p
  | Cand1eps => pp_xd1eps p | Cand2eps => pp_xd2eps p
  end.

Definition cand_od (p : PushPlan) (sel : Candidate) : Vector :=
  match sel with
  | Cand1 => pp_od1 p | Cand2 => pp_od2 p
  | Cand1eps => pp_od1eps p | Cand2eps => pp_od2eps p
  end.

(** [Hhat=axis2dcm(odhat); Hhat(0,3)=xdhat[0]; ...]. *)
Definition push_Hhat (xdhat odhat : Vector) : Matrix :=
  Mat.assign (axis2dcm odhat)
    [at_ 0 3 (Vec.get xdhat 0); at_ 1 3 (Vec.get xdhat 1);
     at_ 2 3 (Vec.get xdhat 2)].

(** The duration of the segment that pushes. *)
Definition push_tbounds (theta : R) (armType : string) : R * R :=
  let '(tmin, tmax) :=
    if Dbl.ltb (Rabs theta) 10 || Dbl.ltb (Rabs (theta - 180)) 10
    then (0.40, 0.60) else (0.50, 0.80) in
  if negb (String.eqb armType selectable)
  then (tmin * 1.3, tmax * 1.3) else (tmin, tmax).

Definition push_trajTime (theta radius : R) (armType : string) : R :=
  let rmin := 0.04 in
  let rmax := 0.18 in
  let '(tmin, tmax) := push_tbounds theta armType in
  let trajTime := tmin + ((tmax - tmin) / (rmax - rmin)) * (radius - rmin) in
  Rmax (Rmin tmax trajTime) tmin.

(** The target of the pushing segment: the centroid seen from the tool. *)
Definition push_target (c od : Vector) (frame : Matrix) : Vector :=
  let H := axis2dcm od in
  let center := Vec.push_back c 1 in
  let H := Mat.setCol H 3 center in
  let x := Vec.scale (-1) (Mat.getCol frame 3) in
  let x := Vec.set x 3 1 in
  let x := Mat.mulv H x in
  Vec.pop_back x.

(** The four guarded segments of [push]; segment [i] reads [interrupting]
    for the [i]-th time. *)
Definition push_segment (st : KarmaMotor) (env : Env) (a : Arm)
    (c xd od : Vector) (trajTime : R) (frame : Matrix) (i : nat) : list call :=
  if flag st env i then []
  else
    match i with
    | 0%nat => [goToPoseSync a (Vec.add xd [0; 0; 0.1]) od 1.0;
                waitMotionDone a 0.1 4.0]
    | 1%nat => [goToPoseSync a xd od 1.0; waitMotionDone a 0.1 4.0]
    | 2%nat => [goToPoseSync a (push_target c od frame) od trajTime;
                waitMotionDone a 0.1 3.0]
    | 3%nat => [goToPoseSync a xd od 1.0; waitMotionDone a 0.1 2.0]
    | _ => []
    end.

Definition straightness (w : R) : Bottle :=
  [VList [VString "straightness"; VDouble w]].

(** [dof=1.0; dof[1]=0.0]. *)
Definition dof_mask (dof : Vector) : Vector := Vec.set (Vec.fill dof 1) 1 0.

(** "try out different poses" up to "(increased radius)": the pose [xd] and
    [od] designate when the movement starts. *)
Definition push_select (p : PushPlan) (env : Env) (_theta : R) (a : Arm)
  : Candidate :=
  let '(xdhat1, odhat1, _) := env_ask1 env in
  let '(xdhat2, odhat2, _) := env_ask2 env in
  let d1 := dist (Mat.sub (pp_H1 p) (push_Hhat xdhat1 odhat1)) in
  let d2 := dist (Mat.sub (pp_H2 p) (push_Hhat xdhat2 odhat2)) in
  push_increase _theta a (push_choose _theta a d1 d2).

Definition push (st : KarmaMotor) (env : Env) (c : Vector)
    (theta radius : R) (armType : string) (frame : Matrix)
  : KarmaMotor * list call :=
  let p := push_plan c theta radius frame in
  let _theta := normalize theta in
  let a := push_arm armType (pp_xd1 p) in
  let st := set_iCartCtrl st a in
  let context := env_context env in
  let dof := dof_mask (env_dof env) in
  let sel := push_select p env _theta a in
  let xd := cand_xd p sel in
  let od := cand_od p sel in
  let trajTime := push_trajTime theta radius armType in
  (st,
   [storeContext a; tweakSet a (straightness 10.0)]
   ++ changeElbowHeight st a
   ++ [getDOF a; setDOF a dof;
       askForPose a (pp_xd1 p) (pp_od1 p);
       askForPose a (pp_xd2 p) (pp_od2 p)]
   ++ push_segment st env a c xd od trajTime frame 0
   ++ push_segment st env a c xd od trajTime frame 1
   ++ push_segment st env a c xd od trajTime frame 2
   ++ push_segment st env a c xd od trajTime frame 3
   ++ [restoreContext a context; deleteContext a context]).

(** *** [KarmaMotor::draw] *)

(** The frame centred at the projection of [c] on the sagittal plane. *)
Definition draw_H0 (c : Vector) : Matrix :=
  let c_sag := Vec.set c 1 0 in
  Mat.assign (Mat.zeros 4 4)
    [at_ 1 0 1; at_ 0 1 (-1); at_ 2 2 1;
     at_ 0 3 (Vec.get c_sag 0); at_ 1 3 (Vec.get c_sag 1);
     at_ 2 3 (Vec.get c_sag 2); at_ 3 3 1].

Definition draw_H1 (_c _s radius : R) : Matrix :=
  Mat.assign (Mat.eye 4 4) [at_ 0 3 (radius * _c); at_ 1 3 (radius * _s)].

Definition draw_H2 (dist : R) : Matrix :=
  Mat.assign (Mat.eye 4 4) [at_ 1 3 (- dist)].

(** "apply final axes": the test is made on the controller [iCartCtrl]
    designates when [draw] is entered. *)
Definition draw_axes (current : option Arm) : Matrix :=
  match current with
  | Some RightArm =>
      Mat.assign (Mat.zeros 3 3) [at_ 0 0 (-1); at_ 2 1 (-1); at_ 1 2 (-1)]
  | _ =>
      Mat.assign (Mat.zeros 3 3) [at_ 0 0 (-1); at_ 2 1 (-1); at_ 1 2 (-1)]
  end.

(** "recover the original place": [H] is the rotation [axis2dcm(r)]; its
    last column is written for the first waypoint, then again for the
    second. *)
Definition recover_frame (H Hi : Matrix) (c1 : R) : Matrix :=
  Mat.assign H
    [at_ 0 3 (entry Hi 0 3); at_ 1 3 (entry Hi 1 3 + c1); at_ 2 3 (entry Hi 2 3)].

Definition clear_origin (Hi : Matrix) : Matrix :=
  Mat.assign Hi [at_ 2 3 0; at_ 1 3 0; at_ 0 3 0].

Definition recover (H H1 H2 : Matrix) (c1 : R) : Matrix * Matrix :=
  let H := recover_frame H H1 c1 in
  let H1 := H *m clear_origin H1 in
  let H := recover_frame H H2 c1 in
  let H2 := H *m clear_origin H2 in
  (H1, H2).

(** The two waypoints of a draw, in the root frame. *)
Record DrawPlan : Type := mkDrawPlan {
  dp_arm : Arm;
  dp_xd1 : Vector; dp_od1 : Vector;
  dp_xd2 : Vector; dp_od2 : Vector
}.

Definition pose_xd (H : Matrix) : Vector := Vec.subVector (Mat.getCol H 3) 0 2.

(** The waypoints on the sagittal plane, the final axes applied. *)
Definition draw_sagittal (current : option Arm) (c : Vector)
    (theta radius dist : R) : Matrix * Matrix :=
  let H0 := draw_H0 c in
  let _c := cos_theta theta in
  let _s := sin_theta theta in
  let H1 := draw_H1 _c _s radius in
  let H2 := draw_H2 dist in
  let H2 := H0 *m H1 *m H2 in
  let H1 := H0 *m H1 in
  let R := draw_axes current in
  let H1 := Mat.setSubmatrix H1 R 0 0 in
  let H2 := Mat.setSubmatrix H2 R 0 0 in
  (H1, H2).

(** "choose the arm", on the first waypoint of the sagittal plane. *)
Definition draw_arm (armType : string) (xd1 : Vector) : Arm :=
  if String.eqb armType selectable then
    if Dbl.geb (Vec.get xd1 1) 0 then RightArm else LeftArm
  else if String.eqb armType "left" then LeftArm
  else RightArm.

Definition draw_plan (current : option Arm) (c : Vector)
    (theta radius dist : R) (armType : string) (frame : Matrix) : DrawPlan :=
  let '(H1, H2) := draw_sagittal current c theta radius dist in
  let xd1 := pose_xd H1 in
  let a := draw_arm armType xd1 in
  let '(H1, H2) :=
    if Dbl.neqb (Vec.get c 1) 0 then
      let r := [0; 0; -1; Dbl.atan2 (Vec.get c 1) (Rabs (Vec.get c 0))] in
      recover (axis2dcm r) H1 H2 (Vec.get c 1)
    else (H1, H2) in
  let invFrame := SE3inv frame in
  let H1 := H1 *m invFrame in
  let H2 := H2 *m invFrame in
  mkDrawPlan a (pose_xd H1) (dcm2axis H1) (pose_xd H2) (dcm2axis H2).

(** The same frames as functions of [_c] and [_s], the values lines 945-946
    got from [cos] and [sin]. *)
Definition draw_sagittal_from (current : option Arm) (c : Vector)
    (_c _s radius dist : R) : Matrix * Matrix :=
  let H0 := draw_H0 c in
  let H1 := draw_H1 _c _s radius in
  let H2 := draw_H2 dist in
  let H2 := H0 *m H1 *m H2 in
  let H1 := H0 *m H1 in
  let R := draw_axes current in
  let H1 := Mat.setSubmatrix H1 R 0 0 in
  let H2 := Mat.setSubmatrix H2 R 0 0 in
  (H1, H2).

Definition draw_plan_from (current : option Arm) (c : Vector)
    (_c _s radius dist : R) (armType : string) (frame : Matrix) : DrawPlan :=
  let '(H1, H2) := draw_sagittal_from current c _c _s radius dist in
  let xd1 := pose_xd H1 in
  let a := draw_arm armType xd1 in
  let '(H1, H2) :=
    if Dbl.neqb (Vec.get c 1) 0 then
      let r := [0; 0; -1; Dbl.atan2 (Vec.get c 1) (Rabs (Vec.get c 0))] in
      recover (axis2dcm r) H1 H2 (Vec.get c 1)
    else (H1, H2) in
  let invFrame := SE3inv frame in
  let H1 := H1 *m invFrame in
  let H2 := H2 *m invFrame in
  mkDrawPlan a (pose_xd H1) (dcm2axis H1) (pose_xd H2) (dcm2axis H2).

(** "simulate the movements": the quality of a virtual draw. *)
Definition draw_quality (xd1 od1 xd2 od2 xdhat1 odhat1 xdhat2 odhat2 : Vector)
  : R :=
  let e_x1 := Vec.norm (Vec.sub xd1 xdhat1) in
  let e_o1 := Vec.norm (Vec.sub od1 odhat1) in
  let e_x2 := Vec.norm (Vec.sub xd2 xdhat2) in
  let e_o2 := Vec.norm (Vec.sub od2 odhat2) in
  let nearness_penalty :=
    if Dbl.ltb (Vec.norm xdhat1) 0.15 || Dbl.ltb (Vec.norm xdhat2) 0.15
    then 10.0 else 0.0 in
  e_x1 + e_o1 + e_x2 + e_o2 + nearness_penalty.

(** "execute the movements": three guarded segments; [t3] is the duration
    of the pull. *)
Definition draw_segment (st : KarmaMotor) (env : Env) (p : DrawPlan)
    (t3 : R) (i : nat) : list call :=
  if flag st env i then []
  else
    let a := dp_arm p in
    match i with
    | 0%nat => [goToPoseSync a (Vec.add (dp_xd1 p) [0; 0; 0.05]) (dp_od1 p) 2.0;
                waitMotionDone a 0.1 5.0]
    | 1%nat => [goToPoseSync a (dp_xd1 p) (dp_od1 p) 1.5;
                waitMotionDone a 0.1 5.0]
    | 2%nat => [goToPoseSync a (dp_xd2 p) (dp_od2 p) t3;
                waitMotionDone a 0.1 5.0]
    | _ => []
    end.

Definition draw (st : KarmaMotor) (env : Env) (simulation : bool)
    (c : Vector) (theta radius dist : R) (armType : string) (frame : Matrix)
  : KarmaMotor * list call * R :=
  let p := draw_plan (iCartCtrl st) c theta radius dist armType frame in
  let a := dp_arm p in
  let st := set_iCartCtrl st a in
  let context := env_context env in
  let dof := dof_mask (env_dof env) in
  let setup :=
    [storeContext a; tweakSet a (straightness 30.0)]
    ++ changeElbowHeight st a
    ++ [getDOF a; setDOF a dof] in
  let cleanup := [restoreContext a context; deleteContext a context] in
  if simulation then
    let '(xdhat1, odhat1, qdhat) := env_ask1 env in
    let '(xdhat2, odhat2, _) := env_ask2 env in
    let res := draw_quality (dp_xd1 p) (dp_od1 p) (dp_xd2 p) (dp_od2 p)
                 xdhat1 odhat1 xdhat2 odhat2 in
    (st,
     setup
     ++ [askForPose a (dp_xd1 p) (dp_od1 p);
         askForPoseQ a qdhat (dp_xd2 p) (dp_od2 p)]
     ++ cleanup,
     res)
  else
    (st,
     setup
     ++ draw_segment st env p 3.5 0
     ++ draw_segment st env p 3.5 1
     ++ draw_segment st env p 3.5 2
     ++ cleanup,
     0.0).

(** *** [KarmaMotor::draw2] *)

(** [fi] and [psi], in degrees, for the arm and the hand pose. *)
Definition draw2_angles (a : Arm) (pose : Z) : R * R :=
  match a with
  | RightArm => if Z.eqb pose 0 then (0, -50) else (120, -30)
  | LeftArm => if Z.eqb pose 0 then (0, -50) else (-120, -30)
  end.

Definition rot_Ax (n : nat) (fi_rad : R) : Matrix :=
  Mat.assign (Mat.zeros n n)
    [at_ 0 0 1;
     at_ 1 1 (cos fi_rad); at_ 1 2 (sin fi_rad);
     at_ 2 1 (- sin fi_rad); at_ 2 2 (cos fi_rad)].

Definition rot_Az (n : nat) (psi_rad : R) : Matrix :=
  Mat.assign (Mat.zeros n n)
    [at_ 0 0 (cos psi_rad); at_ 0 1 (sin psi_rad);
     at_ 1 0 (- sin psi_rad); at_ 1 1 (cos psi_rad);
     at_ 2 2 1].

Definition rot_HR (n : nat) : Matrix :=
  Mat.assign (Mat.zeros n n) [at_ 0 0 (-1); at_ 1 2 (-1); at_ 2 1 (-1)].

Definition draw2_axes (a : Arm) (pose : Z) : Matrix :=
  let '(fi, psi) := draw2_angles a pose in
  let fi_rad := Dbl.CTRL_DEG2RAD * fi in
  let psi_rad := Dbl.CTRL_DEG2RAD * psi in
  rot_HR 3 *m rot_Ax 3 fi_rad *m rot_Az 3 psi_rad.

Definition draw2_plan (c : Vector) (pose : Z) (theta radius dist : R)
    (armType : string) (frame : Matrix) : DrawPlan :=
  let H0 := draw_H0 c in
  let theta_rad := Dbl.CTRL_DEG2RAD * (theta - 90) in
  let _c := cos theta_rad in
  let _s := sin theta_rad in
  let H1 := draw_H1 _c _s radius in
  let H2 := draw_H2 dist in
  let H2 := H0 *m H1 *m H2 in
  let H1 := H0 *m H1 in
  let a :=
    if String.eqb armType selectable then
      if Dbl.geb (Vec.get c 1) 0 then RightArm else LeftArm
    else if String.eqb armType "left" then LeftArm
    else RightArm in
  let R := draw2_axes a pose in
  let H1 := Mat.setSubmatrix H1 R 0 0 in
  let H2 := Mat.setSubmatrix H2 R 0 0 in
  let '(H1, H2) :=
    if Dbl.neqb (Vec.get c 1) 0 then
      let r := [0; 0; -1; 0] in
      recover (axis2dcm r) H1 H2 (Vec.get c 1)
    else (H1, H2) in
  let invFrame := SE3inv frame in
  let H1 := H1 *m invFrame in
  let H2 := H2 *m invFrame in
  mkDrawPlan a (pose_xd H1) (dcm2axis H1) (pose_xd H2) (dcm2axis H2).

Definition draw2_quality (xd1 od1 xd2 od2 xdhat1 odhat1 xdhat2 odhat2 : Vector)
  : R :=
  let e_x1 := Vec.norm (Vec.sub xd1 xdhat1) in
  let e_o1 := Vec.norm (Vec.sub od1 odhat1) in
  let e_x2 := Vec.norm (Vec.sub xd2 xdhat2) in
  let e_o2 := Vec.norm (Vec.sub od2 odhat2) in
  let nearness_penalty :=
    if Dbl.ltb (Vec.norm xdhat2) 0.15 then 10.0 else 0.0 in
  e_x1 + e_o1 + e_x2 + e_o2 + nearness_penalty.

Definition draw2 (st : KarmaMotor) (env : Env) (simulation : bool)
    (pose : Z) (c : Vector) (theta radius dist : R) (armType : string)
    (frame : Matrix) : KarmaMotor * list call * R :=
  let p := draw2_plan c pose theta radius dist armType frame in
  let a := dp_arm p in
  let st := set_iCartCtrl st a in
  let context := env_context env in
  let dof := dof_mask (env_dof env) in
  let setup :=
    [storeContext a; tweakSet a (straightness 30.0);
     getDOF a; setDOF a dof] in
  let cleanup := [restoreContext a context; deleteContext a context] in
  if simulation then
    let '(xdhat1, odhat1, qdhat) := env_ask1 env in
    let '(xdhat2, odhat2, _) := env_ask2 env in
    let res := draw2_quality (dp_xd1 p) (dp_od1 p) (dp_xd2 p) (dp_od2 p)
                 xdhat1 odhat1 xdhat2 odhat2 in
    (st,
     setup
     ++ [askForPose a (dp_xd1 p) (dp_od1 p);
         askForPoseQ a qdhat (dp_xd2 p) (dp_od2 p)]
     ++ cleanup,
     res)
  else
    (st,
     setup
     ++ draw_segment st env p (mov_time st) 0
     ++ draw_segment st env p (mov_time st) 1
     ++ draw_segment st env p (mov_time st) 2
     ++ cleanup,
     0.0).

(** *** [KarmaMotor::push2] *)

(** A target position, in the frame of the object: cylindrical coordinates
    [(magn, alfa_rad, offZ)]. *)
Definition push2_P2O (alfa_rad magn offZ : R) : Matrix :=
  Mat.assign (Mat.eye 4 4)
    [at_ 0 3 (cos alfa_rad * magn); at_ 1 3 (sin alfa_rad * magn);
     at_ 2 3 offZ].

(** The controller and the angle [fi] chosen from the arm type; an arm type
    that is none of the three names leaves [iCartCtrl] as it was. *)
Definition push2_arm (current : option Arm) (armType : string) (c : Vector)
  : option Arm * R :=
  if (String.eqb armType selectable && Dbl.geb (Vec.get c 1) 0)
     || String.eqb armType "right"
  then (Some RightArm, 120)
  else if (String.eqb armType selectable && Dbl.ltb (Vec.get c 1) 0)
          || String.eqb armType "left"
  then (Some LeftArm, -120)
  else (current, 0).

Definition push2_H2P (fi psi : R) : Matrix :=
  let fi_rad := Dbl.CTRL_DEG2RAD * fi in
  let psi_rad := Dbl.CTRL_DEG2RAD * psi in
  let Ax := Mat.upd (rot_Ax 4 fi_rad) 3 3 1 in
  let Az := Mat.upd (rot_Az 4 psi_rad) 3 3 1 in
  let HR := Mat.upd (rot_HR 4) 3 3 1 in
  HR *m Ax *m Az.

Definition push2_segment (st : KarmaMotor) (env : Env) (a : Arm)
    (T2R : Matrix) (t timeout : R) (i : nat) : list call :=
  if flag st env i then []
  else [goToPoseSync a (pose_xd T2R) (dcm2axis T2R) t;
        waitMotionDone a 0.1 timeout].

(** The result is [None] when the arm type is unknown and no controller was
    ever selected: the calls are then made through an unset pointer. *)
Definition push2 (st : KarmaMotor) (env : Env) (pose : Z) (c : Vector)
    (theta radius : R) (armType : string) (frame : Matrix)
  : option (KarmaMotor * list call) :=
  let _theta := normalize theta in
  let O2R := Mat.assign (Mat.eye 4 4)
    [at_ 0 3 (Vec.get c 0); at_ 1 3 (Vec.get c 1); at_ 2 3 (Vec.get c 2)] in
  let P2O0 := push2_P2O (Dbl.CTRL_DEG2RAD * (_theta + 0)) radius 0.1 in
  let P2O1 := push2_P2O (Dbl.CTRL_DEG2RAD * (_theta + 0)) radius 0 in
  let P2O2 := push2_P2O (Dbl.CTRL_DEG2RAD * (_theta + 180)) radius 0 in
  let P2O3 := push2_P2O (Dbl.CTRL_DEG2RAD * (_theta + 180)) radius 0.1 in
  let '(ctrl, fi) := push2_arm (iCartCtrl st) armType c in
  let '(fi, psi) := if Z.eqb pose 0 then (0, -50) else (fi, -30) in
  let H2P := push2_H2P fi psi in
  let T2H := SE3inv frame in
  match ctrl with
  | None => None
  | Some a =>
      let st := set_iCartCtrl st a in
      let context := env_context env in
      let dof := dof_mask (env_dof env) in
      Some (st,
            [storeContext a; tweakSet a (straightness 10.0);
             getDOF a; setDOF a dof]
            ++ push2_segment st env a (O2R *m P2O0 *m H2P *m T2H) 1.0 4.0 0
            ++ push2_segment st env a (O2R *m P2O1 *m H2P *m T2H) 1.0 4.0 1
            ++ push2_segment st env a (O2R *m P2O2 *m H2P *m T2H) (mov_time st) 3.0 2
            ++ push2_segment st env a (O2R *m P2O3 *m H2P *m T2H) 1.0 2.0 3
            ++ [restoreContext a context; deleteContext a context])
  end.

(** *** [KarmaMotor::moveTool]: "gaze robustly at the tool tip" *)

(** The variables of the loop. *)
Record GazeLoop : Type := mkGazeLoop {
  pxCum : Vector;
  cnt : Z;
  done : bool;
  t0 : R
}.

Definition gaze_init (now : R) : GazeLoop := mkGazeLoop [0.0; 0.0] 0 false now.

(** What one iteration observes: [interrupting] at the loop test, the clock
    [Time::now()], and what [visionPort.read(false)] returns. *)
Record Tick : Type := mkTick {
  tick_interrupting : bool;
  tick_now : R;
  tick_target : option Bottle
}.

(** The body of the loop. *)
Definition gaze_body (eye : string) (s : GazeLoop) (t1 : R)
    (target : option Bottle) : GazeLoop * list call :=
  let '(s, calls) :=
    match target with
    | Some target =>
        if Nat.leb 2 (Btl.size target) then
          let px := [Btl.asDouble (Btl.get target 0);
                     Btl.asDouble (Btl.get target 1) + 50.0] in
          (mkGazeLoop (Vec.add (pxCum s) px) (cnt s + 1) (done s) (t0 s),
           [lookAtMonoPixel (if String.eqb eye "left" then 0 else 1) px])
        else (s, [])
    | None => (s, [])
    end in
  if Dbl.geb (t1 - t0 s) 3.0 then
    let done' :=
      if Z.ltb 20 (cnt s)
      then Dbl.ltb (Rabs (Vec.get (pxCum s) 1 / IZR (cnt s) - 120)) 30.0
      else done s in
    (mkGazeLoop (Vec.fill (pxCum s) 0.0) 0 done' t1, calls)
  else (s, calls).

(** [while (!interrupting && !done)], along the observations of the
    iterations; the list bounds how far the run is followed. *)
Fixpoint gaze_loop (eye : string) (s : GazeLoop) (ticks : list Tick)
  : GazeLoop * list call :=
  match ticks with
  | [] => (s, [])
  | tk :: ticks' =>
      if negb (tick_interrupting tk) && negb (done s) then
        let '(s', calls) := gaze_body eye s (tick_now tk) (tick_target tk) in
        let '(s'', calls') := gaze_loop eye s' ticks' in
        (s'', calls ++ calls')
      else (s, [])
  end.

(** *** [KarmaMotor::respond] *)

(** [findToolTip] is not followed here: what it does to the state, the calls
    it makes, the bottle it fills and the value it returns are left open.
    [RFModule::respond] is the handler of the base class. *)
Variable findToolTip :
  KarmaMotor -> Env -> string -> string -> KarmaMotor * list call * Bottle * bool.
Variable RFModule_respond : Bottle -> Bottle * bool.

Definition ack : Z := Vocab.encode "ack".
Definition nack : Z := Vocab.encode "nack".

Definition dbl (b : Bottle) (i : nat) : R := Btl.asDouble (Btl.get b i).

(** The two tool commands differ in the frame an attach builds. *)
Definition respond_tool (alt : bool) (st : KarmaMotor) (command : Bottle)
  : KarmaMotor * Bottle :=
  if Nat.ltb 1 (Btl.size command) then
    let subcommand := Btl.tail command in
    let tag := Btl.asVocab (Btl.get subcommand 0) in
    if Z.eqb tag (Vocab.encode "attach") then
      let payload := Btl.tail subcommand in
      if Nat.leb 4 (Btl.size payload) then
        let hand := Btl.asString (Btl.get payload 0) in
        let point := [dbl payload 1; dbl payload 2; dbl payload 3; 1.0] in
        let frame :=
          if alt then
            Mat.eye (rows (toolFrame st)) (cols (toolFrame st))
          else
            let r := [0.0; 0.0; -1.0;
                      Dbl.atan2 (- Vec.get point 1) (Vec.get point 0)] in
            axis2dcm r in
        (set_tool st hand (Mat.setCol frame 3 point), Btl.addVocab [] ack)
      else (st, [])
    else if Z.eqb tag (Vocab.encode "get") then
      (st,
       Btl.addDouble
         (Btl.addDouble
            (Btl.addDouble
               (Btl.addString (Btl.addVocab [] ack) (pushHand st))
               (entry (toolFrame st) 0 3))
            (entry (toolFrame st) 1 3))
         (entry (toolFrame st) 2 3))
    else if Z.eqb tag (Vocab.encode "remove") then
      (set_tool st selectable (Mat.eye 4 4), Btl.addVocab [] ack)
    else (st, [])
  else (st, []).

(** The result is the state, the reply, the calls made meanwhile and the
    value returned; [None] comes from [push2] only. *)
Definition respond (st : KarmaMotor) (env : Env) (command : Bottle)
  : option (KarmaMotor * Bottle * list call * bool) :=
  let cmd := Btl.asVocab (Btl.get command 0) in
  let finish (r : KarmaMotor * Bottle * list call) :=
    let '(st, reply, calls) := r in
    Some (set_interrupting st false, reply, calls, true) in
  if Z.eqb cmd (Vocab.VOCAB4 "p" "u" "s" "h") then
    let payload := Btl.tail command in
    if Nat.leb 5 (Btl.size payload) then
      let c := [dbl payload 0; dbl payload 1; dbl payload 2] in
      let theta := dbl payload 3 in
      let radius := dbl payload 4 in
      let '(st, calls) :=
        push st env c theta radius (pushHand st) (toolFrame st) in
      finish (st, Btl.addVocab [] ack, calls)
    else finish (st, [], [])
  else if Z.eqb cmd (Vocab.VOCAB4 "d" "r" "a" "w")
          || Z.eqb cmd (Vocab.VOCAB4 "v" "d" "r" "a") then
    let payload := Btl.tail command in
    if Nat.leb 6 (Btl.size payload) then
      let c := [dbl payload 0; dbl payload 1; dbl payload 2] in
      let theta := dbl payload 3 in
      let radius := dbl payload 4 in
      let dist := dbl payload 5 in
      let simulation := Z.eqb cmd (Vocab.VOCAB4 "v" "d" "r" "a") in
      let '(st, calls, res) :=
        draw st env simulation c theta radius dist (pushHand st) (toolFrame st) in
      let reply := Btl.addVocab [] ack in
      finish (st, if simulation then Btl.addDouble reply res else reply, calls)
    else finish (st, [], [])
  else if Z.eqb cmd (Vocab.VOCAB4 "f" "i" "n" "d") then
    let payload := Btl.tail command in
    if Nat.leb 2 (Btl.size payload) then
      let arm := Btl.asString (Btl.get payload 0) in
      let eye := Btl.asString (Btl.get payload 1) in
      let '(st, calls, solution, ok) := findToolTip st env arm eye in
      if ok
      then finish (st, Btl.append (Btl.addVocab [] ack) (Btl.tail solution), calls)
      else finish (st, Btl.addVocab [] nack, calls)
    else finish (st, [], [])
  else if Z.eqb cmd (Vocab.VOCAB4 "t" "o" "o" "l") then
    let '(st, reply) := respond_tool false st command in
    finish (st, reply, [])
  else if Z.eqb cmd (Vocab.VOCAB4 "p" "u" "s" "p") then
    let payload := Btl.tail command in
    if Nat.leb 6 (Btl.size payload) then
      let pose := Btl.asInt (Btl.get payload 0) in
      let c := [dbl payload 1; dbl payload 2; dbl payload 3] in
      let theta := dbl payload 4 in
      let radius := dbl payload 5 in
      match push2 st env pose c theta radius (pushHand st) (toolFrame st) with
      | Some (st, calls) => finish (st, Btl.addVocab [] ack, calls)
      | None => None
      end
    else finish (st, [], [])
  else if Z.eqb cmd (Vocab.VOCAB4 "d" "r" "a" "p")
          || Z.eqb cmd (Vocab.VOCAB4 "v" "d" "r" "p") then
    let payload := Btl.tail command in
    if Nat.leb 7 (Btl.size payload) then
      let pose := Dbl.to_int (dbl payload 0) in
      let c := [dbl payload 1; dbl payload 2; dbl payload 3] in
      let theta := dbl payload 4 in
      let radius := dbl payload 5 in
      let dist := dbl payload 6 in
      let simulation := Z.eqb cmd (Vocab.VOCAB4 "v" "d" "r" "p") in
      let '(st, calls, res) :=
        draw2 st env simulation pose c theta radius dist (pushHand st)
          (toolFrame st) in
      let reply := Btl.addVocab [] ack in
      finish (st, if simulation then Btl.addDouble reply res else reply, calls)
    else finish (st, [], [])
  else if Z.eqb cmd (Vocab.VOCAB4 "t" "o" "o" "p") then
    let '(st, reply) := respond_tool true st command in
    finish (st, reply, [])
  else
    let '(reply, ret) := RFModule_respond command in
    Some (set_interrupting st false, reply, [], ret).

End Actions.

(** ** What the properties speak of *)

Definition near_0_or_180 (theta : R) : Prop :=
  Rabs theta < 10 \/ Rabs (theta - 180) < 10.

(** What C1 says of the singular angles: each arm has its candidate, the same
    wherever the angle lies in the two ranges and whatever the controller
    answered. *)
Definition arm_alone_designates : Prop :=
  exists designated : Arm -> Candidate,
    forall (_theta : R) (a : Arm) (d1 d2 : R),
      Rabs (_theta - 90) < 45 \/ Rabs (_theta + 90) < 45 ->
      push_choose _theta a d1 d2 = designated a.

(** The rotation block of a pose, row by row. *)
Definition rotation_block (H : Matrix) : list (list R) :=
  map (fun i => map (fun j => entry H i j) [0; 1; 2]%nat) [0; 1; 2]%nat.

(** What C2 says of the final axes: they are not the same for the two
    controllers the test can see. *)
Definition axes_differ_by_arm : Prop :=
  draw_axes (Some LeftArm) <> draw_axes (Some RightArm).

(** The fields an action request needs after its verb, and the place of the
    radius among them. *)
Definition action_fields (cmd : Z) : option (nat * nat) :=
  if Z.eqb cmd (Vocab.VOCAB4 "p" "u" "s" "h") then Some (5, 4)%nat
  else if Z.eqb cmd (Vocab.VOCAB4 "d" "r" "a" "w")
          || Z.eqb cmd (Vocab.VOCAB4 "v" "d" "r" "a") then Some (6, 4)%nat
  else if Z.eqb cmd (Vocab.VOCAB4 "f" "i" "n" "d") then None
  else if Z.eqb cmd (Vocab.VOCAB4 "t" "o" "o" "l") then None
  else if Z.eqb cmd (Vocab.VOCAB4 "p" "u" "s" "p") then Some (6, 5)%nat
  else if Z.eqb cmd (Vocab.VOCAB4 "d" "r" "a" "p")
          || Z.eqb cmd (Vocab.VOCAB4 "v" "d" "r" "p") then Some (7, 5)%nat
  else None.

Definition invalid_request (command : Bottle) : Prop :=
  exists n ir : nat,
    action_fields (Btl.asVocab (Btl.get command 0)) = Some (n, ir)
    /\ ((Btl.size (Btl.tail command) < n)%nat
        \/ dbl (Btl.tail command) ir <= 0).

(** What C4 says: an invalid request is answered with [nack] and moves
    nothing, whatever the libraries and the environment are. *)
Definition invalid_requests_are_refused : Prop :=
  forall (SE3inv : Matrix -> Matrix) (dcm2axis : Matrix -> Vector)
         (axis2dcm : Vector -> Matrix)
         (findToolTip : KarmaMotor -> Env -> string -> string ->
                        KarmaMotor * list call * Bottle * bool)
         (RFModule_respond : Bottle -> Bottle * bool)
         (st : KarmaMotor) (env : Env) (command : Bottle),
    invalid_request command ->
    exists (st' : KarmaMotor) (calls : list call) (ret : bool),
      respond SE3inv dcm2axis axis2dcm findToolTip RFModule_respond st env command
      = Some (st', [VVocab nack], calls, ret)
      /\ count is_motion calls = 0%nat.

(** What C7 says of a normalisation [f]: its values lie in (-180, 180], and
    it leaves its own values unchanged. *)
Definition wraps_into_half_open_interval (f : R -> R) : Prop :=
  forall theta : R, (-180 < f theta <= 180) /\ f (f theta) = f theta.

(** What C6 says of the bounds.  A direction is near another one when the
    two are less than 10 degrees apart, whole turns left aside; a tool is
    attached by an attach request that was acknowledged. *)
Definition near_direction (theta a : R) : Prop :=
  exists k : Z, Rabs (theta - a - 360 * IZR k) < 10.

Definition faster_near_0_or_180 : Prop :=
  forall theta : R,
    near_direction theta 0 \/ near_direction theta 180 ->
    push_tbounds theta selectable = (0.40, 0.60).

Definition attached_tool_scales_bounds : Prop :=
  forall (SE3inv : Matrix -> Matrix) (dcm2axis : Matrix -> Vector)
         (axis2dcm : Vector -> Matrix)
         (findToolTip : KarmaMotor -> Env -> string -> string ->
                        KarmaMotor * list call * Bottle * bool)
         (RFModule_respond : Bottle -> Bottle * bool)
         (st st1 : KarmaMotor) (env : Env) (arm : string) (x y z theta : R),
    respond SE3inv dcm2axis axis2dcm findToolTip RFModule_respond st env
      [VString "tool"; VString "attach"; VString arm;
       VDouble x; VDouble y; VDouble z]
    = Some (st1, [VVocab ack], [], true) ->
    push_tbounds theta (pushHand st1)
    = (fst (push_tbounds theta selectable) * 1.3,
       snd (push_tbounds theta selectable) * 1.3).

(** The verb of a draw request: the virtual one runs the action in
    simulation. *)
Definition draw_verb (simulation : bool) : string :=
  if simulation then "vdra"%string else "draw"%string.

Definition draw2_verb (simulation : bool) : string :=
  if simulation then "vdrp"%string else "drap"%string.

Definition tool_verb (alt : bool) : string :=
  if alt then "toop"%string else "tool"%string.

(** The pixel a read of the vision port delivers to the loop, as observed:
    nothing when the port is empty or the bottle has fewer than two items. *)
Definition raw_pixel (target : option Bottle) : list (R * R) :=
  match target with
  | Some b =>
      if Nat.leb 2 (Btl.size b)
      then [(Btl.asDouble (Btl.get b 0), Btl.asDouble (Btl.get b 1))]
      else []
  | None => []
  end.

Definition sum (ys : list R) : R := fold_right Rplus 0 ys.
Definition mean (ys : list R) : R := sum ys / INR (List.length ys).

(** The vertical coordinates observed since the window was opened, after one
    more iteration of the loop. *)
Definition window_after (s : GazeLoop) (ys : list R) (t1 : R)
    (target : option Bottle) : list R :=
  if Dbl.geb (t1 - t0 s) 3.0 then []
  else ys ++ map snd (raw_pixel target).

(** The loop of [gaze_loop], followed together with the observed window. *)
Fixpoint gaze_window (eye : string) (s : GazeLoop) (ys : list R)
    (ticks : list Tick) : GazeLoop * list R :=
  match ticks with
  | [] => (s, ys)
  | tk :: ticks' =>
      if negb (tick_interrupting tk) && negb (done s) then
        gaze_window eye
          (fst (gaze_body eye s (tick_now tk) (tick_target tk)))
          (window_after s ys (tick_now tk) (tick_target tk)) ticks'
      else (s, ys)
  end.

(** What the loop variables hold of the observed window [ys]. *)
Definition accumulates (s : GazeLoop) (ys : list R) : Prop :=
  cnt s = Z.of_nat (List.length ys)
  /\ List.length (pxCum s) = 2%nat
  /\ Vec.get (pxCum s) 1 = sum (map (fun y => y + 50) ys).

(** The state after the sample of the iteration is taken in, before the
    window is tested. *)
Definition gaze_taken (s : GazeLoop) (target : option Bottle) : GazeLoop :=
  match raw_pixel target with
  | (x, y) :: _ =>
      mkGazeLoop (Vec.add (pxCum s) [x; y + 50.0]) (cnt s + 1) (done s) (t0 s)
  | [] => s
  end.

(** ** Inputs on which the model is run

    Stand-ins for the library functions and the environment, for runs on
    given requests; no property depends on them. *)

Module Sample.

Definition SE3inv (H : Matrix) : Matrix := H.
Definition dcm2axis (H : Matrix) : Vector := [0; 0; 1; 0].
Definition axis2dcm (v : Vector) : Matrix := Mat.eye 4 4.

Definition findToolTip (st : KarmaMotor) (env : Env) (arm eye : string)
  : KarmaMotor * list call * Bottle * bool := (st, [], [], false).

Definition RFModule_respond (command : Bottle) : Bottle * bool := ([], false).

(** The state [configure] leaves, without elbow task. *)
Definition st : KarmaMotor :=
  mkKarmaMotor None selectable (Mat.eye 4 4) "null" false 1.0 false 0 0.

Definition env (stop : option nat) : Env :=
  mkEnv 1 [1; 1; 1; 1; 1; 1; 1; 1; 1; 1]
    ([0; 0; 0], [0; 0; 1; 0], []) ([0; 0; 0], [0; 0; 1; 0], []) stop.

(** Twenty-one iterations one second after the window opened, each reading
    the pixel [(100, y)]. *)
Definition window (y : R) : list Tick :=
  repeat (mkTick false 1 (Some [VDouble 100; VDouble y])) 21.

Definition short_push : Bottle := [VString "push"; VDouble 0.3].

Definition negative_push : Bottle :=
  [VString "push"; VDouble 0.3; VDouble 0.1; VDouble 0; VDouble 0;
   VDouble (-1)].

Definition negative_vdraw : Bottle :=
  [VString "vdra"; VDouble 0.3; VDouble 0.1; VDouble 0; VDouble 0;
   VDouble (-1); VDouble 0.1].

End Sample.

Module Sample2.

(** The request "vdraw 0.3 0 0 90 0.1 0.1". *)
Definition virtual_draw : Bottle :=
  [VString "vdraw"; VDouble 0.3; VDouble 0; VDouble 0; VDouble 90;
   VDouble 0.1; VDouble 0.1].

End Sample2.

(** ** What the further properties speak of *)

(** The arm whose controller a call is made on. *)
Definition call_arm (c : call) : option Arm :=
  match c with
  | storeContext a | restoreContext a _ | deleteContext a _ | tweakSet a _
  | getDOF a | setDOF a _ | askForPose a _ _ | askForPoseQ a _ _ _
  | goToPoseSync a _ _ _ | waitMotionDone a _ _ => Some a
  | lookAtMonoPixel _ _ => None
  end.

Definition is_ask (c : call) : bool :=
  match c with
  | askForPose _ _ _ | askForPoseQ _ _ _ _ => true
  | _ => false
  end.

(** A matrix that has the entries of the identity: the inverse of the tool
    frame when no tool is attached. *)
Definition is_identity (H : Matrix) : Prop :=
  forall i j : nat, entry H i j = if Nat.eqb i j then 1 else 0.

(** The positions and durations of the motions of a list of calls, in
    order. *)
Definition motions (t : list call) : list (Vector * R) :=
  flat_map (fun x => match x with
                     | goToPoseSync _ xd _ dur => [(xd, dur)]
                     | _ => []
                     end) t.

(** How many of the first [n] reads of [interrupting] find it clear. *)
Definition clear_reads (st : KarmaMotor) (env : Env) (n : nat) : nat :=
  List.length (filter (fun i => negb (flag st env i)) (seq 0 n)).

(** A matrix of four rows and four columns: what [axis2dcm] returns. *)
Definition is_4x4 (H : Matrix) : Prop := rows H = 4%nat /\ cols H = 4%nat.

(** ** The tool exploration: [shakeHand], [stopHand], [moveTool],
    [findToolTip], and the stop port *)

(** The members [flip_hand] and [shake_joint]. *)
Record Hand : Type := mkHand {
  flip_hand : R;
  shake_joint : Z
}.

Definition set_handUsed (st : KarmaMotor) (hand : string) : KarmaMotor :=
  mkKarmaMotor (iCartCtrl st) (pushHand st) (toolFrame st) hand
    (interrupting st) (mov_time st) (elbow_set st) (elbow_height st)
    (elbow_weight st).

(** A call made during the exploration, or by the stop port: on an arm's
    Cartesian controller or with a pixel for the gaze ([on_arm]), on the gaze
    controller, on the joints of a hand ([driverHL], [driverHR]), or a
    request written to the finder port. *)
Inductive tcall : Type :=
| on_arm (c : call)
| gaze_storeContext
| gaze_restoreContext (id : Z)
| gaze_deleteContext (id : Z)
| setTrackingMode (b : bool)
| lookAtFixationPoint (x : Vector)
| setSaccadesStatus (b : bool)
| setNeckTrajTime (t : R)
| setEyesTrajTime (t : R)
| gaze_stopControl
| arm_stopControl (a : Arm)
| setControlMode (hand : Arm) (joint : Z) (mode : Z)
| getEncoder (hand : Arm) (joint : Z)
| velocityMove (hand : Arm) (joint : Z) (v : R)
| stopJoint (hand : Arm) (joint : Z)
| finder (command : Bottle).

(** The hand driver a name selects: [driverHL] for "left", [driverHR] for
    every other name. *)
Definition hand_of (name : string) : Arm :=
  if String.eqb name "left" then LeftArm else RightArm.

(** [VOCAB_CM_VELOCITY]. *)
Definition VOCAB_CM_VELOCITY : Z := Vocab.encode "vel".

Section Shaking.

(** [iCub::ctrl::sign], of the iCub library. *)
Variable sign : R -> R.

(** *** [KarmaMotor::shakeHand]; [pos] is what the encoder reads. *)
Definition shakeHand (st : KarmaMotor) (h : Hand) (pos : R)
  : Hand * list tcall :=
  let hand := hand_of (handUsed st) in
  let e := flip_hand h - pos in
  let '(flip, e) :=
    if (Dbl.ltb 0 (flip_hand h) && Dbl.ltb e 0)
       || (Dbl.ltb (flip_hand h) 0 && Dbl.ltb 0 e)
    then (- flip_hand h, - flip_hand h - pos)
    else (flip_hand h, e) in
  (mkHand flip (shake_joint h),
   [getEncoder hand (shake_joint h);
    velocityMove hand (shake_joint h) (120.0 * sign e)]).

(** *** [KarmaMotor::updateModule] *)
Definition updateModule (st : KarmaMotor) (h : Hand) (pos : R)
  : Hand * list tcall * bool :=
  if negb (interrupting st) && negb (String.eqb (handUsed st) "null")
  then (shakeHand st h pos, true)
  else (h, [], true).

End Shaking.

(** *** [KarmaMotor::stopHand] *)
Definition stopHand (hand : string) : list tcall :=
  [stopJoint (hand_of hand) 4].

(** *** [KarmaMotor::interruptModule], and [KarmaMotor::read] that the stop
    port runs on every message *)
Definition interruptModule (st : KarmaMotor) : KarmaMotor * list tcall * bool :=
  (set_interrupting st true,
   [gaze_stopControl; arm_stopControl LeftArm; arm_stopControl RightArm]
   ++ (if negb (String.eqb (handUsed st) "null")
       then stopHand "left" ++ stopHand "right"
       else []),
   true).

Definition read (st : KarmaMotor) : KarmaMotor * list tcall * bool :=
  let '(st, calls, _) := interruptModule st in (st, calls, true).

(** *** [KarmaMotor::moveTool] *)

(** What one iteration of the second loop observes: [interrupting] at the
    loop test, the finder's reply to "num", and the vision port. *)
Record GatherTick : Type := mkGatherTick {
  g_interrupting : bool;
  g_reply : Bottle;
  g_target : option Bottle
}.

(** What the world supplies during one [moveTool]: [interrupting] at the
    first test, the clock before the first loop, the observations of the
    iterations of the two loops, and the finder's reply to the first
    "num". *)
Record ToolEnv : Type := mkToolEnv {
  te_interrupting : bool;
  te_now : R;
  te_gaze : list Tick;
  te_num : Bottle;
  te_gather : list GatherTick
}.

(** The first loop, followed until it is left: [None] when the observations
    end while the loop would go on. *)
Fixpoint gaze_run (eye : string) (s : GazeLoop) (ticks : list Tick)
  : option (GazeLoop * list call) :=
  match ticks with
  | [] => if done s then Some (s, []) else None
  | tk :: ticks' =>
      if negb (tick_interrupting tk) && negb (done s) then
        let '(s', calls) := gaze_body eye s (tick_now tk) (tick_target tk) in
        match gaze_run eye s' ticks' with
        | Some (s'', calls') => Some (s'', calls ++ calls')
        | None => None
        end
      else Some (s, [])
  end.

(** "gather sufficient information": the second loop, from the number of
    items last read; [bound] is [curItems+maxItems]. *)
Fixpoint gather_loop (eye : string) (nItems bound : Z)
    (ticks : list GatherTick) : option (list tcall) :=
  match ticks with
  | [] => if Z.ltb nItems bound then None else Some []
  | tk :: ticks' =>
      if negb (g_interrupting tk) && Z.ltb nItems bound then
        let nItems := Btl.asInt (Btl.get (g_reply tk) 1) in
        let looks :=
          match g_target tk with
          | Some target =>
              if Nat.leb 2 (Btl.size target) then
                [on_arm
                   (lookAtMonoPixel (if String.eqb eye "left" then 0 else 1)
                      [Btl.asDouble (Btl.get target 0);
                       Btl.asDouble (Btl.get target 1) + 50.0])]
              else []
          | None => []
          end in
        match gather_loop eye nItems bound ticks' with
        | Some calls => Some (finder [VVocab (Vocab.encode "num")] :: looks ++ calls)
        | None => None
        end
      else Some []
  end.

(** [None] when no controller is designated, or when the observations end
    inside a loop. *)
Definition moveTool (st : KarmaMotor) (h : Hand) (env : ToolEnv)
    (arm eye : string) (xd od xOffset : Vector) (maxItems : Z)
  : option (KarmaMotor * list tcall) :=
  match iCartCtrl st with
  | None => None
  | Some a =>
      let reach :=
        if negb (te_interrupting env) then
          [setTrackingMode true;
           lookAtFixationPoint (Vec.add xd xOffset);
           on_arm (goToPoseSync a xd od 1.0);
           on_arm (waitMotionDone a 0.1 0.0)]
        else [] in
      let st := set_handUsed st arm in
      match gaze_run eye (gaze_init (te_now env)) (te_gaze env) with
      | None => None
      | Some (_, looks) =>
          let curItems := Btl.asInt (Btl.get (te_num env) 1) in
          match gather_loop eye 0 (curItems + maxItems) (te_gather env) with
          | None => None
          | Some gathered =>
              Some (set_handUsed st "null",
                    [gaze_restoreContext 0]
                    ++ reach
                    ++ [setSaccadesStatus false; setNeckTrajTime 2.5;
                        setEyesTrajTime 1.5;
                        setControlMode (hand_of arm) (shake_joint h)
                          VOCAB_CM_VELOCITY]
                    ++ map on_arm looks
                    ++ [finder [VVocab (Vocab.encode "enable")];
                        finder [VVocab (Vocab.encode "num")]]
                    ++ gathered
                    ++ [finder [VVocab (Vocab.encode "disable")]]
                    ++ stopHand arm)
          end
      end
  end.

(** *** [KarmaMotor::findToolTip] *)

(** What the world supplies during one [findToolTip]: the identifiers the
    two [storeContext] give, the vector [getDOF] fills, the observations
    during each of the six [moveTool] (numbered from 0), and the finder's
    reply to "find". *)
Record FindEnv : Type := mkFindEnv {
  fe_context_arm : Z;
  fe_context_gaze : Z;
  fe_dof : Vector;
  fe_point : nat -> ToolEnv;
  fe_solution : Bottle
}.

Section Exploration.

Local Notation "'do' p <- e ; k" :=
  (match e with Some p => k | None => None end)
  (at level 10, p pattern, e at level 100, k at level 200, only parsing).

Variable dcm2axis : Matrix -> Vector.
Variable axis2dcm : Vector -> Matrix.

(** The result is the state, the hand variables, the calls made, the bottle
    [reply] and the value returned; [None] when a [moveTool] gives [None].
    [flip_hand] is written by [shakeHand] only. *)
Definition findToolTip (st : KarmaMotor) (h : Hand) (env : FindEnv)
    (arm eye : string)
  : option (KarmaMotor * Hand * list tcall * Bottle * bool) :=
  let left := String.eqb arm "left" in
  match (if left then Some LeftArm
         else if String.eqb arm "right" then Some RightArm
         else None) with
  | None => Some (st, h, [], [], false)
  | Some a =>
      let st := set_iCartCtrl st a in
      let context_arm := fe_context_arm env in
      let context_gaze := fe_context_gaze env in
      let dof := Vec.set (Vec.set (Vec.fill (fe_dof env) 1.0) 1 0.0) 0 0.0 in
      let calls0 :=
        [on_arm (storeContext a); gaze_storeContext;
         on_arm (getDOF a); on_arm (setDOF a dof);
         finder [VVocab (Vocab.encode "clear")];
         finder [VVocab (Vocab.encode "select"); VString arm; VString eye]] in
      let R :=
        Mat.assign (Mat.zeros 4 4)
          [at_ 0 0 (-1.0); at_ 2 1 (-1.0); at_ 1 2 (-1.0); at_ 3 3 1.0] in
      let r := Vec.set [0.0; 0.0; 0.0; 0.0] 0 (-1.0) in
      let xd := [0.0; 0.0; 0.0] in
      let offset := Vec.set [0.0; 0.0; 0.0] 2 0.1 in
      (* point 1 *)
      let r := Vec.set r 3 0.0 in
      let od := dcm2axis (axis2dcm r *m R) in
      let xd := Vec.set xd 0 (-0.35) in
      let h := mkHand (flip_hand h) 4 in
      do (st, calls1) <- moveTool st h (fe_point env 0) arm eye xd od offset 25;
      (* point 2 *)
      let r := Vec.set r 3 (Dbl.CTRL_DEG2RAD * (if left then 30.0 else -30.0)) in
      let od := dcm2axis (axis2dcm r *m R) in
      let xd := Vec.set xd 1 (if left then -0.15 else 0.15) in
      let offset := Vec.set offset 1 (if left then 0.1 else -0.1) in
      do (st, calls2) <- moveTool st h (fe_point env 1) arm eye xd od offset 25;
      (* point 3 *)
      let r := Vec.set r 3 (Dbl.CTRL_DEG2RAD * (if left then 20.0 else -20.0)) in
      let od := dcm2axis (axis2dcm r *m R) in
      let xd := Vec.set xd 2 0.15 in
      let offset := Vec.set offset 1 (if left then 0.2 else -0.2) in
      let offset := Vec.set offset 2 0.1 in
      do (st, calls3) <- moveTool st h (fe_point env 2) arm eye xd od offset 25;
      (* point 4 *)
      let r := Vec.set r 3 (Dbl.CTRL_DEG2RAD * (if left then 10.0 else -10.0)) in
      let od := dcm2axis (axis2dcm r *m R) in
      let xd := Vec.set xd 0 (-0.3) in
      let xd := Vec.set xd 1 (if left then -0.05 else 0.05) in
      let xd := Vec.set xd 2 (-0.05) in
      do (st, calls4) <- moveTool st h (fe_point env 3) arm eye xd od offset 25;
      (* point 5 *)
      let r := Vec.set r 3 (Dbl.CTRL_DEG2RAD * (if left then 45.0 else -45.0)) in
      let od := dcm2axis (axis2dcm r *m R) in
      let xd := Vec.set xd 0 (-0.35) in
      let xd := Vec.set xd 1 (if left then -0.05 else 0.05) in
      let xd := Vec.set xd 2 0.1 in
      let offset := Vec.set offset 1 (if left then 0.1 else -0.1) in
      do (st, calls5) <- moveTool st h (fe_point env 4) arm eye xd od offset 25;
      (* point 6 *)
      let xd := Vec.set xd 0 (-0.35) in
      let xd := Vec.set xd 1 (if left then -0.1 else 0.1) in
      let xd := Vec.set xd 2 0.0 in
      let r1 :=
        Vec.set (Vec.set [0.0; 0.0; 0.0; 0.0] 2 (if left then -1.0 else 1.0))
          3 (Dbl.CTRL_DEG2RAD * 45.0) in
      let r2 :=
        Vec.set (Vec.set [0.0; 0.0; 0.0; 0.0] 0 (if left then 1.0 else -1.0))
          3 (Dbl.CTRL_DEG2RAD * 45.0) in
      let od := dcm2axis ((axis2dcm r2 *m axis2dcm r1) *m R) in
      let offset := Vec.set offset 0 0 in
      let offset := Vec.set offset 1 (if left then -0.05 else 0.05) in
      let offset := Vec.set offset 2 0.1 in
      let h := mkHand (flip_hand h) 6 in
      do (st, calls6) <- moveTool st h (fe_point env 5) arm eye xd od offset 50;
      Some (st, h,
            calls0 ++ calls1 ++ calls2 ++ calls3 ++ calls4 ++ calls5 ++ calls6
            ++ [finder [VVocab (Vocab.encode "find")];
                on_arm (restoreContext a context_arm);
                on_arm (deleteContext a context_arm);
                gaze_restoreContext context_gaze;
                gaze_deleteContext context_gaze],
            fe_solution env, true)
  end.

(** The "find" case of [respond], with [findToolTip] followed. *)
Definition respond_find (st : KarmaMotor) (h : Hand) (env : FindEnv)
    (command : Bottle)
  : option (KarmaMotor * Hand * Bottle * list tcall * bool) :=
  let payload := Btl.tail command in
  if Nat.leb 2 (Btl.size payload) then
    let arm := Btl.asString (Btl.get payload 0) in
    let eye := Btl.asString (Btl.get payload 1) in
    do (st, h, calls, solution, ok) <- findToolTip st h env arm eye;
    let reply :=
      if ok then Btl.append (Btl.addVocab [] ack) (Btl.tail solution)
      else Btl.addVocab [] nack in
    Some (set_interrupting st false, h, reply, calls, true)
  else Some (set_interrupting st false, h, [], [], true).

End Exploration.

(** ** What the properties of the exploration speak of *)

(** The calls of a list made on an arm's controller or with a pixel. *)
Definition arm_calls (t : list tcall) : list call :=
  flat_map (fun c => match c with on_arm x => [x] | _ => [] end) t.

(** The joints put in a control mode, and the joints stopped, in order. *)
Definition mode_joints (t : list tcall) : list (Arm * Z) :=
  flat_map (fun c => match c with
                     | setControlMode hand j _ => [(hand, j)]
                     | _ => []
                     end) t.

Definition stopped_joints (t : list tcall) : list (Arm * Z) :=
  flat_map (fun c => match c with
                     | stopJoint hand j => [(hand, j)]
                     | _ => []
                     end) t.

(** The positions the hand is sent to, the points and the pixels the gaze
    is sent to, and the gaze contexts restored, in order. *)
Definition reaches (t : list tcall) : list Vector :=
  flat_map (fun c => match c with
                     | on_arm (goToPoseSync _ xd _ _) => [xd]
                     | _ => []
                     end) t.

Definition fixations (t : list tcall) : list Vector :=
  flat_map (fun c => match c with
                     | lookAtFixationPoint x => [x]
                     | _ => []
                     end) t.

Definition pixels (t : list tcall) : list Vector :=
  flat_map (fun c => match c with
                     | on_arm (lookAtMonoPixel _ px) => [px]
                     | _ => []
                     end) t.

Definition gaze_restores (t : list tcall) : list Z :=
  flat_map (fun c => match c with
                     | gaze_restoreContext id => [id]
                     | _ => []
                     end) t.

(** The words of the requests written to the finder, in order. *)
Definition finder_words (t : list tcall) : list Z :=
  flat_map (fun c => match c with
                     | finder (VVocab v :: _) => [v]
                     | _ => []
                     end) t.

(** A call of the second loop: a request "num", or a pixel for the gaze. *)
Definition collecting (c : tcall) : Prop :=
  c = finder [VVocab (Vocab.encode "num")]
  \/ exists k px, c = on_arm (lookAtMonoPixel k px).

(** The image of a point of the root frame in the sagittal plane. *)
Definition mirror (x : Vector) : Vector :=
  Vec.set x 1 (- Vec.get x 1).

(** [interrupting] reads as set at every test of a [moveTool]. *)
Definition stopped_throughout (env : ToolEnv) : Prop :=
  te_interrupting env = true
  /\ (exists tk rest, te_gaze env = tk :: rest /\ tick_interrupting tk = true)
  /\ (exists tk rest, te_gather env = tk :: rest /\ g_interrupting tk = true).

(** [interrupting] reads as clear at every test of the two loops. *)
Definition never_stopped (env : ToolEnv) : Prop :=
  Forall (fun tk => tick_interrupting tk = false) (te_gaze env)
  /\ Forall (fun tk => g_interrupting tk = false) (te_gather env).

(** The number of items the finder reports in a reply to "num". *)
Definition items (reply : Bottle) : Z := Btl.asInt (Btl.get reply 1).

(** Stand-ins for the exploration, for runs on given inputs. *)
Module Sample3.

Definition sign (v : R) : R :=
  if Dbl.neqb v 0 then (if Dbl.ltb 0 v then 1 else -1) else 0.

(** An arm has been selected, and the left hand is being shaken. *)
Definition exploring : KarmaMotor :=
  set_handUsed (set_iCartCtrl Sample.st LeftArm) "left".

Definition hand : Hand := mkHand 6.0 4.

(** Observations of a [moveTool] that finds the flag set at every test. *)
Definition stopped : ToolEnv :=
  mkToolEnv true 0 [mkTick true 0 None] [] [mkGatherTick true [] None].

(** Observations of a [moveTool] that finds the flag clear on entry and set
    at the test of each loop. *)
Definition stopped_late : ToolEnv :=
  mkToolEnv false 0 [mkTick true 0 None] [] [mkGatherTick true [] None].

(** Observations of a [moveTool] that is never stopped: twenty-one pixels
    at height 70 within the first window, the iteration that closes it, and
    a finder that counted no item before and 25 at the first request. *)
Definition settled : ToolEnv :=
  mkToolEnv false 0 (Sample.window 70 ++ [mkTick false 3 None])
    [VVocab ack; VInt 0]
    [mkGatherTick false [VVocab ack; VInt 25] None].

Definition find_env (point : ToolEnv) : FindEnv :=
  mkFindEnv 1 2 [1; 1; 1; 1; 1; 1; 1; 1; 1; 1] (fun _ => point)
    [VVocab ack; VDouble 0.1; VDouble 0.0; VDouble 0.05].

End Sample3.

(** The six positions of [findToolTip], numbered from 0, as its
    assignments leave them when [moveTool] is called: the position of the
    hand, the offset of the fixation point, the orientation, the joint
    shaken and the number of items to gather; [left] says that the arm is
    the left one. *)
Definition find_xd (left : bool) (i : nat) : Vector :=
  match i with
  | 0%nat => [-0.35; 0.0; 0.0]
  | 1%nat => [-0.35; if left then -0.15 else 0.15; 0.0]
  | 2%nat => [-0.35; if left then -0.15 else 0.15; 0.15]
  | 3%nat => [-0.3; if left then -0.05 else 0.05; -0.05]
  | 4%nat => [-0.35; if left then -0.05 else 0.05; 0.1]
  | _ => [-0.35; if left then -0.1 else 0.1; 0.0]
  end.

Definition find_offset (left : bool) (i : nat) : Vector :=
  match i with
  | 0%nat => [0.0; 0.0; 0.1]
  | 1%nat => [0.0; if left then 0.1 else -0.1; 0.1]
  | 2%nat => [0.0; if left then 0.2 else -0.2; 0.1]
  | 3%nat => [0.0; if left then 0.2 else -0.2; 0.1]
  | 4%nat => [0.0; if left then 0.1 else -0.1; 0.1]
  | _ => [0; if left then -0.05 else 0.05; 0.1]
  end.

Definition find_R : Matrix :=
  Mat.assign (Mat.zeros 4 4)
    [at_ 0 0 (-1.0); at_ 2 1 (-1.0); at_ 1 2 (-1.0); at_ 3 3 1.0].

Definition find_od (dcm2axis : Matrix -> Vector) (axis2dcm : Vector -> Matrix)
    (left : bool) (i : nat) : Vector :=
  let turned (deg : R) :=
    dcm2axis (axis2dcm [-1.0; 0.0; 0.0; Dbl.CTRL_DEG2RAD * deg] *m find_R) in
  match i with
  | 0%nat => dcm2axis (axis2dcm [-1.0; 0.0; 0.0; 0.0] *m find_R)
  | 1%nat => turned (if left then 30.0 else -30.0)
  | 2%nat => turned (if left then 20.0 else -20.0)
  | 3%nat => turned (if left then 10.0 else -10.0)
  | 4%nat => turned (if left then 45.0 else -45.0)
  | _ =>
      dcm2axis
        ((axis2dcm [if left then 1.0 else -1.0; 0.0; 0.0;
                    Dbl.CTRL_DEG2RAD * 45.0]
          *m axis2dcm [0.0; 0.0; if left then -1.0 else 1.0;
                       Dbl.CTRL_DEG2RAD * 45.0])
         *m find_R)
  end.

Definition find_joint (i : nat) : Z := if Nat.ltb i 5 then 4 else 6.
Definition find_items (i : nat) : Z := if Nat.ltb i 5 then 25 else 50.

(** The calls of [findToolTip] before the first and after the last
    position. *)
Definition find_before (a : Arm) (arm eye : string) (env : FindEnv)
  : list tcall :=
  [on_arm (storeContext a); gaze_storeContext;
   on_arm (getDOF a);
   on_arm (setDOF a (Vec.set (Vec.set (Vec.fill (fe_dof env) 1.0) 1 0.0) 0 0.0));
   finder [VVocab (Vocab.encode "clear")];
   finder [VVocab (Vocab.encode "select"); VString arm; VString eye]].

Definition find_after (a : Arm) (env : FindEnv) : list tcall :=
  [finder [VVocab (Vocab.encode "find")];
   on_arm (restoreContext a (fe_context_arm env));
   on_arm (deleteContext a (fe_context_arm env));
   gaze_restoreContext (fe_context_gaze env);
   gaze_deleteContext (fe_context_gaze env)].

(** The arm a name designates for [findToolTip], with the flag [left] of
    the tables above. *)
Definition names_arm (arm : string) (left : bool) : Prop :=
  (left = true /\ arm = "left"%string) \/ (left = false /\ arm = "right"%string).

(** The position [i] of the exploration, entered in the state [s]. *)
Definition find_step (dcm2axis : Matrix -> Vector)
    (axis2dcm : Vector -> Matrix) (h : Hand) (env : FindEnv)
    (arm eye : string) (left : bool) (i : nat) (s : KarmaMotor)
  : option (KarmaMotor * list tcall) :=
  moveTool s (mkHand (flip_hand h) (find_joint i)) (fe_point env i) arm eye
    (find_xd left i) (find_od dcm2axis axis2dcm left i) (find_offset left i)
    (find_items i).

(** ** Start and end of the module: [configure] and [close] *)

(** The devices and the ports of the module. *)
Inductive Driver : Type := DriverG | DriverL | DriverR | DriverHL | DriverHR.

Inductive PortId : Type := VisionPort | FinderPort | RpcPort | StopPort.

(** What [configure] and [close] do to them: [driver_open] carries the
    device and the remote and local names of its options. *)
Inductive sys : Type :=
| driver_open (d : Driver) (device remote local : string)
| driver_close (d : Driver)
| port_open (p : PortId) (name : string)
| port_close (p : PortId)
| attach (p : PortId)
| setReader (p : PortId).

(** The options read from the [ResourceFinder]: the value found for a
    key, if any. *)
Definition ResourceFinder := string -> option Value.

Definition rf_check (rf : ResourceFinder) (key : string) : bool :=
  match rf key with Some _ => true | None => false end.

Definition rf_check_default (rf : ResourceFinder) (key : string)
    (fallback : Value) : Value :=
  match rf key with Some v => v | None => fallback end.

(** *** [KarmaMotor::configure]; [opens d] says whether the device [d]
    opens.  The state on entry is what the members hold before. *)
Definition configure (rf : ResourceFinder) (opens : Driver -> bool)
    (st : KarmaMotor) (h : Hand)
  : KarmaMotor * Hand * list sys * bool :=
  let name := Btl.asString (rf_check_default rf "name" (VString "karmaMotor")) in
  let robot := Btl.asString (rf_check_default rf "robot" (VString "icub")) in
  let elbow_set' := rf_check rf "elbow_set" in
  let mov_time' := Btl.asDouble (rf_check_default rf "movTime" (VDouble 1.0)) in
  let '(elbow_height', elbow_weight') :=
    if elbow_set' then
      match rf "elbow_set"%string with
      | Some (VList pB) =>
          (Btl.asDouble (Btl.get pB 0), Btl.asDouble (Btl.get pB 1))
      | _ => (0.4, 30.0)
      end
    else (elbow_height st, elbow_weight st) in
  let st :=
    mkKarmaMotor (iCartCtrl st) (pushHand st) (toolFrame st) (handUsed st)
      (interrupting st) mov_time' elbow_set' elbow_height' elbow_weight' in
  let openG :=
    driver_open DriverG "gazecontrollerclient" "/iKinGazeCtrl"
      ("/" ++ name ++ "/gaze_ctrl")%string in
  let openL :=
    driver_open DriverL "cartesiancontrollerclient"
      ("/" ++ robot ++ "/cartesianController/left_arm")%string
      ("/" ++ name ++ "/cart_ctrl/left_arm")%string in
  let openR :=
    driver_open DriverR "cartesiancontrollerclient"
      ("/" ++ robot ++ "/cartesianController/right_arm")%string
      ("/" ++ name ++ "/cart_ctrl/right_arm")%string in
  let openHL :=
    driver_open DriverHL "remote_controlboard"
      ("/" ++ robot ++ "/left_arm")%string
      ("/" ++ name ++ "/hand_ctrl/left_arm")%string in
  let openHR :=
    driver_open DriverHR "remote_controlboard"
      ("/" ++ robot ++ "/right_arm")%string
      ("/" ++ name ++ "/hand_ctrl/right_arm")%string in
  if negb (opens DriverG) then (st, h, [openG], false)
  else if negb (opens DriverL) then
    (st, h, [openG; openL; driver_close DriverG], false)
  else if negb (opens DriverR) then
    (st, h,
     [openG; openL; openR; driver_close DriverG; driver_close DriverL], false)
  else if negb (opens DriverHL) then
    (st, h,
     [openG; openL; openR; openHL;
      driver_close DriverG; driver_close DriverL; driver_close DriverR],
     false)
  else if negb (opens DriverHR) then
    (st, h,
     [openG; openL; openR; openHL; openHR;
      driver_close DriverG; driver_close DriverL; driver_close DriverR;
      driver_close DriverHL],
     false)
  else
    (mkKarmaMotor (iCartCtrl st) selectable (Mat.eye 4 4) "null" false
       (mov_time st) (elbow_set st) (elbow_height st) (elbow_weight st),
     mkHand 6.0 (shake_joint h),
     [openG; openL; openR; openHL; openHR;
      port_open VisionPort ("/" ++ name ++ "/vision:i")%string;
      port_open FinderPort ("/" ++ name ++ "/finder:rpc")%string;
      port_open RpcPort ("/" ++ name ++ "/rpc")%string;
      port_open StopPort ("/" ++ name ++ "/stop:i")%string;
      attach RpcPort; setReader StopPort],
     true).

(** *** [KarmaMotor::close] *)
Definition close : list sys * bool :=
  ([port_close VisionPort; port_close FinderPort; port_close RpcPort;
    port_close StopPort;
    driver_close DriverG; driver_close DriverL; driver_close DriverR;
    driver_close DriverHL; driver_close DriverHR],
   true).

(** The devices a list of calls tries to open and closes, and the ports it
    opens and closes, in order. *)
Definition drivers_tried (t : list sys) : list Driver :=
  flat_map (fun c => match c with driver_open d _ _ _ => [d] | _ => [] end) t.

Definition drivers_closed (t : list sys) : list Driver :=
  flat_map (fun c => match c with driver_close d => [d] | _ => [] end) t.

Definition ports_opened (t : list sys) : list PortId :=
  flat_map (fun c => match c with port_open p _ => [p] | _ => [] end) t.

Definition ports_closed (t : list sys) : list PortId :=
  flat_map (fun c => match c with port_close p => [p] | _ => [] end) t.

Definition all_drivers : list Driver :=
  [DriverG; DriverL; DriverR; DriverHL; DriverHR].

Definition all_ports : list PortId :=
  [VisionPort; FinderPort; RpcPort; StopPort].

(** The options passed to [tweakSet], in order. *)
Definition tweaks (t : list call) : list Bottle :=
  flat_map (fun c => match c with tweakSet _ o => [o] | _ => [] end) t.

(** The option that asks for the elbow task at a height with a weight. *)
Definition elbow_task (height weight : R) : Bottle :=
  [VList [VString "task_2";
          VList [VInt 6;
                 VList [VDouble 0; VDouble 0; VDouble height];
                 VList [VDouble 0; VDouble 0; VDouble weight]]]].

(** The height and the weight the option "elbow_set" asks for, if it is
    given: the two numbers of its list, or 0.4 and 30 without a list. *)
Definition elbow_option (rf : ResourceFinder) : list (R * R) :=
  match rf "elbow_set"%string with
  | Some (VList pB) =>
      [(Btl.asDouble (Btl.get pB 0), Btl.asDouble (Btl.get pB 1))]
  | Some _ => [(0.4, 30.0)]
  | None => []
  end.

(** The options of a run without arguments, and devices that all open but
    the one given. *)
Module Sample4.

Definition no_option : ResourceFinder := fun _ => None.

Definition Driver_eqb (d e : Driver) : bool :=
  match d, e with
  | DriverG, DriverG | DriverL, DriverL | DriverR, DriverR
  | DriverHL, DriverHL | DriverHR, DriverHR => true
  | _, _ => false
  end.

Definition all_but (d : Driver) : Driver -> bool :=
  fun e => negb (Driver_eqb d e).

(** What the members may hold before [configure]. *)
Definition before : KarmaMotor :=
  mkKarmaMotor None ""%string (Mat.zeros 0 0) ""%string true 0 false 0 0.

End Sample4.

(** * Properties *)

(** ** Comparisons of doubles *)

Module DblFacts.

Lemma ltb_true (x y : R) : Dbl.ltb x y = true <-> x < y.
Proof. unfold Dbl.ltb. destruct (Rlt_dec x y); split; intros; auto; discriminate. Qed.

Lemma ltb_false (x y : R) : Dbl.ltb x y = false <-> y <= x.
Proof.
  unfold Dbl.ltb. destruct (Rlt_dec x y); split; intros; auto; try discriminate; lra.
Qed.

Lemma leb_true (x y : R) : Dbl.leb x y = true <-> x <= y.
Proof. unfold Dbl.leb. destruct (Rle_dec x y); split; intros; auto; discriminate. Qed.

Lemma leb_false (x y : R) : Dbl.leb x y = false <-> y < x.
Proof.
  unfold Dbl.leb. destruct (Rle_dec x y); split; intros; auto; try discriminate; lra.
Qed.

Lemma geb_true (x y : R) : Dbl.geb x y = true <-> y <= x.
Proof. apply leb_true. Qed.

Lemma geb_false (x y : R) : Dbl.geb x y = false <-> x < y.
Proof. apply leb_false. Qed.

Lemma neqb_true (x y : R) : Dbl.neqb x y = true <-> x <> y.
Proof. unfold Dbl.neqb. destruct (Req_dec_T x y); split; intros; auto; try discriminate; contradiction. Qed.

End DblFacts.

(** ** The angle of a point and the normalisation of [theta] *)

Section Atan2Facts.

Lemma atan_nonpos (x : R) : x <= 0 -> atan x <= 0.
Proof.
  intros [Hx | ->]; [ | rewrite atan_0; lra ].
  left. rewrite <- atan_0. now apply atan_increasing.
Qed.

Lemma atan_pos (x : R) : 0 < x -> 0 < atan x.
Proof. intros Hx. rewrite <- atan_0. now apply atan_increasing. Qed.

Lemma atan2_bound (y x : R) : - PI < Dbl.atan2 y x <= PI.
Proof.
  pose proof PI_RGT_0 as Hpi.
  unfold Dbl.atan2.
  destruct (Rlt_dec 0 x) as [Hx | Hx].
  - pose proof (atan_bound (y / x)). lra.
  - destruct (Rlt_dec x 0) as [Hx' | Hx'].
    + pose proof (atan_bound (y / x)) as Hb.
      destruct (Rle_dec 0 y) as [Hy | Hy].
      * assert (y / x <= 0) as Hq.
        { unfold Rdiv.
          replace (y * / x) with (- (y * / - x)) by (field; lra).
          assert (0 < / - x) by (apply Rinv_0_lt_compat; lra).
          assert (0 <= y * / - x) by (apply Rmult_le_pos; lra).
          lra. }
        apply atan_nonpos in Hq. lra.
      * assert (0 < y / x) as Hq.
        { unfold Rdiv.
          replace (y * / x) with ((- y) * / - x) by (field; lra).
          apply Rmult_lt_0_compat; [ lra | apply Rinv_0_lt_compat; lra ]. }
        apply atan_pos in Hq. lra.
    + destruct (Rlt_dec 0 y); [ lra | ].
      destruct (Rlt_dec y 0); lra.
Qed.

Lemma tan_shift (a : R) : cos a <> 0 -> sin (a + PI) / cos (a + PI) = tan a.
Proof.
  intros Hc. rewrite neg_sin, neg_cos. unfold tan. field. exact Hc.
Qed.

Lemma atan2_sin_cos (a : R) : - PI < a <= PI -> Dbl.atan2 (sin a) (cos a) = a.
Proof.
  intros [Hlo Hhi]. pose proof PI_RGT_0 as Hpi.
  unfold Dbl.atan2.
  destruct (Rlt_dec a (- (PI / 2))) as [H1 | H1].
  - (* third quadrant *)
    assert (cos a < 0) as Hc.
    { rewrite <- cos_neg. apply cos_lt_0; lra. }
    assert (sin a < 0) as Hs by (apply sin_lt_0_var; lra).
    destruct (Rlt_dec 0 (cos a)); [ lra | ].
    destruct (Rlt_dec (cos a) 0); [ | lra ].
    destruct (Rle_dec 0 (sin a)); [ lra | ].
    assert (0 < cos (a + PI)) as Hc' by (apply cos_gt_0; lra).
    replace (sin a / cos a) with (tan (a + PI)).
    + rewrite atan_tan by lra. lra.
    + unfold tan. rewrite neg_sin, neg_cos. field. lra.
  - destruct (Req_dec_T a (- (PI / 2))) as [H2 | H2].
    + subst a. rewrite cos_neg, sin_neg, cos_PI2, sin_PI2.
      repeat match goal with
             | |- context [Rlt_dec ?u ?v] => destruct (Rlt_dec u v)
             end; lra.
    + destruct (Rlt_dec a (PI / 2)) as [H3 | H3].
      * assert (0 < cos a) as Hc by (apply cos_gt_0; lra).
        destruct (Rlt_dec 0 (cos a)); [ | lra ].
        change (sin a / cos a) with (tan a). apply atan_tan. lra.
      * destruct (Req_dec_T a (PI / 2)) as [H4 | H4].
        -- subst a. rewrite cos_PI2, sin_PI2.
           repeat match goal with
                  | |- context [Rlt_dec ?u ?v] => destruct (Rlt_dec u v)
                  end; lra.
        -- assert (cos a < 0) as Hc by (apply cos_lt_0; lra).
           assert (0 <= sin a) as Hs by (apply sin_ge_0; lra).
           destruct (Rlt_dec 0 (cos a)); [ lra | ].
           destruct (Rlt_dec (cos a) 0); [ | lra ].
           destruct (Rle_dec 0 (sin a)); [ | lra ].
           assert (0 < cos (a - PI)) as Hc'.
           { apply cos_gt_0; lra. }
           replace (sin a / cos a) with (tan (a - PI)).
           ++ rewrite atan_tan by lra. lra.
           ++ rewrite <- (tan_shift (a - PI)) by lra.
              replace (a - PI + PI) with a by lra. reflexivity.
Qed.

End Atan2Facts.

Lemma scale_interval (k lo hi a : R) :
  0 < k -> lo < a <= hi -> k * lo < k * a <= k * hi.
Proof.
  intros Hk [Hlo Hhi]. split.
  - now apply Rmult_lt_compat_l.
  - apply Rmult_le_compat_l; lra.
Qed.

(** With pi itself and nothing rounded, the end -180 is left out and an
    angle of the interval is returned as it is. *)
Lemma normalize_range (theta : R) : -180 < normalize theta <= 180.
Proof.
  unfold normalize. pose proof PI_RGT_0 as Hpi.
  assert (0 < Dbl.CTRL_RAD2DEG) as Hk
    by (unfold Dbl.CTRL_RAD2DEG; apply Rdiv_lt_0_compat; lra).
  pose proof (scale_interval _ _ _ _ Hk
                (atan2_bound (sin_theta theta) (cos_theta theta))) as H.
  assert (Dbl.CTRL_RAD2DEG * - PI = -180) as E1
    by (unfold Dbl.CTRL_RAD2DEG; field; lra).
  assert (Dbl.CTRL_RAD2DEG * PI = 180) as E2
    by (unfold Dbl.CTRL_RAD2DEG; field; lra).
  rewrite E1, E2 in H. exact H.
Qed.

Lemma normalize_fix (theta : R) : -180 < theta <= 180 -> normalize theta = theta.
Proof.
  intros Hth. pose proof PI_RGT_0 as Hpi.
  unfold normalize, sin_theta, cos_theta, theta_rad.
  assert (0 < Dbl.CTRL_DEG2RAD) as Hk
    by (unfold Dbl.CTRL_DEG2RAD; apply Rdiv_lt_0_compat; lra).
  pose proof (scale_interval _ _ _ _ Hk Hth) as H.
  assert (Dbl.CTRL_DEG2RAD * -180 = - PI) as E1
    by (unfold Dbl.CTRL_DEG2RAD; field).
  assert (Dbl.CTRL_DEG2RAD * 180 = PI) as E2
    by (unfold Dbl.CTRL_DEG2RAD; field).
  rewrite E1, E2 in H.
  rewrite atan2_sin_cos by exact H.
  unfold Dbl.CTRL_RAD2DEG, Dbl.CTRL_DEG2RAD. field. lra.
Qed.


(** ** Tactics for the comparisons the code makes *)

Ltac dbl_cases :=
  unfold Dbl.ltb, Dbl.leb, Dbl.geb, Dbl.neqb, Rmax, Rmin, Rabs in *;
  repeat match goal with
         | |- context [Rcase_abs ?a] => destruct (Rcase_abs a)
         | |- context [Rlt_dec ?a ?b] => destruct (Rlt_dec a b)
         | |- context [Rle_dec ?a ?b] => destruct (Rle_dec a b)
         | |- context [Req_dec_T ?a ?b] => destruct (Req_dec_T a b)
         end.

Ltac dbl_solve := dbl_cases; simpl; try lra; try discriminate; try reflexivity.

(** ** The normalisation on doubles *)

(** With pi itself for the constant, nothing rounded and the functions of
    the Standard Library, [normalize_d] is [normalize]. *)
Lemma normalize_d_exact (theta : R) :
  normalize_d PI Double.exact cos sin Dbl.atan2 theta = normalize theta.
Proof. reflexivity. Qed.

Section DoubleFacts.

Variable M_PI : R.
Variable round : R -> R.
Variable cos_d sin_d : R -> R.
Variable atan2_d : R -> R -> R.

Local Notation normalize' := (normalize_d M_PI round cos_d sin_d atan2_d).

(** What is assumed of the doubles: rounding keeps the order and the sign,
    [CTRL_RAD2DEG*M_PI] is the double 180, and [atan2] returns nothing
    beyond [M_PI] and [-M_PI], the doubles nearest to pi and -pi. *)
Hypothesis M_PI_positive : 0 < M_PI.
Hypothesis round_monotone : forall x y : R, x <= y -> round x <= round y.
Hypothesis round_opp : forall x : R, round (- x) = - round x.
Hypothesis half_turn : round (CTRL_RAD2DEG_d M_PI round * M_PI) = 180.
Hypothesis atan2_d_range : forall y x : R, - M_PI <= atan2_d y x <= M_PI.

Lemma round_0 : round 0 = 0.
Proof. pose proof (round_opp 0) as H. rewrite Ropp_0 in H. lra. Qed.

Lemma CTRL_RAD2DEG_d_nonneg : 0 <= CTRL_RAD2DEG_d M_PI round.
Proof.
  unfold CTRL_RAD2DEG_d. rewrite <- round_0. apply round_monotone.
  apply Rlt_le, Rdiv_lt_0_compat; lra.
Qed.

(** C7, amended. The normalised angle lies in the closed interval
    [[-180, 180]], whatever [theta] is, and the end -180 is reached: when
    [CTRL_DEG2RAD*180] is the double [M_PI] and [atan2] gives [-M_PI] back
    from its sine and cosine, -180 is returned for [theta = -180].  Nothing
    is said of a second normalisation: on doubles it gives the same angle
    up to rounding only, and what [round] does to a given number is left
    open here. *)
Theorem normalize_lands_in_closed_range :
  (forall theta : R, -180 <= normalize' theta <= 180)
  /\ (round (CTRL_DEG2RAD_d M_PI round * 180) = M_PI ->
      atan2_d (sin_d (- M_PI)) (cos_d (- M_PI)) = - M_PI ->
      normalize' (-180) = -180).
Proof.
  pose proof CTRL_RAD2DEG_d_nonneg as Hk.
  assert (round (CTRL_RAD2DEG_d M_PI round * - M_PI) = -180) as Hlow.
  { rewrite Ropp_mult_distr_r_reverse, round_opp, half_turn. reflexivity. }
  split.
  - intros theta. unfold normalize_d.
    set (a := atan2_d _ _). pose proof (atan2_d_range
      (sin_d (round (CTRL_DEG2RAD_d M_PI round * theta)))
      (cos_d (round (CTRL_DEG2RAD_d M_PI round * theta)))) as [Hlo Hhi].
    fold a in Hlo, Hhi.
    rewrite <- Hlow, <- half_turn. split; apply round_monotone.
    + apply Rmult_le_compat_l; assumption.
    + apply Rmult_le_compat_l; assumption.
  - intros Hrad Hback. unfold normalize_d.
    replace (CTRL_DEG2RAD_d M_PI round * -180)
      with (- (CTRL_DEG2RAD_d M_PI round * 180)) by ring.
    rewrite round_opp, Hrad, Hback. exact Hlow.
Qed.

End DoubleFacts.

(** *** The constant is below pi *)

Lemma Q2R_pow_inv (p : positive) (k : nat) :
  Q2R ((1 # p) ^ Z.of_nat k) = (/ IZR (Z.pos p)) ^ k.
Proof.
  induction k as [ | k IH].
  - simpl. unfold Q2R. simpl. lra.
  - rewrite Nat2Z.inj_succ. unfold Z.succ.
    rewrite Qpower_plus by (intros H; discriminate H).
    rewrite Q2R_mult, IH. simpl pow.
    replace (Q2R ((1 # p) ^ 1)) with (/ IZR (Z.pos p)).
    + ring.
    + unfold Q2R. simpl. lra.
Qed.

Lemma machin_term_real (i : nat) :
  Q2R (Double.machin_term i) = tg_alt PI_2_3_7_tg i.
Proof.
  unfold Double.machin_term. cbv zeta.
  unfold tg_alt, PI_2_3_7_tg, Ratan_seq.
  rewrite Q2R_mult, Q2R_plus. unfold Qdiv.
  rewrite !Q2R_mult, !Q2R_pow_inv.
  assert (Q2R (/ inject_Z (Z.of_nat (2 * i + 1))) = / INR (2 * i + 1)) as ->.
  { assert (2 * i + 1 <> 0)%nat as Hk by lia.
    revert Hk. generalize (2 * i + 1)%nat. intros k Hk.
    rewrite Q2R_inv.
    - unfold Q2R, inject_Z. cbn [Qnum Qden].
      rewrite INR_IZR_INZ. f_equal. lra.
    - unfold inject_Z, Qeq. cbn [Qnum Qden]. lia. }
  assert (Q2R (if Nat.even i then 1 else -1) = (-1) ^ i) as ->.
  { induction i as [ | i IH]; [ simpl; unfold Q2R; simpl; lra | ].
    rewrite Nat.even_succ, <- Nat.negb_even. simpl pow. rewrite <- IH.
    destruct (Nat.even i); unfold Q2R; simpl; lra. }
  replace (Q2R 2) with 2 by (unfold Q2R; simpl; lra).
  unfold Rdiv. ring.
Qed.

Lemma machin_sum_real (n : nat) :
  Q2R (Double.machin_sum n) = sum_f_R0 (tg_alt PI_2_3_7_tg) n.
Proof.
  induction n as [ | n IH].
  - apply (machin_term_real 0).
  - change (Double.machin_sum (S n))
      with (Double.machin_sum n + Double.machin_term (S n))%Q.
    rewrite Q2R_plus, IH, machin_term_real. reflexivity.
Qed.

(** Eighteen terms of the series are enough to tell the double from pi. *)
Lemma M_PI_below_PI : Double.M_PI < PI.
Proof.
  pose proof (PI_2_3_7_ineq 8) as [Hlow _].
  rewrite <- machin_sum_real in Hlow.
  assert (Double.M_PI / 4 < Q2R (Double.machin_sum (S (2 * 8)))) as Hq.
  { replace (Double.M_PI / 4)
      with (Q2R (884279719003555 # 1125899906842624)).
    - apply Qlt_Rlt. vm_compute. reflexivity.
    - unfold Q2R, Double.M_PI. simpl. lra. }
  lra.
Qed.

Lemma double_M_PI_positive : 0 < Double.M_PI.
Proof. unfold Double.M_PI. lra. Qed.

Lemma double_atan2_range (y x : R) :
  - Double.M_PI <= Double.atan2 y x <= Double.M_PI.
Proof.
  pose proof double_M_PI_positive as Hpos. unfold Double.atan2, Rmax, Rmin.
  destruct (Rle_dec Double.M_PI (Dbl.atan2 y x));
    destruct (Rle_dec (- Double.M_PI) _); lra.
Qed.

(** The angle [-M_PI] is inside (-pi, pi]: [atan2] gives it back. *)
Lemma double_atan2_back :
  Double.atan2 (sin (- Double.M_PI)) (cos (- Double.M_PI)) = - Double.M_PI.
Proof.
  pose proof double_M_PI_positive as Hpos. pose proof M_PI_below_PI as Hpi.
  unfold Double.atan2. rewrite atan2_sin_cos by lra.
  unfold Rmax, Rmin.
  destruct (Rle_dec Double.M_PI (- Double.M_PI));
    destruct (Rle_dec (- Double.M_PI) _); lra.
Qed.

Lemma double_half_turn :
  Double.exact (CTRL_RAD2DEG_d Double.M_PI Double.exact * Double.M_PI) = 180.
Proof.
  unfold CTRL_RAD2DEG_d, Double.exact, Double.M_PI. field.
Qed.

Lemma double_minus_180 : Double.normalize (-180) = -180.
Proof.
  unfold Double.normalize, normalize_d, CTRL_DEG2RAD_d, CTRL_RAD2DEG_d,
    Double.exact.
  replace (Double.M_PI / 180 * -180) with (- Double.M_PI) by field.
  rewrite double_atan2_back. unfold Double.M_PI. field.
Qed.

(** An instance of the theorem: the doubles with exact operations, where
    -180 comes back as -180. *)
Lemma normalize_lands_in_closed_range_witness :
  0 < Double.M_PI
  /\ (forall x y : R, x <= y -> Double.exact x <= Double.exact y)
  /\ (forall x : R, Double.exact (- x) = - Double.exact x)
  /\ Double.exact (CTRL_RAD2DEG_d Double.M_PI Double.exact * Double.M_PI)
     = 180
  /\ (forall y x : R, - Double.M_PI <= Double.atan2 y x <= Double.M_PI)
  /\ Double.exact (CTRL_DEG2RAD_d Double.M_PI Double.exact * 180)
     = Double.M_PI
  /\ Double.atan2 (sin (- Double.M_PI)) (cos (- Double.M_PI))
     = - Double.M_PI
  /\ (forall theta : R, -180 <= Double.normalize theta <= 180)
  /\ Double.normalize (-180) = -180.
Proof.
  assert (forall x y : R, x <= y -> Double.exact x <= Double.exact y)
    as Hmono by (intros x y H; exact H).
  assert (forall x : R, Double.exact (- x) = - Double.exact x)
    as Hopp by (intros x; reflexivity).
  assert (Double.exact (CTRL_DEG2RAD_d Double.M_PI Double.exact * 180)
          = Double.M_PI) as Hrad.
  { unfold CTRL_DEG2RAD_d, Double.exact. field. }
  destruct (normalize_lands_in_closed_range Double.M_PI Double.exact cos sin
              Double.atan2 double_M_PI_positive Hmono Hopp double_half_turn
              double_atan2_range) as [Hrange Hend].
  split; [ exact double_M_PI_positive | ].
  split; [ exact Hmono | ].
  split; [ exact Hopp | ].
  split; [ exact double_half_turn | ].
  split; [ exact double_atan2_range | ].
  split; [ exact Hrad | ].
  split; [ exact double_atan2_back | ].
  split; [ exact Hrange | exact (Hend Hrad double_atan2_back) ].
Defined.

(** C7 as the specification has it fails at the lower end: -180 is not in
    (-180, 180]. *)
Lemma minus_180_is_returned :
  ~ wraps_into_half_open_interval Double.normalize.
Proof.
  intros H. destruct (H (-180)) as [[Hlow _] _].
  rewrite double_minus_180 in Hlow. lra.
Qed.

(** ** The duration of the pushing segment *)

Lemma push_tbounds_cases (theta : R) (armType : string) :
  In (push_tbounds theta armType)
     [(0.40, 0.60); (0.50, 0.80); (0.40 * 1.3, 0.60 * 1.3); (0.50 * 1.3, 0.80 * 1.3)].
Proof.
  unfold push_tbounds.
  destruct (Dbl.ltb (Rabs theta) 10 || Dbl.ltb (Rabs (theta - 180)) 10);
    destruct (String.eqb armType selectable); simpl; auto 6.
Qed.

Lemma push_tbounds_ordered (theta : R) (armType : string) :
  fst (push_tbounds theta armType) < snd (push_tbounds theta armType).
Proof.
  pose proof (push_tbounds_cases theta armType) as H. simpl in H.
  destruct H as [H | [H | [H | [H | []]]]]; rewrite <- H; simpl; lra.
Qed.

Lemma near_0_or_180_test (theta : R) :
  Dbl.ltb (Rabs theta) 10 || Dbl.ltb (Rabs (theta - 180)) 10 = true
  <-> near_0_or_180 theta.
Proof.
  unfold near_0_or_180.
  rewrite orb_true_iff, !DblFacts.ltb_true. reflexivity.
Qed.

(** The bounds depend on [theta] through its bucket only. *)
Lemma push_tbounds_bucket (theta theta' : R) (armType : string) :
  (near_0_or_180 theta <-> near_0_or_180 theta') ->
  push_tbounds theta' armType = push_tbounds theta armType.
Proof.
  intros Hb. unfold push_tbounds.
  pose proof (near_0_or_180_test theta) as H.
  pose proof (near_0_or_180_test theta') as H'.
  destruct (Dbl.ltb (Rabs theta) 10 || Dbl.ltb (Rabs (theta - 180)) 10);
    destruct (Dbl.ltb (Rabs theta') 10 || Dbl.ltb (Rabs (theta' - 180)) 10);
    try reflexivity; exfalso.
  - assert (false = true) by (apply H', Hb, H; reflexivity). discriminate.
  - assert (false = true) by (apply H, Hb, H'; reflexivity). discriminate.
Qed.

Lemma push_trajTime_unfold (theta radius : R) (armType : string) :
  push_trajTime theta radius armType =
  let tmin := fst (push_tbounds theta armType) in
  let tmax := snd (push_tbounds theta armType) in
  Rmax (Rmin tmax (tmin + (tmax - tmin) / (0.18 - 0.04) * (radius - 0.04))) tmin.
Proof.
  unfold push_trajTime. destruct (push_tbounds theta armType). reflexivity.
Qed.

Lemma push_trajTime_bucket (theta theta' radius : R) (armType : string) :
  (near_0_or_180 theta <-> near_0_or_180 theta') ->
  push_trajTime theta' radius armType = push_trajTime theta radius armType.
Proof.
  intros Hb. rewrite !push_trajTime_unfold.
  rewrite (push_tbounds_bucket theta theta' armType Hb). reflexivity.
Qed.

(** C6, amended. The duration of the pushing segment is the line through
    [(0.04, tmin)] and [(0.18, tmax)] taken at the radius and clamped to
    [[tmin, tmax]]; it does not decrease when the radius grows.  The bounds
    are 0.40 and 0.60 when [theta], as it was received and not wrapped, is
    less than 10 degrees away from 0 or from 180, and 0.50 and 0.80 for
    every other value; both are multiplied by 1.3 exactly when the arm type
    of the push is not "selectable". *)
Theorem push_trajTime_spec (theta radius : R) (armType : string) :
  let tmin := fst (push_tbounds theta armType) in
  let tmax := snd (push_tbounds theta armType) in
  let line := tmin + (tmax - tmin) / (0.18 - 0.04) * (radius - 0.04) in
  let k := if String.eqb armType selectable then 1 else 1.3 in
  (near_0_or_180 theta -> tmin = 0.40 * k /\ tmax = 0.60 * k)
  /\ (~ near_0_or_180 theta -> tmin = 0.50 * k /\ tmax = 0.80 * k)
  /\ tmin <= push_trajTime theta radius armType <= tmax
  /\ (0.04 <= radius <= 0.18 -> push_trajTime theta radius armType = line)
  /\ (radius <= 0.04 -> push_trajTime theta radius armType = tmin)
  /\ (0.18 <= radius -> push_trajTime theta radius armType = tmax)
  /\ (forall theta' radius',
        (near_0_or_180 theta <-> near_0_or_180 theta') ->
        radius <= radius' ->
        push_trajTime theta radius armType
        <= push_trajTime theta' radius' armType).
Proof.
  cbv zeta.
  split; [ | split ].
  - intros Hnear. unfold push_tbounds.
    replace (Dbl.ltb (Rabs theta) 10 || Dbl.ltb (Rabs (theta - 180)) 10)
      with true.
    + destruct (String.eqb armType selectable); simpl; lra.
    + symmetry. apply orb_true_iff.
      destruct Hnear as [H | H]; [ left | right ]; now apply DblFacts.ltb_true.
  - intros Hfar. unfold push_tbounds.
    replace (Dbl.ltb (Rabs theta) 10 || Dbl.ltb (Rabs (theta - 180)) 10)
      with false.
    + destruct (String.eqb armType selectable); simpl; lra.
    + symmetry. apply orb_false_iff.
      split; apply DblFacts.ltb_false; apply Rnot_lt_le; intros H;
        apply Hfar; [ left | right ]; exact H.
  - pose proof (push_tbounds_cases theta armType) as Hc. simpl in Hc.
    assert (forall r, push_trajTime theta r armType =
                      Rmax (Rmin (snd (push_tbounds theta armType))
                              (fst (push_tbounds theta armType)
                               + (snd (push_tbounds theta armType)
                                  - fst (push_tbounds theta armType))
                                 / (0.18 - 0.04) * (r - 0.04)))
                           (fst (push_tbounds theta armType))) as Hu
      by (intros r; apply push_trajTime_unfold).
    repeat split; intros;
      try match goal with
          | Hb : near_0_or_180 theta <-> near_0_or_180 ?t |- _ =>
              rewrite (push_trajTime_bucket theta t _ armType Hb)
          end;
      rewrite ?Hu;
      destruct Hc as [Hc | [Hc | [Hc | [Hc | []]]]]; rewrite <- Hc; simpl;
      unfold Rmin;
      repeat match goal with
             | |- context [Rle_dec ?a ?b] => destruct (Rle_dec a b)
             end;
      unfold Rmax;
      repeat match goal with
             | |- context [Rle_dec ?a ?b] => destruct (Rle_dec a b)
             end; lra.
Qed.

(** The statement at a radius inside the range, for a frontal push without
    tool: half way between 0.40 and 0.60. *)
Lemma push_trajTime_spec_witness :
  near_0_or_180 0 /\ 0.04 <= 0.11 <= 0.18
  /\ push_trajTime 0 0.11 selectable = 0.5
  /\ push_trajTime 0 0.11 selectable <= push_trajTime 0 0.18 selectable.
Proof.
  assert (near_0_or_180 0) as Hnear.
  { left. unfold Rabs. destruct (Rcase_abs 0); lra. }
  assert (0.04 <= 0.11 <= 0.18) as Hr by lra.
  destruct (push_trajTime_spec 0 0.11 selectable)
    as (Hb & _ & _ & Hline & _ & _ & Hmono).
  destruct (Hb Hnear) as [Hmin Hmax]. simpl in Hmin, Hmax.
  split; [ exact Hnear | ]. split; [ exact Hr | ]. split.
  - rewrite (Hline Hr), Hmin, Hmax. lra.
  - apply Hmono; [ reflexivity | lra ].
Defined.

(** ** The arm and the candidate of a push *)

Section PushFacts.

Variable SE3inv : Matrix -> Matrix.
Variable dcm2axis : Matrix -> Vector.
Variable axis2dcm : Vector -> Matrix.

Lemma push_iCartCtrl (st : KarmaMotor) (env : Env) (c : Vector)
    (theta radius : R) (armType : string) (frame : Matrix) :
  iCartCtrl (fst (push SE3inv dcm2axis axis2dcm st env c theta radius armType frame))
  = Some (push_arm armType
            (pp_xd1 (push_plan SE3inv dcm2axis c theta radius frame))).
Proof.
  reflexivity.
Qed.

(** C8. With the arm type "selectable", [push] takes the right arm exactly
    when the y coordinate of the first candidate, in the root frame, is not
    negative, and the left arm exactly when it is negative; with "left" or
    "right" it takes that arm whatever the candidate is. *)
Theorem push_arm_selection (st : KarmaMotor) (env : Env) (c : Vector)
    (theta radius : R) (frame : Matrix) :
  let y := Vec.get (pp_xd1 (push_plan SE3inv dcm2axis c theta radius frame)) 1 in
  let chosen armType :=
    iCartCtrl (fst (push SE3inv dcm2axis axis2dcm st env c theta radius
                      armType frame)) in
  (chosen selectable = Some RightArm <-> 0 <= y)
  /\ (chosen selectable = Some LeftArm <-> y < 0)
  /\ chosen "left"%string = Some LeftArm
  /\ chosen "right"%string = Some RightArm.
Proof.
  cbv beta zeta. rewrite !push_iCartCtrl. unfold push_arm.
  change (String.eqb selectable selectable) with true.
  change (String.eqb "left" selectable) with false.
  change (String.eqb "right" selectable) with false.
  change (String.eqb "left" "left") with true.
  change (String.eqb "right" "left") with false.
  cbv iota.
  set (y := Vec.get _ 1).
  unfold Dbl.geb, Dbl.leb.
  destruct (Rle_dec 0 y) as [Hy | Hy];
    repeat split; intros; try reflexivity; try congruence; lra.
Qed.

End PushFacts.

Lemma push_choose_at_90 (a : Arm) (d1 d2 : R) :
  push_choose 90 a d1 d2 = if Arm_eqb a RightArm then Cand1 else Cand2.
Proof. unfold push_choose. destruct a; dbl_solve. Qed.

Lemma push_choose_at_minus_90 (a : Arm) (d1 d2 : R) :
  push_choose (-90) a d1 d2 = if Arm_eqb a RightArm then Cand2 else Cand1.
Proof. unfold push_choose. destruct a; dbl_solve. Qed.

(** C1, as stated, fails: the right arm takes candidate 1 at 90 degrees and
    candidate 2 at -90 degrees. *)
Lemma arm_alone_does_not_designate : ~ arm_alone_designates.
Proof.
  intros [designated H].
  assert (Rabs (90 - 90) < 45 \/ Rabs (90 + 90) < 45) as H1
    by (left; unfold Rabs; destruct (Rcase_abs _); lra).
  assert (Rabs (-90 - 90) < 45 \/ Rabs (-90 + 90) < 45) as H2
    by (right; unfold Rabs; destruct (Rcase_abs _); lra).
  pose proof (H 90 RightArm 0 0 H1) as E1.
  pose proof (H (-90) RightArm 0 0 H2) as E2.
  rewrite push_choose_at_90 in E1. rewrite push_choose_at_minus_90 in E2.
  simpl in E1, E2. congruence.
Qed.

(** C1, amended. When the normalised angle is within 45 degrees of 90 or of
    -90, the candidate is fixed by the arm together with the side the angle
    lies on, and the answers of the controller play no part: near 90 the
    right arm takes candidate 1 and the left arm candidate 2; near -90 the
    right arm takes candidate 2 and the left arm candidate 1, and the pose
    the movement starts with is then the variant of increased radius. *)
Theorem push_choose_singular (axis2dcm : Vector -> Matrix) (_theta : R)
    (a : Arm) (d1 d2 : R) (p : PushPlan) (env : Env) :
  Rabs (_theta - 90) < 45 \/ Rabs (_theta + 90) < 45 ->
  push_choose _theta a d1 d2 =
    match a with
    | RightArm => if Dbl.ltb 0 _theta then Cand1 else Cand2
    | LeftArm => if Dbl.ltb 0 _theta then Cand2 else Cand1
    end
  /\ push_select axis2dcm p env _theta a =
    match a with
    | RightArm => if Dbl.ltb 0 _theta then Cand1 else Cand2eps
    | LeftArm => if Dbl.ltb 0 _theta then Cand2 else Cand1eps
    end.
Proof.
  intros H. unfold push_select.
  destruct (env_ask1 env) as [[xdhat1 odhat1] q1].
  destruct (env_ask2 env) as [[xdhat2 odhat2] q2].
  unfold push_increase, push_choose.
  destruct a; simpl; destruct H as [H | H]; split; dbl_solve.
Qed.

Lemma push_choose_singular_witness :
  (Rabs (100 - 90) < 45 \/ Rabs (100 + 90) < 45)
  /\ push_choose 100 LeftArm 1 2 = Cand2
  /\ push_choose (-100) LeftArm 1 2 = Cand1.
Proof.
  assert (Rabs (100 - 90) < 45 \/ Rabs (100 + 90) < 45) as H
    by (left; unfold Rabs; destruct (Rcase_abs _); lra).
  assert (Rabs (-100 - 90) < 45 \/ Rabs (-100 + 90) < 45) as H'
    by (right; unfold Rabs; destruct (Rcase_abs _); lra).
  split; [ exact H | ].
  destruct (push_choose_singular Sample.axis2dcm 100 LeftArm 1 2
              (push_plan Sample.SE3inv Sample.dcm2axis [0.3; 0.1; 0] 100 0.1
                 (Mat.eye 4 4))
              (Sample.env None) H) as [E1 _].
  destruct (push_choose_singular Sample.axis2dcm (-100) LeftArm 1 2
              (push_plan Sample.SE3inv Sample.dcm2axis [0.3; 0.1; 0] (-100) 0.1
                 (Mat.eye 4 4))
              (Sample.env None) H') as [E2 _].
  assert (Dbl.ltb 0 100 = true) as Hpos by (apply DblFacts.ltb_true; lra).
  assert (Dbl.ltb 0 (-100) = false) as Hneg by (apply DblFacts.ltb_false; lra).
  rewrite Hpos in E1. rewrite Hneg in E2. split; assumption.
Defined.

(** ** Counting calls *)

Lemma count_app (p : call -> bool) (t u : list call) :
  count p (t ++ u) = (count p t + count p u)%nat.
Proof.
  unfold count. induction t as [ | x t IH]; simpl; [ reflexivity | ].
  destruct (p x); simpl; rewrite IH; reflexivity.
Qed.

Lemma count_cons (p : call -> bool) (x : call) (t : list call) :
  count p (x :: t) = ((if p x then 1 else 0) + count p t)%nat.
Proof. unfold count. simpl. destruct (p x); reflexivity. Qed.

Ltac count_calls := repeat (rewrite count_cons || rewrite count_app).

Lemma changeElbowHeight_count (p : call -> bool) (st : KarmaMotor) (a : Arm) :
  (forall b o, p (tweakSet b o) = false) ->
  count p (changeElbowHeight st a) = 0%nat.
Proof.
  intros Hp. unfold changeElbowHeight, count.
  destruct (elbow_set st); simpl; [ rewrite Hp | ]; reflexivity.
Qed.

Lemma flag_set_iCartCtrl (st : KarmaMotor) (a : Arm) (env : Env) (i : nat) :
  flag (set_iCartCtrl st a) env i = flag st env i.
Proof. reflexivity. Qed.

(** Once the stop port has set the flag, every later read sees it set. *)
Lemma flag_after_stop (st : KarmaMotor) (env : Env) (k i : nat) :
  stop_at env = Some k -> (k <= i)%nat -> flag st env i = true.
Proof.
  intros Hk Hi. unfold flag. rewrite Hk.
  apply orb_true_iff. right. now apply Nat.leb_le.
Qed.

Lemma flag_before_stop (st : KarmaMotor) (env : Env) (k i : nat) :
  interrupting st = false -> stop_at env = Some k -> (i < k)%nat ->
  flag st env i = false.
Proof.
  intros H0 Hk Hi. unfold flag. rewrite H0, Hk. simpl.
  apply Nat.leb_gt. exact Hi.
Qed.

Section PushSequence.

Variable SE3inv : Matrix -> Matrix.
Variable dcm2axis : Matrix -> Vector.
Variable axis2dcm : Vector -> Matrix.

Lemma push_segment_count (p : call -> bool) (st : KarmaMotor) (env : Env)
    (a : Arm) (c xd od : Vector) (tt : R) (frame : Matrix) (i : nat) :
  (forall b x o t, p (goToPoseSync b x o t) = true) ->
  (forall b x y, p (waitMotionDone b x y) = false) ->
  (i < 4)%nat ->
  count p (push_segment axis2dcm st env a c xd od tt frame i)
  = if flag st env i then 0%nat else 1%nat.
Proof.
  intros Hgo Hwait Hi. unfold push_segment, count.
  destruct (flag st env i); [ reflexivity | ].
  destruct i as [ | [ | [ | [ | i]]]]; simpl; rewrite ?Hgo, ?Hwait;
    try reflexivity; lia.
Qed.

Lemma push_segment_count_other (p : call -> bool) (st : KarmaMotor) (env : Env)
    (a : Arm) (c xd od : Vector) (tt : R) (frame : Matrix) (i : nat) :
  (forall b x o t, p (goToPoseSync b x o t) = false) ->
  (forall b x y, p (waitMotionDone b x y) = false) ->
  count p (push_segment axis2dcm st env a c xd od tt frame i) = 0%nat.
Proof.
  intros Hgo Hwait. unfold push_segment, count.
  destruct (flag st env i); [ reflexivity | ].
  destruct i as [ | [ | [ | [ | i]]]]; simpl; rewrite ?Hgo, ?Hwait;
    reflexivity.
Qed.

(** The calls of [push], laid out: the set-up, the four segments, the
    release of the context. *)
Lemma push_calls (st : KarmaMotor) (env : Env) (c : Vector)
    (theta radius : R) (armType : string) (frame : Matrix) :
  exists (a : Arm) (xd od : Vector) (tt : R) (asked : list call),
    let st' := set_iCartCtrl st a in
    a = push_arm armType (pp_xd1 (push_plan SE3inv dcm2axis c theta radius frame))
    /\ asked = [getDOF a; setDOF a (dof_mask (env_dof env));
                askForPose a (pp_xd1 (push_plan SE3inv dcm2axis c theta radius frame))
                             (pp_od1 (push_plan SE3inv dcm2axis c theta radius frame));
                askForPose a (pp_xd2 (push_plan SE3inv dcm2axis c theta radius frame))
                             (pp_od2 (push_plan SE3inv dcm2axis c theta radius frame))]
    /\ snd (push SE3inv dcm2axis axis2dcm st env c theta radius armType frame)
       = [storeContext a; tweakSet a (straightness 10.0)]
         ++ changeElbowHeight st' a
         ++ asked
         ++ push_segment axis2dcm st' env a c xd od tt frame 0
         ++ push_segment axis2dcm st' env a c xd od tt frame 1
         ++ push_segment axis2dcm st' env a c xd od tt frame 2
         ++ push_segment axis2dcm st' env a c xd od tt frame 3
         ++ [restoreContext a (env_context env);
             deleteContext a (env_context env)].
Proof.
  unfold push. cbv zeta. simpl snd.
  eexists _, _, _, _, _. split; [ reflexivity | ]. split; reflexivity.
Qed.

Lemma push_counts (st : KarmaMotor) (env : Env) (c : Vector)
    (theta radius : R) (armType : string) (frame : Matrix) :
  let t := snd (push SE3inv dcm2axis axis2dcm st env c theta radius armType frame) in
  count is_store t = 1%nat
  /\ count is_restore t = 1%nat
  /\ count is_delete t = 1%nat
  /\ count is_motion t =
     ((if flag st env 0 then 0 else 1) + (if flag st env 1 then 0 else 1)
      + (if flag st env 2 then 0 else 1) + (if flag st env 3 then 0 else 1))%nat.
Proof.
  cbv zeta.
  destruct (push_calls st env c theta radius armType frame)
    as (a & xd & od & tt & asked & _ & Hasked & Ht).
  cbv zeta in Ht. rewrite Ht, Hasked. clear Ht Hasked.
  rewrite !count_app.
  repeat split.
  - rewrite !push_segment_count_other, changeElbowHeight_count by reflexivity.
    reflexivity.
  - rewrite !push_segment_count_other, changeElbowHeight_count by reflexivity.
    reflexivity.
  - rewrite !push_segment_count_other, changeElbowHeight_count by reflexivity.
    reflexivity.
  - rewrite !push_segment_count, changeElbowHeight_count
      by (try reflexivity; lia).
    rewrite !flag_set_iCartCtrl.
    unfold count. simpl. lia.
Qed.

(** C5. When the stop port sets [interrupting] after [k] segments of a push
    that started with the flag clear, the [k] segments already passed have
    made their motion call and none of the others makes one; and, whenever
    the flag is set or not, the context stored at the start is restored and
    deleted exactly once, by the last two calls of the push. *)
Theorem push_cancellation (st : KarmaMotor) (env : Env) (c : Vector)
    (theta radius : R) (armType : string) (frame : Matrix) :
  let t := snd (push SE3inv dcm2axis axis2dcm st env c theta radius armType frame) in
  let a := push_arm armType (pp_xd1 (push_plan SE3inv dcm2axis c theta radius frame)) in
  (forall k : nat,
     interrupting st = false -> stop_at env = Some k ->
     count is_motion t = Nat.min k 4
     /\ forall (i : nat) (xd od : Vector) (tt : R),
          (k <= i)%nat ->
          push_segment axis2dcm (set_iCartCtrl st a) env a c xd od tt frame i = [])
  /\ count is_store t = 1%nat
  /\ count is_restore t = 1%nat
  /\ count is_delete t = 1%nat
  /\ exists body : list call,
       t = storeContext a :: body
             ++ [restoreContext a (env_context env);
                 deleteContext a (env_context env)].
Proof.
  cbv zeta.
  destruct (push_counts st env c theta radius armType frame)
    as (Hstore & Hrestore & Hdelete & Hmotion).
  cbv zeta in Hstore, Hrestore, Hdelete, Hmotion.
  split; [ | split; [ exact Hstore | split; [ exact Hrestore | split; [ exact Hdelete | ] ] ] ].
  - intros k H0 Hk. split.
    + rewrite Hmotion.
      destruct k as [ | [ | [ | [ | k]]]];
        repeat match goal with
               | |- context [flag st env ?i] =>
                   first [ rewrite (flag_after_stop st env _ i Hk) by lia
                         | rewrite (flag_before_stop st env _ i H0 Hk) by lia ]
               end; simpl; lia.
    + intros i xd od tt Hi. unfold push_segment.
      rewrite flag_set_iCartCtrl, (flag_after_stop st env k i Hk Hi).
      reflexivity.
  - destruct (push_calls st env c theta radius armType frame)
      as (a & xd & od & tt & asked & Ha & _ & Ht).
    cbv zeta in Ht. rewrite Ht, <- Ha.
    exists (tweakSet a (straightness 10.0)
            :: changeElbowHeight (set_iCartCtrl st a) a
               ++ asked
               ++ push_segment axis2dcm (set_iCartCtrl st a) env a c xd od tt frame 0
               ++ push_segment axis2dcm (set_iCartCtrl st a) env a c xd od tt frame 1
               ++ push_segment axis2dcm (set_iCartCtrl st a) env a c xd od tt frame 2
               ++ push_segment axis2dcm (set_iCartCtrl st a) env a c xd od tt frame 3).
    simpl. repeat rewrite <- app_assoc. reflexivity.
Qed.

End PushSequence.

(** ** The axes and the quality of a draw *)

Lemma draw_axes_constant (current : option Arm) :
  draw_axes current = draw_axes None.
Proof. destruct current as [[ | ] | ]; reflexivity. Qed.

(** C2, as stated, fails: the two branches of the test on the arm build the
    same matrix. *)
Lemma axes_same_for_both_arms : ~ axes_differ_by_arm.
Proof. intros H. apply H. reflexivity. Qed.

Section DrawFacts.

Variable SE3inv : Matrix -> Matrix.
Variable dcm2axis : Matrix -> Vector.
Variable axis2dcm : Vector -> Matrix.

Lemma draw_plan_any_current (cur1 cur2 : option Arm) (c : Vector)
    (theta radius dist : R) (armType : string) (frame : Matrix) :
  draw_plan SE3inv dcm2axis axis2dcm cur1 c theta radius dist armType frame
  = draw_plan SE3inv dcm2axis axis2dcm cur2 c theta radius dist armType frame.
Proof.
  unfold draw_plan, draw_sagittal.
  rewrite (draw_axes_constant cur1), (draw_axes_constant cur2). reflexivity.
Qed.

(** C2, amended. After the two waypoints are placed, both receive the same
    fixed axes, rows (-1,0,0), (0,0,-1), (0,-1,0), whichever controller
    [iCartCtrl] designates; and the poses of the plan are the same for the
    arm types "left" and "right": the arm that executes changes neither the
    positions nor the orientations. *)
Theorem draw_axes_fixed (current : option Arm) (c : Vector)
    (theta radius dist : R) (frame : Matrix) :
  let fixed := [[-1; 0; 0]; [0; 0; -1]; [0; -1; 0]] in
  let plan := draw_plan SE3inv dcm2axis axis2dcm current c theta radius dist in
  rotation_block (fst (draw_sagittal current c theta radius dist)) = fixed
  /\ rotation_block (snd (draw_sagittal current c theta radius dist)) = fixed
  /\ dp_arm (plan "left"%string frame) = LeftArm
  /\ dp_arm (plan "right"%string frame) = RightArm
  /\ dp_xd1 (plan "left"%string frame) = dp_xd1 (plan "right"%string frame)
  /\ dp_od1 (plan "left"%string frame) = dp_od1 (plan "right"%string frame)
  /\ dp_xd2 (plan "left"%string frame) = dp_xd2 (plan "right"%string frame)
  /\ dp_od2 (plan "left"%string frame) = dp_od2 (plan "right"%string frame).
Proof.
  cbv zeta.
  split; [ | split ].
  - unfold draw_sagittal. rewrite (draw_axes_constant current). reflexivity.
  - unfold draw_sagittal. rewrite (draw_axes_constant current). reflexivity.
  - unfold draw_plan.
    destruct (draw_sagittal current c theta radius dist) as [H1 H2].
    destruct (Dbl.neqb (Vec.get c 1) 0).
    + destruct (recover _ H1 H2 (Vec.get c 1)) as [H1' H2'].
      repeat split; reflexivity.
    + repeat split; reflexivity.
Qed.

(** The quality [draw] computes when it simulates: the four residuals, and
    10 more exactly when one of the two positions answered is nearer than
    0.15 to the origin. *)
Lemma draw_quality_penalty
    (xd1 od1 xd2 od2 xdhat1 odhat1 xdhat2 odhat2 : Vector) :
  let residuals :=
    Vec.norm (Vec.sub xd1 xdhat1) + Vec.norm (Vec.sub od1 odhat1)
    + Vec.norm (Vec.sub xd2 xdhat2) + Vec.norm (Vec.sub od2 odhat2) in
  let near := Vec.norm xdhat1 < 0.15 \/ Vec.norm xdhat2 < 0.15 in
  let q := draw_quality xd1 od1 xd2 od2 xdhat1 odhat1 xdhat2 odhat2 in
  (near -> q = residuals + 10) /\ (~ near -> q = residuals).
Proof.
  cbv zeta. unfold draw_quality.
  split; intros H; dbl_cases; simpl; try lra; tauto.
Qed.

(** The quality [draw2] computes: the penalty looks at the second position
    only. *)
Lemma draw2_quality_penalty
    (xd1 od1 xd2 od2 xdhat1 odhat1 xdhat2 odhat2 : Vector) :
  let residuals :=
    Vec.norm (Vec.sub xd1 xdhat1) + Vec.norm (Vec.sub od1 odhat1)
    + Vec.norm (Vec.sub xd2 xdhat2) + Vec.norm (Vec.sub od2 odhat2) in
  let q := draw2_quality xd1 od1 xd2 od2 xdhat1 odhat1 xdhat2 odhat2 in
  (Vec.norm xdhat2 < 0.15 -> q = residuals + 10)
  /\ (0.15 <= Vec.norm xdhat2 -> q = residuals).
Proof.
  cbv zeta. unfold draw2_quality.
  split; intros H; dbl_cases; simpl; lra.
Qed.

Lemma sumsq_sub_self (v : Vector) : Vec.sumsq (Vec.sub v v) = 0.
Proof.
  induction v as [ | x v IH]; [ reflexivity | ].
  change (Vec.sumsq (Vec.sub (x :: v) (x :: v)))
    with ((x - x) * (x - x) + Vec.sumsq (Vec.sub v v)).
  rewrite IH. ring.
Qed.

Lemma norm_sub_self (v : Vector) : Vec.norm (Vec.sub v v) = 0.
Proof. unfold Vec.norm. rewrite sumsq_sub_self. apply sqrt_0. Qed.

(** When the controller answers both waypoints exactly and neither position
    is nearer than 0.15 to the origin, the quality is 0, in [draw] and in
    [draw2]. *)
Lemma quality_of_exact_answers (xd1 od1 xd2 od2 : Vector) :
  0.15 <= Vec.norm xd1 -> 0.15 <= Vec.norm xd2 ->
  draw_quality xd1 od1 xd2 od2 xd1 od1 xd2 od2 = 0
  /\ draw2_quality xd1 od1 xd2 od2 xd1 od1 xd2 od2 = 0.
Proof.
  intros H1 H2. split.
  - destruct (draw_quality_penalty xd1 od1 xd2 od2 xd1 od1 xd2 od2) as [_ Hfar].
    cbv zeta in Hfar. rewrite Hfar by lra.
    rewrite !norm_sub_self. lra.
  - destruct (draw2_quality_penalty xd1 od1 xd2 od2 xd1 od1 xd2 od2)
      as [_ Hfar].
    cbv zeta in Hfar. rewrite (Hfar H2).
    rewrite !norm_sub_self. lra.
Qed.

Lemma norm_tenth : Vec.norm [0.1; 0; 0] = 0.1.
Proof.
  unfold Vec.norm, Vec.sumsq. simpl.
  replace (0.1 * 0.1 + (0 * 0 + (0 * 0 + 0))) with (0.1 * 0.1) by ring.
  apply sqrt_square. lra.
Qed.

Lemma norm_three_tenths : Vec.norm [0.3; 0; 0] = 0.3.
Proof.
  unfold Vec.norm, Vec.sumsq. simpl.
  replace (0.3 * 0.3 + (0 * 0 + (0 * 0 + 0))) with (0.3 * 0.3) by ring.
  apply sqrt_square. lra.
Qed.

(** C3 on [draw2]. The controller answers the first waypoint with a position
    at 0.1 from the origin and the second with one at 0.3: the quality
    returned is the sum of the four residuals, without the 10 the claim adds
    for a position nearer than 0.15; [draw] adds it on the same answers. *)
Theorem draw2_ignores_first_position (st : KarmaMotor) (context : Z)
    (dof odhat1 q1 odhat2 q2 : Vector) (stop : option nat) (pose : Z)
    (c : Vector) (theta radius dist : R) (armType : string) (frame : Matrix) :
  let env :=
    mkEnv context dof ([0.1; 0; 0], odhat1, q1) ([0.3; 0; 0], odhat2, q2) stop in
  let p2 := draw2_plan SE3inv dcm2axis axis2dcm c pose theta radius dist
              armType frame in
  let p := draw_plan SE3inv dcm2axis axis2dcm (iCartCtrl st) c theta radius dist
              armType frame in
  Vec.norm [0.1; 0; 0] < 0.15
  /\ snd (draw2 SE3inv dcm2axis axis2dcm st env true pose c theta radius dist
            armType frame)
     = Vec.norm (Vec.sub (dp_xd1 p2) [0.1; 0; 0])
       + Vec.norm (Vec.sub (dp_od1 p2) odhat1)
       + Vec.norm (Vec.sub (dp_xd2 p2) [0.3; 0; 0])
       + Vec.norm (Vec.sub (dp_od2 p2) odhat2)
  /\ snd (draw SE3inv dcm2axis axis2dcm st env true c theta radius dist
            armType frame)
     = Vec.norm (Vec.sub (dp_xd1 p) [0.1; 0; 0])
       + Vec.norm (Vec.sub (dp_od1 p) odhat1)
       + Vec.norm (Vec.sub (dp_xd2 p) [0.3; 0; 0])
       + Vec.norm (Vec.sub (dp_od2 p) odhat2)
       + 10.
Proof.
  cbv zeta. split; [ rewrite norm_tenth; lra | ]. split.
  - unfold draw2. simpl. unfold draw2_quality.
    rewrite norm_three_tenths.
    replace (Dbl.ltb 0.3 0.15) with false
      by (symmetry; apply DblFacts.ltb_false; lra).
    lra.
  - unfold draw. simpl. unfold draw_quality.
    rewrite norm_tenth.
    replace (Dbl.ltb 0.1 0.15) with true
      by (symmetry; apply DblFacts.ltb_true; lra).
    simpl. lra.
Qed.

End DrawFacts.

(** ** Requests and replies *)

Ltac vocab :=
  repeat match goal with
         | |- context [Z.eqb ?a ?b] =>
             let v := eval vm_compute in (Z.eqb a b) in
             match v with
             | true => change (Z.eqb a b) with true
             | false => change (Z.eqb a b) with false
             end
         end.

Section RespondFacts.

Variable SE3inv : Matrix -> Matrix.
Variable dcm2axis : Matrix -> Vector.
Variable axis2dcm : Vector -> Matrix.
Variable findToolTip :
  KarmaMotor -> Env -> string -> string -> KarmaMotor * list call * Bottle * bool.
Variable RFModule_respond : Bottle -> Bottle * bool.

Local Notation respond' :=
  (respond SE3inv dcm2axis axis2dcm findToolTip RFModule_respond).
Local Notation push' := (push SE3inv dcm2axis axis2dcm).
Local Notation draw' := (draw SE3inv dcm2axis axis2dcm).
Local Notation draw2' := (draw2 SE3inv dcm2axis axis2dcm).
Local Notation push2' := (push2 SE3inv dcm2axis).

Lemma respond_push (st : KarmaMotor) (env : Env) (command : Bottle) :
  Btl.asVocab (Btl.get command 0) = Vocab.VOCAB4 "p" "u" "s" "h" ->
  (5 <= Btl.size (Btl.tail command))%nat ->
  let payload := Btl.tail command in
  let run :=
    push' st env [dbl payload 0; dbl payload 1; dbl payload 2]
      (dbl payload 3) (dbl payload 4) (pushHand st) (toolFrame st) in
  respond' st env command
  = Some (set_interrupting (fst run) false, [VVocab ack], snd run, true).
Proof.
  intros Hv Hn. cbv zeta. unfold respond. rewrite Hv. vocab. cbv iota.
  rewrite (proj2 (Nat.leb_le _ _) Hn).
  destruct (push _ _ _ _ _ _ _ _ _ _) as [st' calls]. reflexivity.
Qed.

Lemma respond_draw (st : KarmaMotor) (env : Env) (command : Bottle) :
  Btl.asVocab (Btl.get command 0) = Vocab.VOCAB4 "d" "r" "a" "w" ->
  (6 <= Btl.size (Btl.tail command))%nat ->
  let payload := Btl.tail command in
  let run :=
    draw' st env false [dbl payload 0; dbl payload 1; dbl payload 2]
      (dbl payload 3) (dbl payload 4) (dbl payload 5) (pushHand st)
      (toolFrame st) in
  respond' st env command
  = Some (set_interrupting (fst (fst run)) false, [VVocab ack],
          snd (fst run), true).
Proof.
  intros Hv Hn. cbv zeta. unfold respond. rewrite Hv. vocab.
  cbv beta iota zeta delta [orb].
  rewrite (proj2 (Nat.leb_le _ _) Hn).
  destruct (draw _ _ _ _ _ _ _ _ _ _ _ _) as [[st' calls] res]. reflexivity.
Qed.

Lemma respond_too_short (st : KarmaMotor) (env : Env) (command : Bottle)
    (n ir : nat) :
  action_fields (Btl.asVocab (Btl.get command 0)) = Some (n, ir) ->
  (Btl.size (Btl.tail command) < n)%nat ->
  respond' st env command = Some (set_interrupting st false, [], [], true).
Proof.
  unfold action_fields, respond.
  set (cmd := Btl.asVocab (Btl.get command 0)).
  set (len := Btl.size (Btl.tail command)).
  intros Hf Hn.
  destruct (Z.eqb cmd (Vocab.VOCAB4 "p" "u" "s" "h")).
  { injection Hf as <- <-.
    rewrite (proj2 (Nat.leb_gt _ _) Hn). reflexivity. }
  destruct (Z.eqb cmd (Vocab.VOCAB4 "d" "r" "a" "w")
            || Z.eqb cmd (Vocab.VOCAB4 "v" "d" "r" "a")).
  { injection Hf as <- <-.
    rewrite (proj2 (Nat.leb_gt _ _) Hn). reflexivity. }
  destruct (Z.eqb cmd (Vocab.VOCAB4 "f" "i" "n" "d")); [ discriminate | ].
  destruct (Z.eqb cmd (Vocab.VOCAB4 "t" "o" "o" "l")); [ discriminate | ].
  destruct (Z.eqb cmd (Vocab.VOCAB4 "p" "u" "s" "p")).
  { injection Hf as <- <-.
    rewrite (proj2 (Nat.leb_gt _ _) Hn). reflexivity. }
  destruct (Z.eqb cmd (Vocab.VOCAB4 "d" "r" "a" "p")
            || Z.eqb cmd (Vocab.VOCAB4 "v" "d" "r" "p")).
  { injection Hf as <- <-.
    rewrite (proj2 (Nat.leb_gt _ _) Hn). reflexivity. }
  discriminate.
Qed.

Lemma draw_simulation_still (st : KarmaMotor) (env : Env) (c : Vector)
    (theta radius dist : R) (armType : string) (frame : Matrix) :
  count is_motion
    (snd (fst (draw' st env true c theta radius dist
                 armType frame))) = 0%nat.
Proof.
  unfold draw.
  destruct (env_ask1 env) as [[xdhat1 odhat1] q1].
  destruct (env_ask2 env) as [[xdhat2 odhat2] q2].
  cbn [fst snd]. count_calls.
  rewrite changeElbowHeight_count by reflexivity. reflexivity.
Qed.

Lemma draw2_simulation_still (st : KarmaMotor) (env : Env) (pose : Z)
    (c : Vector) (theta radius dist : R) (armType : string) (frame : Matrix) :
  count is_motion
    (snd (fst (draw2' st env true pose c theta radius dist armType frame)))
  = 0%nat.
Proof.
  unfold draw2.
  destruct (env_ask1 env) as [[xdhat1 odhat1] q1].
  destruct (env_ask2 env) as [[xdhat2 odhat2] q2].
  cbn [fst snd]. count_calls. reflexivity.
Qed.

Lemma respond_draw_verb (simulation : bool) (st : KarmaMotor) (env : Env)
    (command : Bottle) :
  Btl.asVocab (Btl.get command 0) = Vocab.encode (draw_verb simulation) ->
  (6 <= Btl.size (Btl.tail command))%nat ->
  let payload := Btl.tail command in
  let run :=
    draw' st env simulation [dbl payload 0; dbl payload 1; dbl payload 2]
      (dbl payload 3) (dbl payload 4) (dbl payload 5) (pushHand st)
      (toolFrame st) in
  respond' st env command
  = Some (set_interrupting (fst (fst run)) false,
          (if simulation then [VVocab ack; VDouble (snd run)]
           else [VVocab ack]),
          snd (fst run), true).
Proof.
  intros Hv Hn. cbv zeta. unfold respond. rewrite Hv.
  destruct simulation; unfold draw_verb; vocab;
    cbv beta iota zeta delta [orb];
    rewrite (proj2 (Nat.leb_le _ _) Hn);
    destruct (draw _ _ _ _ _ _ _ _ _ _ _ _) as [[st' calls] res];
    reflexivity.
Qed.

Lemma respond_draw2_verb (simulation : bool) (st : KarmaMotor) (env : Env)
    (command : Bottle) :
  Btl.asVocab (Btl.get command 0) = Vocab.encode (draw2_verb simulation) ->
  (7 <= Btl.size (Btl.tail command))%nat ->
  let payload := Btl.tail command in
  let run :=
    draw2' st env simulation (Dbl.to_int (dbl payload 0))
      [dbl payload 1; dbl payload 2; dbl payload 3]
      (dbl payload 4) (dbl payload 5) (dbl payload 6) (pushHand st)
      (toolFrame st) in
  respond' st env command
  = Some (set_interrupting (fst (fst run)) false,
          (if simulation then [VVocab ack; VDouble (snd run)]
           else [VVocab ack]),
          snd (fst run), true).
Proof.
  intros Hv Hn. cbv zeta. unfold respond. rewrite Hv.
  destruct simulation; unfold draw2_verb; vocab;
    cbv beta iota zeta delta [orb];
    rewrite (proj2 (Nat.leb_le _ _) Hn);
    destruct (draw2 _ _ _ _ _ _ _ _ _ _ _ _ _) as [[st' calls] res];
    reflexivity.
Qed.

Lemma respond_push2 (st : KarmaMotor) (env : Env) (command : Bottle) :
  Btl.asVocab (Btl.get command 0) = Vocab.VOCAB4 "p" "u" "s" "p" ->
  (6 <= Btl.size (Btl.tail command))%nat ->
  let payload := Btl.tail command in
  respond' st env command
  = match push2' st env (Btl.asInt (Btl.get payload 0))
            [dbl payload 1; dbl payload 2; dbl payload 3]
            (dbl payload 4) (dbl payload 5) (pushHand st) (toolFrame st) with
    | Some (st1, calls) =>
        Some (set_interrupting st1 false, [VVocab ack], calls, true)
    | None => None
    end.
Proof.
  intros Hv Hn. cbv zeta. unfold respond. rewrite Hv. vocab.
  cbv beta iota zeta delta [orb].
  rewrite (proj2 (Nat.leb_le _ _) Hn).
  destruct (push2 _ _ _ _ _ _ _ _ _ _) as [[st1 calls] | ]; reflexivity.
Qed.

(** [push2] has no controller to call exactly when none was selected before
    and the arm type is none of the three names. *)
Lemma push2_no_controller (st : KarmaMotor) (env : Env) (pose : Z)
    (c : Vector) (theta radius : R) (armType : string) (frame : Matrix) :
  push2' st env pose c theta radius armType frame = None
  <-> iCartCtrl st = None
      /\ String.eqb armType selectable = false
      /\ String.eqb armType "right" = false
      /\ String.eqb armType "left" = false.
Proof.
  unfold push2, push2_arm.
  assert (Dbl.geb (Vec.get c 1) 0 = false -> Dbl.ltb (Vec.get c 1) 0 = true)
    as Hside.
  { unfold Dbl.geb, Dbl.leb, Dbl.ltb.
    destruct (Rle_dec 0 (Vec.get c 1)), (Rlt_dec (Vec.get c 1) 0);
      intros; try reflexivity; try discriminate; lra. }
  destruct (String.eqb armType selectable), (String.eqb armType "right"),
    (String.eqb armType "left"), (Dbl.geb (Vec.get c 1) 0) eqn:Hge;
    try rewrite (Hside eq_refl);
    cbv beta iota zeta delta [andb orb];
    destruct (Z.eqb pose 0); cbv beta iota zeta;
    try (split; [ discriminate | intros (_ & H1 & H2 & H3); discriminate ]);
    destruct (iCartCtrl st) as [a | ];
    try (split; [ discriminate | intros (H0 & _); discriminate ]);
    (split; [ intros _; repeat split | reflexivity ]).
Qed.

(** C4, amended. An action request, of any of the six kinds, with fewer
    fields than its verb needs is dropped before any planning: no call is
    made and the reply stays empty, without [ack] and without [nack].  The
    radius is not looked at: a request with its fields present is handed to
    its action with the radius as it came, also zero or negative, the calls
    made are those of the action, and the reply is [ack].  The two virtual
    draws run their action in simulation: no motion is made, and [ack] is
    followed by the quality.  [push2] alone can be without a controller to
    call, exactly when none was selected before and the arm name is none of
    "selectable", "left" and "right"; its request is answered whenever it
    has one. *)
Theorem respond_invalid_request (st : KarmaMotor) (env : Env)
    (command : Bottle) :
  let cmd := Btl.asVocab (Btl.get command 0) in
  let payload := Btl.tail command in
  let c (i : nat) := [dbl payload i; dbl payload (i + 1); dbl payload (i + 2)] in
  (forall n ir : nat,
     action_fields cmd = Some (n, ir) ->
     (Btl.size payload < n)%nat ->
     respond' st env command = Some (set_interrupting st false, [], [], true))
  /\ (cmd = Vocab.VOCAB4 "p" "u" "s" "h" ->
      (5 <= Btl.size payload)%nat ->
      let run := push' st env (c 0%nat) (dbl payload 3) (dbl payload 4)
                   (pushHand st) (toolFrame st) in
      respond' st env command
      = Some (set_interrupting (fst run) false, [VVocab ack], snd run, true))
  /\ (forall simulation : bool,
        cmd = Vocab.encode (draw_verb simulation) ->
        (6 <= Btl.size payload)%nat ->
        let run := draw' st env simulation (c 0%nat) (dbl payload 3)
                     (dbl payload 4) (dbl payload 5) (pushHand st)
                     (toolFrame st) in
        respond' st env command
        = Some (set_interrupting (fst (fst run)) false,
                (if simulation then [VVocab ack; VDouble (snd run)]
                 else [VVocab ack]),
                snd (fst run), true)
        /\ (simulation = true -> count is_motion (snd (fst run)) = 0%nat))
  /\ (cmd = Vocab.VOCAB4 "p" "u" "s" "p" ->
      (6 <= Btl.size payload)%nat ->
      let run := push2' st env (Btl.asInt (Btl.get payload 0)) (c 1%nat)
                   (dbl payload 4) (dbl payload 5) (pushHand st)
                   (toolFrame st) in
      respond' st env command
      = match run with
        | Some (st1, calls) =>
            Some (set_interrupting st1 false, [VVocab ack], calls, true)
        | None => None
        end
      /\ (run = None
          <-> iCartCtrl st = None
              /\ String.eqb (pushHand st) selectable = false
              /\ String.eqb (pushHand st) "right" = false
              /\ String.eqb (pushHand st) "left" = false))
  /\ (forall simulation : bool,
        cmd = Vocab.encode (draw2_verb simulation) ->
        (7 <= Btl.size payload)%nat ->
        let run := draw2' st env simulation (Dbl.to_int (dbl payload 0))
                     (c 1%nat) (dbl payload 4) (dbl payload 5) (dbl payload 6)
                     (pushHand st) (toolFrame st) in
        respond' st env command
        = Some (set_interrupting (fst (fst run)) false,
                (if simulation then [VVocab ack; VDouble (snd run)]
                 else [VVocab ack]),
                snd (fst run), true)
        /\ (simulation = true -> count is_motion (snd (fst run)) = 0%nat)).
Proof.
  cbv zeta. split; [ | split; [ | split; [ | split ] ] ].
  - intros n ir. apply respond_too_short.
  - intros Hv Hn. apply respond_push; assumption.
  - intros simulation Hv Hn.
    split; [ apply respond_draw_verb; assumption | ].
    intros ->. apply draw_simulation_still.
  - intros Hv Hn.
    split; [ apply respond_push2; assumption | apply push2_no_controller ].
  - intros simulation Hv Hn.
    split; [ apply respond_draw2_verb; assumption | ].
    intros ->. apply draw2_simulation_still.
Qed.

Lemma respond_tool_verb (alt : bool) (st : KarmaMotor) (env : Env)
    (rest : Bottle) :
  respond' st env (VString (tool_verb alt) :: rest)
  = let '(st', reply) :=
      respond_tool axis2dcm alt st (VString (tool_verb alt) :: rest) in
    Some (set_interrupting st' false, reply, [], true).
Proof.
  unfold respond. destruct alt; simpl Btl.asVocab; vocab; reflexivity.
Qed.

(** C9. After a tool is attached with an arm name and an offset, by either
    of the two tool commands, a get answers [ack] with that name and that
    offset; a remove, in whatever state, puts back the name "selectable" and
    the identity frame. *)
Theorem tool_attach_get_remove (st st' : KarmaMotor) (env env' : Env)
    (alt alt' : bool) (arm : string) (x y z : R) :
  (exists st1 : KarmaMotor,
     respond' st env
       [VString (tool_verb alt); VString "attach"; VString arm;
        VDouble x; VDouble y; VDouble z]
     = Some (st1, [VVocab ack], [], true)
     /\ respond' st1 env' [VString (tool_verb alt'); VString "get"]
        = Some (st1,
                [VVocab ack; VString arm; VDouble x; VDouble y; VDouble z],
                [], true))
  /\ (exists st2 : KarmaMotor,
        respond' st' env' [VString (tool_verb alt'); VString "remove"]
        = Some (st2, [VVocab ack], [], true)
        /\ pushHand st2 = selectable
        /\ toolFrame st2 = Mat.eye 4 4).
Proof.
  split.
  - eexists. split.
    + rewrite respond_tool_verb. unfold respond_tool.
      simpl Btl.size. simpl Btl.tail. simpl Btl.get. simpl Btl.asVocab.
      vocab. cbv iota. simpl Nat.ltb. simpl Nat.leb. cbv iota.
      reflexivity.
    + rewrite respond_tool_verb. unfold respond_tool.
      simpl Btl.size. simpl Btl.tail. simpl Btl.get. simpl Btl.asVocab.
      vocab. cbv iota. simpl Nat.ltb. cbv iota.
      destruct alt; reflexivity.
  - eexists. split; [ | split ].
    + rewrite respond_tool_verb. unfold respond_tool.
      simpl Btl.size. simpl Btl.tail. simpl Btl.get. simpl Btl.asVocab.
      vocab. cbv iota. simpl Nat.ltb. cbv iota.
      reflexivity.
    + reflexivity.
    + reflexivity.
Qed.

(** After an attach the arm type of the next push is the name the request
    gave, and the tool frame holds the offset: the duration bounds are the
    scaled ones unless that name is "selectable". *)
Lemma attach_names_arm (st : KarmaMotor) (env : Env) (alt : bool)
    (arm : string) (x y z theta : R) :
  exists st1 : KarmaMotor,
    respond' st env
      [VString (tool_verb alt); VString "attach"; VString arm;
       VDouble x; VDouble y; VDouble z]
    = Some (st1, [VVocab ack], [], true)
    /\ pushHand st1 = arm
    /\ entry (toolFrame st1) 0 3 = x
    /\ push_tbounds theta (pushHand st1)
       = let k := if String.eqb arm selectable then 1 else 1.3 in
         (fst (push_tbounds theta selectable) * k,
          snd (push_tbounds theta selectable) * k).
Proof.
  eexists. split; [ | split; [ | split ] ].
  - rewrite respond_tool_verb. unfold respond_tool.
    simpl Btl.size. simpl Btl.tail. simpl Btl.get. simpl Btl.asVocab.
    vocab. cbv iota. simpl Nat.ltb. simpl Nat.leb. cbv iota.
    reflexivity.
  - reflexivity.
  - reflexivity.
  - simpl pushHand. unfold push_tbounds.
    change (String.eqb selectable selectable) with true.
    destruct (String.eqb arm selectable);
      destruct (Dbl.ltb (Rabs theta) 10 || Dbl.ltb (Rabs (theta - 180)) 10);
      cbv zeta; simpl; f_equal; ring.
Qed.

End RespondFacts.

(** ** The window of the gaze loop *)

Lemma gaze_window_state (eye : string) (ticks : list Tick) (s : GazeLoop)
    (ys : list R) :
  fst (gaze_window eye s ys ticks) = fst (gaze_loop eye s ticks).
Proof.
  revert s ys. induction ticks as [ | tk ticks IH]; intros s ys; simpl.
  - reflexivity.
  - destruct (negb (tick_interrupting tk) && negb (done s)); [ | reflexivity ].
    rewrite IH.
    destruct (gaze_body eye s (tick_now tk) (tick_target tk)) as [s' calls].
    simpl. destruct (gaze_loop eye s' ticks). reflexivity.
Qed.

Lemma sum_app (xs ys : list R) : sum (xs ++ ys) = sum xs + sum ys.
Proof.
  unfold sum. induction xs as [ | x xs IH]; simpl; [ lra | rewrite IH; lra ].
Qed.

Lemma sum_shift (ys : list R) :
  sum (map (fun y => y + 50) ys) = sum ys + 50 * INR (List.length ys).
Proof.
  unfold sum. induction ys as [ | y ys IH].
  - simpl. lra.
  - change (List.length (y :: ys)) with (S (List.length ys)).
    rewrite S_INR. simpl. rewrite IH. lra.
Qed.

Lemma gaze_body_unfold (eye : string) (s : GazeLoop) (t1 : R)
    (target : option Bottle) :
  let s1 := gaze_taken s target in
  gaze_body eye s t1 target =
  (if Dbl.geb (t1 - t0 s) 3.0 then
     mkGazeLoop (Vec.fill (pxCum s1) 0.0) 0
       (if Z.ltb 20 (cnt s1)
        then Dbl.ltb (Rabs (Vec.get (pxCum s1) 1 / IZR (cnt s1) - 120)) 30.0
        else done s) t1
   else s1,
   map (fun p => lookAtMonoPixel (if String.eqb eye "left" then 0%Z else 1%Z)
                   [fst p; snd p + 50.0])
       (raw_pixel target)).
Proof.
  unfold gaze_body, gaze_taken, raw_pixel.
  destruct target as [b | ]; [ destruct (Nat.leb 2 (Btl.size b)) | ];
    simpl; destruct (Dbl.geb (t1 - t0 s) 3.0); reflexivity.
Qed.

Lemma accumulates_taken (s : GazeLoop) (ys : list R) (target : option Bottle) :
  accumulates s ys ->
  accumulates (gaze_taken s target) (ys ++ map snd (raw_pixel target)).
Proof.
  intros (Hcnt & Hlen & Hsum). unfold gaze_taken.
  destruct (raw_pixel target) as [ | [x y] rest] eqn:Hraw.
  - simpl. rewrite app_nil_r. repeat split; assumption.
  - assert (rest = []) as ->.
    { unfold raw_pixel in Hraw. destruct target as [b | ]; [ | discriminate ].
      destruct (Nat.leb 2 (Btl.size b)); [ | discriminate ].
      now injection Hraw. }
    destruct (pxCum s) as [ | p0 [ | p1 [ | p2 rest]]] eqn:Hpx;
      try discriminate Hlen.
    unfold accumulates. simpl pxCum. simpl cnt. simpl map.
    repeat split.
    + rewrite Hcnt, length_app. simpl. lia.
    + unfold Vec.get in *. simpl in Hsum |- *.
      rewrite map_app, sum_app, <- Hsum. unfold sum. simpl. lra.
Qed.

Lemma accumulates_body (eye : string) (s : GazeLoop) (ys : list R) (t1 : R)
    (target : option Bottle) :
  accumulates s ys ->
  accumulates (fst (gaze_body eye s t1 target)) (window_after s ys t1 target).
Proof.
  intros H. rewrite gaze_body_unfold. cbv zeta. unfold window_after.
  pose proof (accumulates_taken s ys target H) as (Hcnt & Hlen & Hsum).
  destruct (Dbl.geb (t1 - t0 s) 3.0); simpl.
  - unfold accumulates. simpl.
    destruct (pxCum (gaze_taken s target)) as [ | p0 [ | p1 [ | p2 rest]]];
      try discriminate Hlen.
    repeat split. unfold Vec.get, sum. simpl. lra.
  - repeat split; assumption.
Qed.

Lemma accumulates_run (eye : string) (ticks : list Tick) (s : GazeLoop)
    (ys : list R) :
  accumulates s ys ->
  accumulates (fst (gaze_window eye s ys ticks))
              (snd (gaze_window eye s ys ticks)).
Proof.
  revert s ys. induction ticks as [ | tk ticks IH]; intros s ys H; simpl.
  - exact H.
  - destruct (negb (tick_interrupting tk) && negb (done s)); [ | exact H ].
    apply IH, accumulates_body, H.
Qed.

Lemma accumulates_init (now : R) : accumulates (gaze_init now) [].
Proof. unfold accumulates, gaze_init, Vec.get, sum. simpl. repeat split. lra. Qed.

(** C10. Along any run of the loop, each pixel read from the vision port is
    sent to the gaze controller, and added to the sums, with 50 added to its
    vertical coordinate; so, when an iteration that closes a window finds
    more than 20 samples, the loop is done exactly when the mean of the
    vertical coordinates as observed over the window is within 30 of 70. *)
Theorem gaze_window_test (eye : string) (now : R) (ticks : list Tick)
    (t1 : R) (target : option Bottle) :
  let s := fst (gaze_loop eye (gaze_init now) ticks) in
  let ys := snd (gaze_window eye (gaze_init now) [] ticks) in
  let ys' := ys ++ map snd (raw_pixel target) in
  let s' := fst (gaze_body eye s t1 target) in
  snd (gaze_body eye s t1 target)
  = map (fun p => lookAtMonoPixel (if String.eqb eye "left" then 0%Z else 1%Z)
                    [fst p; snd p + 50])
        (raw_pixel target)
  /\ accumulates s ys
  /\ accumulates (gaze_taken s target) ys'
  /\ (done s = false -> 3 <= t1 - t0 s ->
      (done s' = true <->
       (20 < List.length ys')%nat /\ Rabs (mean ys' - 70) < 30)).
Proof.
  cbv zeta. rewrite <- (gaze_window_state eye ticks (gaze_init now) []).
  pose proof (accumulates_run eye ticks _ _ (accumulates_init now)) as Hacc.
  set (s := fst (gaze_window eye (gaze_init now) [] ticks)) in *.
  set (ys := snd (gaze_window eye (gaze_init now) [] ticks)) in *.
  pose proof (accumulates_taken s ys target Hacc) as Htaken.
  rewrite gaze_body_unfold. cbv zeta. simpl snd. simpl fst.
  split; [ | split; [ exact Hacc | split; [ exact Htaken | ] ] ].
  - apply map_ext. intros p. repeat f_equal. lra.
  - intros Hdone Hclose.
    replace (Dbl.geb (t1 - t0 s) 3.0) with true
      by (symmetry; apply DblFacts.geb_true; lra).
    simpl done.
    destruct Htaken as (Hcnt & _ & Hsum).
    set (ys' := ys ++ map snd (raw_pixel target)) in *.
    rewrite Hcnt, Hsum, sum_shift.
    destruct (Z.ltb 20 (Z.of_nat (List.length ys'))) eqn:Hmany.
    + apply Z.ltb_lt in Hmany.
      assert (20 < List.length ys')%nat as Hn by lia.
      assert (0 < INR (List.length ys')) as Hpos by (apply lt_0_INR; lia).
      rewrite <- INR_IZR_INZ.
      replace ((sum ys' + 50 * INR (List.length ys')) / INR (List.length ys') - 120)
        with (mean ys' - 70) by (unfold mean; field; lra).
      rewrite DblFacts.ltb_true.
      split; [ intros H; split; [ exact Hn | lra ] | intros [_ H]; lra ].
    + apply Z.ltb_ge in Hmany. rewrite Hdone.
      split; [ discriminate | intros [Hn _]; lia ].
Qed.

(** Iterations that stay inside the window keep its start and the flag
    [done], and add what they read to the observed window. *)
Lemma gaze_body_inside (eye : string) (s : GazeLoop) (t1 : R)
    (target : option Bottle) :
  t1 - t0 s < 3 ->
  t0 (fst (gaze_body eye s t1 target)) = t0 s
  /\ done (fst (gaze_body eye s t1 target)) = done s.
Proof.
  intros Hin. rewrite gaze_body_unfold. cbv zeta.
  replace (Dbl.geb (t1 - t0 s) 3.0) with false
    by (symmetry; apply DblFacts.geb_false; lra).
  simpl fst. unfold gaze_taken.
  destruct (raw_pixel target) as [ | [x y] rest]; split; reflexivity.
Qed.

Lemma gaze_window_inside (eye : string) (tk : Tick) (n : nat) (s : GazeLoop)
    (ys : list R) :
  tick_interrupting tk = false -> done s = false -> tick_now tk - t0 s < 3 ->
  t0 (fst (gaze_window eye s ys (repeat tk n))) = t0 s
  /\ done (fst (gaze_window eye s ys (repeat tk n))) = false
  /\ snd (gaze_window eye s ys (repeat tk n))
     = ys ++ List.concat (repeat (map snd (raw_pixel (tick_target tk))) n).
Proof.
  intros Hrun. revert s ys.
  induction n as [ | n IH]; intros s ys Hdone Hin; simpl.
  - rewrite app_nil_r. repeat split; assumption.
  - rewrite Hrun, Hdone. simpl.
    destruct (gaze_body_inside eye s (tick_now tk) (tick_target tk) Hin)
      as [Ht0 Hd].
    destruct (IH (fst (gaze_body eye s (tick_now tk) (tick_target tk)))
                (window_after s ys (tick_now tk) (tick_target tk)))
      as (IH1 & IH2 & IH3); [ congruence | rewrite Ht0; exact Hin | ].
    rewrite IH1, IH2, IH3. repeat split; try assumption.
    unfold window_after.
    replace (Dbl.geb (tick_now tk - t0 s) 3.0) with false
      by (symmetry; apply DblFacts.geb_false; lra).
    rewrite <- app_assoc. reflexivity.
Qed.

Lemma sample_window (y : R) :
  t0 (fst (gaze_loop "left" (gaze_init 0) (Sample.window y))) = 0
  /\ done (fst (gaze_loop "left" (gaze_init 0) (Sample.window y))) = false
  /\ snd (gaze_window "left" (gaze_init 0) [] (Sample.window y)) = repeat y 21.
Proof.
  rewrite <- (gaze_window_state "left" (Sample.window y) (gaze_init 0) []).
  apply (gaze_window_inside "left" (mkTick false 1 (Some [VDouble 100; VDouble y]))
           21 (gaze_init 0) []); simpl; try reflexivity; lra.
Qed.

Lemma mean_repeat (y : R) : mean (repeat y 21 ++ []) = y.
Proof. unfold mean, sum. simpl. field. Qed.

(** Twenty-one samples, then the iteration that closes the window: with the
    pixels observed at height 120 the loop goes on, with the pixels at
    height 70 it is done. *)
Lemma gaze_window_test_witness :
  done (fst (gaze_loop "left" (gaze_init 0) (Sample.window 120))) = false
  /\ 3 <= 3 - t0 (fst (gaze_loop "left" (gaze_init 0) (Sample.window 120)))
  /\ done (fst (gaze_body "left"
                 (fst (gaze_loop "left" (gaze_init 0) (Sample.window 120)))
                 3 None)) <> true
  /\ done (fst (gaze_body "left"
                 (fst (gaze_loop "left" (gaze_init 0) (Sample.window 70)))
                 3 None)) = true.
Proof.
  destruct (sample_window 120) as (Ht0 & Hdone & Hys).
  destruct (sample_window 70) as (Ht0' & Hdone' & Hys').
  assert (3 <= 3 - t0 (fst (gaze_loop "left" (gaze_init 0) (Sample.window 120))))
    as Hclose by (rewrite Ht0; lra).
  assert (3 <= 3 - t0 (fst (gaze_loop "left" (gaze_init 0) (Sample.window 70))))
    as Hclose' by (rewrite Ht0'; lra).
  split; [ exact Hdone | ]. split; [ exact Hclose | ]. split.
  - destruct (gaze_window_test "left" 0 (Sample.window 120) 3 None)
      as (_ & _ & _ & Htest).
    intros Hd. apply (Htest Hdone Hclose) in Hd. destruct Hd as [_ Hd].
    simpl raw_pixel in Hd. simpl map in Hd.
    rewrite Hys, mean_repeat in Hd.
    unfold Rabs in Hd. destruct (Rcase_abs (120 - 70)); lra.
  - destruct (gaze_window_test "left" 0 (Sample.window 70) 3 None)
      as (_ & _ & _ & Htest).
    apply (Htest Hdone' Hclose'). simpl raw_pixel. simpl map.
    rewrite Hys', mean_repeat. split.
    + simpl. lia.
    + unfold Rabs. destruct (Rcase_abs (70 - 70)); lra.
Defined.

(** ** Runs on given inputs *)

Lemma trig_at_0 : cos_theta 0 = 1 /\ sin_theta 0 = 0.
Proof.
  unfold cos_theta, sin_theta, theta_rad. rewrite Rmult_0_r.
  split; [ apply cos_0 | apply sin_0 ].
Qed.

(** A push from the front, without tool: centroid (0.3, 0.1, 0), angle 0,
    radius 0.1.  The first candidate is at (0.3, 0.2, 0), and the right arm
    is taken. *)
Example push_plan_frontal :
  pp_xd1 (push_plan Sample.SE3inv Sample.dcm2axis [0.3; 0.1; 0] 0 0.1
            (Mat.eye 4 4))
  = [0.3; 0.2; 0]
  /\ iCartCtrl (fst (push Sample.SE3inv Sample.dcm2axis Sample.axis2dcm
                       Sample.st (Sample.env None) [0.3; 0.1; 0] 0 0.1
                       selectable (Mat.eye 4 4)))
     = Some RightArm.
Proof.
  assert (pp_xd1 (push_plan Sample.SE3inv Sample.dcm2axis [0.3; 0.1; 0] 0 0.1
                    (Mat.eye 4 4)) = [0.3; 0.2; 0]) as Hxd.
  { unfold push_plan, pp_xd1.
    destruct trig_at_0 as [-> ->].
    unfold Vec.subVector, Mat.getCol. simpl.
    unfold Mat.sum_upto, Vec.get. simpl.
    repeat f_equal; lra. }
  split; [ exact Hxd | ].
  rewrite push_iCartCtrl, Hxd. unfold push_arm, Vec.get. simpl.
  replace (Dbl.geb 0.2 0) with true
    by (symmetry; apply DblFacts.geb_true; lra).
  reflexivity.
Qed.

Lemma sample_push_calls (stop : option nat) (radius : R) :
  count is_motion
    (snd (push Sample.SE3inv Sample.dcm2axis Sample.axis2dcm Sample.st
            (Sample.env stop) [0.3; 0.1; 0] 0 radius selectable (Mat.eye 4 4)))
  = match stop with
    | Some k => Nat.min k 4
    | None => 4%nat
    end.
Proof.
  destruct (push_counts Sample.SE3inv Sample.dcm2axis Sample.axis2dcm Sample.st
              (Sample.env stop) [0.3; 0.1; 0] 0 radius selectable (Mat.eye 4 4))
    as (_ & _ & _ & Hm).
  cbv zeta in Hm. rewrite Hm. unfold flag. simpl.
  destruct stop as [[ | [ | [ | [ | k]]]] | ]; simpl; lia.
Qed.

(** A stop request after the second segment of a push: two motions were
    made, and no third. *)
Lemma push_cancellation_witness :
  interrupting Sample.st = false
  /\ stop_at (Sample.env (Some 2%nat)) = Some 2%nat
  /\ count is_motion
       (snd (push Sample.SE3inv Sample.dcm2axis Sample.axis2dcm Sample.st
               (Sample.env (Some 2%nat)) [0.3; 0.1; 0] 0 0.1 selectable
               (Mat.eye 4 4)))
     = 2%nat.
Proof.
  split; [ reflexivity | ]. split; [ reflexivity | ].
  destruct (push_cancellation Sample.SE3inv Sample.dcm2axis Sample.axis2dcm
              Sample.st (Sample.env (Some 2%nat)) [0.3; 0.1; 0] 0 0.1 selectable
              (Mat.eye 4 4)) as (Hstop & _).
  cbv zeta in Hstop.
  destruct (Hstop 2%nat eq_refl eq_refl) as (Hcount & _).
  exact Hcount.
Defined.

(** A push request that carries one field only. *)
Lemma respond_invalid_request_witness :
  action_fields (Btl.asVocab (Btl.get Sample.short_push 0)) = Some (5, 4)%nat
  /\ (Btl.size (Btl.tail Sample.short_push) < 5)%nat
  /\ respond Sample.SE3inv Sample.dcm2axis Sample.axis2dcm Sample.findToolTip
       Sample.RFModule_respond Sample.st (Sample.env None) Sample.short_push
     = Some (set_interrupting Sample.st false, [], [], true)
  /\ Btl.asVocab (Btl.get Sample.negative_vdraw 0)
     = Vocab.encode (draw_verb true)
  /\ (6 <= Btl.size (Btl.tail Sample.negative_vdraw))%nat
  /\ exists (st' : KarmaMotor) (q : R) (calls : list call),
       respond Sample.SE3inv Sample.dcm2axis Sample.axis2dcm
         Sample.findToolTip Sample.RFModule_respond Sample.st
         (Sample.env None) Sample.negative_vdraw
       = Some (st', [VVocab ack; VDouble q], calls, true)
       /\ count is_motion calls = 0%nat.
Proof.
  assert (action_fields (Btl.asVocab (Btl.get Sample.short_push 0))
          = Some (5, 4)%nat) as Hf by reflexivity.
  assert (Btl.size (Btl.tail Sample.short_push) < 5)%nat as Hn
    by (simpl; lia).
  assert (Btl.asVocab (Btl.get Sample.negative_vdraw 0)
          = Vocab.encode (draw_verb true)) as Hv by reflexivity.
  assert (6 <= Btl.size (Btl.tail Sample.negative_vdraw))%nat as Hm
    by (simpl; lia).
  split; [ exact Hf | ]. split; [ exact Hn | ]. split.
  - destruct (respond_invalid_request Sample.SE3inv Sample.dcm2axis
                Sample.axis2dcm Sample.findToolTip Sample.RFModule_respond
                Sample.st (Sample.env None) Sample.short_push)
      as (Hshort & _).
    exact (Hshort 5%nat 4%nat Hf Hn).
  - split; [ exact Hv | ]. split; [ exact Hm | ].
    destruct (respond_invalid_request Sample.SE3inv Sample.dcm2axis
                Sample.axis2dcm Sample.findToolTip Sample.RFModule_respond
                Sample.st (Sample.env None) Sample.negative_vdraw)
      as (_ & _ & Hdraw & _).
    destruct (Hdraw true Hv Hm) as [Hreply Hstill].
    eexists _, _, _. split; [ exact Hreply | exact (Hstill eq_refl) ].
Defined.

(** C4, as stated, fails: a push with radius -1 is answered with [ack]. *)
Lemma negative_radius_is_acknowledged : ~ invalid_requests_are_refused.
Proof.
  intros H.
  destruct (H Sample.SE3inv Sample.dcm2axis Sample.axis2dcm Sample.findToolTip
              Sample.RFModule_respond Sample.st (Sample.env None)
              Sample.negative_push)
    as (st' & calls & ret & Hreply & _).
  - exists 5%nat, 4%nat. split; [ reflexivity | ].
    right. unfold dbl, Sample.negative_push. simpl. lra.
  - rewrite respond_push in Hreply by (try reflexivity; simpl; lia).
    injection Hreply as _ Hack _. vm_compute in Hack. discriminate Hack.
Qed.

(** That push moves the arm four times. *)
Lemma negative_radius_push_moves :
  exists (st' : KarmaMotor) (calls : list call),
    respond Sample.SE3inv Sample.dcm2axis Sample.axis2dcm Sample.findToolTip
      Sample.RFModule_respond Sample.st (Sample.env None) Sample.negative_push
    = Some (st', [VVocab ack], calls, true)
    /\ count is_motion calls = 4%nat.
Proof.
  eexists _, _. split.
  - apply respond_push; [ reflexivity | simpl; lia ].
  - apply (sample_push_calls None (-1)).
Qed.

(** ** The bounds of the duration on given inputs *)

(** C6 as the specification has it fails twice.  The direction -175 is 5
    degrees away from 180 and gets the slow bounds; a tool attached under
    the name "selectable" leaves the bounds as they are without a tool. *)
Lemma raw_angle_and_arm_name_set_bounds :
  ~ faster_near_0_or_180 /\ ~ attached_tool_scales_bounds.
Proof.
  split.
  - intros H.
    assert (near_direction (-175) 0 \/ near_direction (-175) 180) as Hnear.
    { right. exists (-1)%Z.
      replace (-175 - 180 - 360 * IZR (-1)) with 5 by (simpl; lra).
      unfold Rabs. destruct (Rcase_abs 5); lra. }
    specialize (H (-175) Hnear). unfold push_tbounds in H.
    replace (Dbl.ltb (Rabs (-175)) 10) with false in H.
    2:{ symmetry. apply DblFacts.ltb_false.
        unfold Rabs. destruct (Rcase_abs (-175)); lra. }
    replace (Dbl.ltb (Rabs (-175 - 180)) 10) with false in H.
    2:{ symmetry. apply DblFacts.ltb_false.
        unfold Rabs. destruct (Rcase_abs (-175 - 180)); lra. }
    change (String.eqb selectable selectable) with true in H.
    simpl in H. injection H as H _. lra.
  - intros H.
    destruct (attach_names_arm Sample.SE3inv Sample.dcm2axis Sample.axis2dcm
                Sample.findToolTip Sample.RFModule_respond Sample.st
                (Sample.env None) false selectable 0.1 0 0 0)
      as (st1 & Hreply & Harm & _ & _).
    specialize (H _ _ _ _ _ _ _ _ _ _ _ _ 0 Hreply).
    rewrite Harm in H. unfold push_tbounds in H.
    replace (Dbl.ltb (Rabs 0) 10) with true in H.
    2:{ symmetry. apply DblFacts.ltb_true. rewrite Rabs_R0. lra. }
    change (String.eqb selectable selectable) with true in H.
    simpl in H. injection H as H _. lra.
Qed.

(** * Further properties *)

(** ** The angle the duration is read from *)

Lemma far_after_a_turn (theta : R) :
  near_0_or_180 theta -> ~ near_0_or_180 (theta + 360).
Proof.
  unfold near_0_or_180. intros H H'.
  unfold Rabs in *.
  repeat match goal with
         | H : context [Rcase_abs ?a] |- _ => destruct (Rcase_abs a)
         end; lra.
Qed.

(** X2. The duration of the pushing segment is read from the angle as it
    was received: an angle within 10 degrees of 0 or of 180 gets a strictly
    shorter push than the same direction written one turn further. *)
Theorem one_turn_further_is_slower (theta radius : R) (armType : string) :
  near_0_or_180 theta ->
  push_trajTime theta radius armType
  < push_trajTime (theta + 360) radius armType.
Proof.
  intros Hnear. pose proof (far_after_a_turn theta Hnear) as Hfar.
  rewrite !push_trajTime_unfold. cbv zeta.
  assert (push_tbounds theta armType
          = if String.eqb armType selectable then (0.40, 0.60)
            else (0.40 * 1.3, 0.60 * 1.3)) as ->.
  { unfold push_tbounds.
    rewrite (proj2 (near_0_or_180_test theta) Hnear).
    destruct (String.eqb armType selectable); reflexivity. }
  assert (push_tbounds (theta + 360) armType
          = if String.eqb armType selectable then (0.50, 0.80)
            else (0.50 * 1.3, 0.80 * 1.3)) as ->.
  { unfold push_tbounds.
    destruct (Dbl.ltb (Rabs (theta + 360)) 10
              || Dbl.ltb (Rabs (theta + 360 - 180)) 10) eqn:E.
    - exfalso. apply Hfar. apply near_0_or_180_test. exact E.
    - destruct (String.eqb armType selectable); reflexivity. }
  destruct (String.eqb armType selectable); simpl;
    unfold Rmin;
    repeat match goal with
           | |- context [Rle_dec ?a ?b] => destruct (Rle_dec a b)
           end;
    unfold Rmax;
    repeat match goal with
           | |- context [Rle_dec ?a ?b] => destruct (Rle_dec a b)
           end; lra.
Qed.

Lemma one_turn_further_is_slower_witness :
  near_0_or_180 0
  /\ push_trajTime 0 0.1 selectable < push_trajTime (0 + 360) 0.1 selectable.
Proof.
  assert (near_0_or_180 0) as Hnear
    by (left; unfold Rabs; destruct (Rcase_abs 0); lra).
  split; [ exact Hnear | ].
  exact (one_turn_further_is_slower 0 0.1 selectable Hnear).
Defined.

(** ** The candidate of a push away from the singular angles *)

(** X3. When the normalised angle is at least 45 degrees away from both 90
    and -90, the two arms choose alike: candidate 1 exactly when its
    distance to the controller's answer is strictly the smaller, and
    candidate 2 otherwise, also when the two distances are equal. *)
Theorem push_choose_regular (_theta : R) (a : Arm) (d1 d2 : R) :
  45 <= Rabs (_theta - 90) -> 45 <= Rabs (_theta + 90) ->
  (push_choose _theta a d1 d2 = Cand1 <-> d1 < d2)
  /\ (push_choose _theta a d1 d2 = Cand2 <-> d2 <= d1)
  /\ push_choose _theta LeftArm d1 d2 = push_choose _theta RightArm d1 d2.
Proof.
  intros H1 H2. unfold push_choose.
  rewrite (proj2 (DblFacts.ltb_false _ _) H1).
  rewrite (proj2 (DblFacts.ltb_false _ _) H2).
  unfold Dbl.ltb. destruct (Rlt_dec d1 d2);
    repeat split; intros; try reflexivity; try discriminate; lra.
Qed.

Lemma push_choose_regular_witness :
  45 <= Rabs (0 - 90) /\ 45 <= Rabs (0 + 90)
  /\ push_choose 0 RightArm 1 1 = Cand2.
Proof.
  assert (45 <= Rabs (0 - 90)) as H1
    by (unfold Rabs; destruct (Rcase_abs _); lra).
  assert (45 <= Rabs (0 + 90)) as H2
    by (unfold Rabs; destruct (Rcase_abs _); lra).
  split; [ exact H1 | ]. split; [ exact H2 | ].
  destruct (push_choose_regular 0 RightArm 1 1 H1 H2) as (_ & Htie & _).
  apply Htie. lra.
Defined.

(** X4. The variants of increased radius are used for negative angles
    only.  With a normalised angle that is not negative the movement starts
    with candidate 1 or 2 as they are; with a negative one the right arm
    never keeps candidate 2 and the left arm never keeps candidate 1: each
    takes the variant pushed out by [epsilon] instead. *)
Theorem increased_radius_rule (axis2dcm : Vector -> Matrix) (p : PushPlan)
    (env : Env) (_theta : R) (a : Arm) :
  let sel := push_select axis2dcm p env _theta a in
  (0 <= _theta -> sel = Cand1 \/ sel = Cand2)
  /\ (_theta < 0 ->
      match a with
      | RightArm => sel = Cand1 \/ sel = Cand2eps
      | LeftArm => sel = Cand1eps \/ sel = Cand2
      end).
Proof.
  cbv zeta. unfold push_select.
  destruct (env_ask1 env) as [[xdhat1 odhat1] q1].
  destruct (env_ask2 env) as [[xdhat2 odhat2] q2].
  set (d1 := dist _). set (d2 := dist _).
  unfold push_increase.
  split; intros Hth.
  - rewrite (proj2 (DblFacts.ltb_false _ _) Hth).
    rewrite !andb_false_r. simpl.
    unfold push_choose.
    destruct (Dbl.ltb (Rabs (_theta - 90)) 45), (Dbl.ltb (Rabs (_theta + 90)) 45),
      (Dbl.ltb d1 d2), a; simpl; auto.
  - rewrite (proj2 (DblFacts.ltb_true _ _) Hth).
    unfold push_choose.
    destruct (Dbl.ltb (Rabs (_theta - 90)) 45), (Dbl.ltb (Rabs (_theta + 90)) 45),
      (Dbl.ltb d1 d2), a; simpl; auto.
Qed.

Lemma increased_radius_rule_witness :
  -30 < 0
  /\ (push_select Sample.axis2dcm
        (push_plan Sample.SE3inv Sample.dcm2axis [0.3; 0.1; 0] (-30) 0.1
           (Mat.eye 4 4))
        (Sample.env None) (-30) RightArm = Cand1
      \/ push_select Sample.axis2dcm
           (push_plan Sample.SE3inv Sample.dcm2axis [0.3; 0.1; 0] (-30) 0.1
              (Mat.eye 4 4))
           (Sample.env None) (-30) RightArm = Cand2eps).
Proof.
  assert (-30 < 0) as H by lra.
  split; [ exact H | ].
  destruct (increased_radius_rule Sample.axis2dcm
              (push_plan Sample.SE3inv Sample.dcm2axis [0.3; 0.1; 0] (-30) 0.1
                 (Mat.eye 4 4))
              (Sample.env None) (-30) RightArm) as [_ Hneg].
  exact (Hneg H).
Defined.

(** ** The candidates of a push without tool *)

Lemma sumsq_on_circle (r s c : R) :
  Rsqr s + Rsqr c = 1 ->
  Vec.sumsq [- (r * s); r * c; 0] = Rsqr r.
Proof.
  intros H. unfold Vec.sumsq. simpl. unfold Rsqr in *.
  replace (- (r * s) * - (r * s) + (r * c * (r * c) + (0 * 0 + 0)))
    with (r * r * (s * s + c * c)) by ring.
  rewrite H. ring.
Qed.

(** X5. Without tool (the inverse of the tool frame is the identity), the
    two candidates of a push are at the same point of the horizontal circle
    around the centroid, at distance |radius| from it, and their variants of
    increased radius are at the point 0.05 further out in the same
    direction. *)
Theorem push_candidates_without_tool (SE3inv : Matrix -> Matrix)
    (dcm2axis : Matrix -> Vector) (c0 c1 c2 theta radius : R)
    (frame : Matrix) :
  is_identity (SE3inv frame) ->
  let p := push_plan SE3inv dcm2axis [c0; c1; c2] theta radius frame in
  let at_radius r :=
    [c0 - r * sin_theta theta; c1 + r * cos_theta theta; c2] in
  pp_xd1 p = at_radius radius
  /\ pp_xd2 p = at_radius radius
  /\ pp_xd1eps p = at_radius (radius + 0.05)
  /\ pp_xd2eps p = at_radius (radius + 0.05)
  /\ Vec.norm (Vec.sub (pp_xd1 p) [c0; c1; c2]) = Rabs radius.
Proof.
  intros Hid. cbv zeta.
  assert (pp_xd1 (push_plan SE3inv dcm2axis [c0; c1; c2] theta radius frame)
          = [c0 - radius * sin_theta theta; c1 + radius * cos_theta theta; c2])
    as Hxd1.
  { unfold push_plan, pp_xd1, Vec.subVector, Mat.getCol. simpl.
    unfold Mat.sum_upto, Vec.get. simpl. rewrite !Hid. simpl.
    f_equal; [ ring | f_equal; [ ring | f_equal; ring ] ]. }
  split; [ exact Hxd1 | ]. split; [ | split; [ | split ] ].
  - unfold push_plan, pp_xd2, Vec.subVector, Mat.getCol. simpl.
    unfold Mat.sum_upto, Vec.get. simpl. rewrite !Hid. simpl.
    f_equal; [ ring | f_equal; [ ring | f_equal; ring ] ].
  - unfold push_plan, pp_xd1eps, Vec.subVector, Mat.getCol. simpl.
    unfold Mat.sum_upto, Vec.get. simpl. rewrite !Hid. simpl.
    f_equal; [ ring | f_equal; [ ring | f_equal; ring ] ].
  - unfold push_plan, pp_xd2eps, Vec.subVector, Mat.getCol. simpl.
    unfold Mat.sum_upto, Vec.get. simpl. rewrite !Hid. simpl.
    f_equal; [ ring | f_equal; [ ring | f_equal; ring ] ].
  - rewrite Hxd1. unfold Vec.norm. simpl Vec.sub.
    replace (c0 - radius * sin_theta theta - c0)
      with (- (radius * sin_theta theta)) by ring.
    replace (c1 + radius * cos_theta theta - c1)
      with (radius * cos_theta theta) by ring.
    replace (c2 - c2) with 0 by ring.
    rewrite sumsq_on_circle by apply sin2_cos2.
    apply sqrt_Rsqr_abs.
Qed.

Lemma push_candidates_without_tool_witness :
  is_identity (Sample.SE3inv (Mat.eye 4 4))
  /\ Vec.norm
       (Vec.sub
          (pp_xd1 (push_plan Sample.SE3inv Sample.dcm2axis [0.3; 0.1; 0] 30
                     0.1 (Mat.eye 4 4)))
          [0.3; 0.1; 0])
     = Rabs 0.1.
Proof.
  assert (is_identity (Sample.SE3inv (Mat.eye 4 4))) as Hid
    by (intros i j; reflexivity).
  split; [ exact Hid | ].
  apply (push_candidates_without_tool Sample.SE3inv Sample.dcm2axis
           0.3 0.1 0 30 0.1 (Mat.eye 4 4) Hid).
Defined.

(** ** What a push calls, and on which arm *)

Lemma flag_on_entry (st : KarmaMotor) (env : Env) (i : nat) :
  interrupting st = true -> flag st env i = true.
Proof. intros H. unfold flag. rewrite H. reflexivity. Qed.

Lemma flag_never (st : KarmaMotor) (env : Env) (i : nat) :
  interrupting st = false -> stop_at env = None -> flag st env i = false.
Proof. intros H0 Hs. unfold flag. rewrite H0, Hs. reflexivity. Qed.

Section PushCalls.

Variable SE3inv : Matrix -> Matrix.
Variable dcm2axis : Matrix -> Vector.
Variable axis2dcm : Vector -> Matrix.
Variable findToolTip :
  KarmaMotor -> Env -> string -> string -> KarmaMotor * list call * Bottle * bool.
Variable RFModule_respond : Bottle -> Bottle * bool.

Lemma push_asks (st : KarmaMotor) (env : Env) (c : Vector)
    (theta radius : R) (armType : string) (frame : Matrix) :
  count is_ask
    (snd (push SE3inv dcm2axis axis2dcm st env c theta radius armType frame))
  = 2%nat.
Proof.
  destruct (push_calls SE3inv dcm2axis axis2dcm st env c theta radius armType
              frame) as (a & xd & od & tt & asked & _ & Hasked & Ht).
  cbv zeta in Ht. rewrite Ht, Hasked. rewrite !count_app.
  rewrite !push_segment_count_other, changeElbowHeight_count by reflexivity.
  reflexivity.
Qed.

Lemma push_keeps_flag (st : KarmaMotor) (env : Env) (c : Vector)
    (theta radius : R) (armType : string) (frame : Matrix) :
  interrupting
    (fst (push SE3inv dcm2axis axis2dcm st env c theta radius armType frame))
  = interrupting st.
Proof. reflexivity. Qed.

(** X6. A stop request that arrives while the module is idle is not
    forgotten: the flag stays set, and the next push is planned, stores and
    releases the arm context and asks the controller its two questions, but
    makes no motion call; it is answered [ack] all the same.  Only then is
    the flag cleared, so that the same request sent again moves the arm four
    times. *)
Theorem stale_stop_cancels_next_push (st : KarmaMotor) (env env' : Env)
    (command : Bottle) :
  interrupting st = true ->
  stop_at env' = None ->
  Btl.asVocab (Btl.get command 0) = Vocab.VOCAB4 "p" "u" "s" "h" ->
  (5 <= Btl.size (Btl.tail command))%nat ->
  exists (st1 : KarmaMotor) (calls : list call),
    respond SE3inv dcm2axis axis2dcm findToolTip RFModule_respond st env command
    = Some (st1, [VVocab ack], calls, true)
    /\ count is_motion calls = 0%nat
    /\ count is_store calls = 1%nat
    /\ count is_ask calls = 2%nat
    /\ count is_restore calls = 1%nat
    /\ count is_delete calls = 1%nat
    /\ interrupting st1 = false
    /\ exists (st2 : KarmaMotor) (calls' : list call),
         respond SE3inv dcm2axis axis2dcm findToolTip RFModule_respond st1 env'
           command
         = Some (st2, [VVocab ack], calls', true)
         /\ count is_motion calls' = 4%nat.
Proof.
  intros Hset Hnone Hverb Hsize.
  eexists _, _. split; [ apply respond_push; assumption | ].
  match goal with
  | |- context [snd (push ?s ?d ?x ?st0 ?e ?c ?t ?r ?h ?f)] =>
      destruct (push_counts s d x st0 e c t r h f)
        as (Hstore & Hrestore & Hdelete & Hmotion);
      pose proof (push_asks st0 e c t r h f) as Hask
  end.
  cbv zeta in Hstore, Hrestore, Hdelete, Hmotion.
  rewrite !(flag_on_entry st env _ Hset) in Hmotion.
  repeat (split; [ assumption || reflexivity | ]).
  eexists _, _. split; [ apply respond_push; assumption | ].
  match goal with
  | |- context [snd (push ?s ?d ?x ?st0 ?e ?c ?t ?r ?h ?f)] =>
      destruct (push_counts s d x st0 e c t r h f) as (_ & _ & _ & Hm)
  end.
  cbv zeta in Hm. rewrite Hm.
  rewrite !flag_never by (reflexivity || assumption). reflexivity.
Qed.

(** X7. Every call of a push is made on the controller of the arm it
    selected; the other arm receives nothing. *)
Theorem push_calls_one_arm (st : KarmaMotor) (env : Env) (c : Vector)
    (theta radius : R) (armType : string) (frame : Matrix) :
  let a := push_arm armType
             (pp_xd1 (push_plan SE3inv dcm2axis c theta radius frame)) in
  Forall (fun x => call_arm x = Some a)
    (snd (push SE3inv dcm2axis axis2dcm st env c theta radius armType frame)).
Proof.
  cbv zeta.
  destruct (push_calls SE3inv dcm2axis axis2dcm st env c theta radius armType
              frame) as (a & xd & od & tt & asked & Ha & Hasked & Ht).
  cbv zeta in Ht. rewrite Ht, Hasked, <- Ha. clear Ht Hasked Ha.
  repeat (apply Forall_app; split);
    try (repeat constructor; fail).
  - unfold changeElbowHeight. destruct (elbow_set _); repeat constructor.
  - unfold push_segment. destruct (flag _ _ _); repeat constructor.
  - unfold push_segment. destruct (flag _ _ _); repeat constructor.
  - unfold push_segment. destruct (flag _ _ _); repeat constructor.
  - unfold push_segment. destruct (flag _ _ _); repeat constructor.
Qed.

End PushCalls.

Lemma stale_stop_cancels_next_push_witness :
  interrupting (set_interrupting Sample.st true) = true
  /\ stop_at (Sample.env None) = None
  /\ Btl.asVocab (Btl.get Sample.negative_push 0) = Vocab.VOCAB4 "p" "u" "s" "h"
  /\ (5 <= Btl.size (Btl.tail Sample.negative_push))%nat
  /\ exists (st1 : KarmaMotor) (calls : list call),
       respond Sample.SE3inv Sample.dcm2axis Sample.axis2dcm Sample.findToolTip
         Sample.RFModule_respond (set_interrupting Sample.st true)
         (Sample.env None) Sample.negative_push
       = Some (st1, [VVocab ack], calls, true)
       /\ count is_motion calls = 0%nat.
Proof.
  assert (5 <= Btl.size (Btl.tail Sample.negative_push))%nat as Hsize
    by (simpl; lia).
  split; [ reflexivity | ]. split; [ reflexivity | ].
  split; [ reflexivity | ]. split; [ exact Hsize | ].
  destruct (stale_stop_cancels_next_push Sample.SE3inv Sample.dcm2axis
              Sample.axis2dcm Sample.findToolTip Sample.RFModule_respond
              (set_interrupting Sample.st true) (Sample.env None)
              (Sample.env None) Sample.negative_push
              eq_refl eq_refl eq_refl Hsize)
    as (st1 & calls & Hr & Hm & _).
  exists st1, calls. split; assumption.
Defined.

(** ** The calls of a draw *)

Section DrawCalls.

Variable SE3inv : Matrix -> Matrix.
Variable dcm2axis : Matrix -> Vector.
Variable axis2dcm : Vector -> Matrix.

Lemma draw_segment_count (p : call -> bool) (st : KarmaMotor) (env : Env)
    (pl : DrawPlan) (t3 : R) (i : nat) :
  (forall b x o t, p (goToPoseSync b x o t) = true) ->
  (forall b x y, p (waitMotionDone b x y) = false) ->
  (i < 3)%nat ->
  count p (draw_segment st env pl t3 i)
  = if flag st env i then 0%nat else 1%nat.
Proof.
  intros Hgo Hwait Hi. unfold draw_segment, count.
  destruct (flag st env i); [ reflexivity | ].
  destruct i as [ | [ | [ | i]]]; simpl; rewrite ?Hgo, ?Hwait;
    try reflexivity; lia.
Qed.

Lemma draw_segment_count_other (p : call -> bool) (st : KarmaMotor) (env : Env)
    (pl : DrawPlan) (t3 : R) (i : nat) :
  (forall b x o t, p (goToPoseSync b x o t) = false) ->
  (forall b x y, p (waitMotionDone b x y) = false) ->
  count p (draw_segment st env pl t3 i) = 0%nat.
Proof.
  intros Hgo Hwait. unfold draw_segment, count.
  destruct (flag st env i); [ reflexivity | ].
  destruct i as [ | [ | [ | i]]]; simpl; rewrite ?Hgo, ?Hwait; reflexivity.
Qed.

Lemma changeElbowHeight_one_arm (st : KarmaMotor) (a : Arm) :
  Forall (fun x => call_arm x = Some a) (changeElbowHeight st a).
Proof.
  unfold changeElbowHeight. destruct (elbow_set st); repeat constructor.
Qed.

Lemma draw_segment_one_arm (st : KarmaMotor) (env : Env) (pl : DrawPlan)
    (t3 : R) (i : nat) :
  Forall (fun x => call_arm x = Some (dp_arm pl)) (draw_segment st env pl t3 i).
Proof.
  unfold draw_segment. destruct (flag st env i); [ constructor | ].
  destruct i as [ | [ | [ | i]]]; repeat constructor.
Qed.

Ltac one_arm :=
  repeat first
    [ apply Forall_nil
    | apply Forall_cons; [ reflexivity | ]
    | apply Forall_app; split
    | apply changeElbowHeight_one_arm
    | apply draw_segment_one_arm ].

(** X8. A virtual draw, of either kind, never moves the arm: it stores the
    context, asks the controller about the two waypoints and releases the
    context, all on the arm it chose.  A draw that is executed asks nothing,
    returns 0.0, makes one motion for each of its three segments that finds
    the flag clear, and releases the context once as well. *)
Theorem draw_calls_shape (st : KarmaMotor) (env : Env) (simulation : bool)
    (pose : Z) (c : Vector) (theta radius dist : R) (armType : string)
    (frame : Matrix) :
  let run1 := draw SE3inv dcm2axis axis2dcm st env simulation c theta radius
                dist armType frame in
  let run2 := draw2 SE3inv dcm2axis axis2dcm st env simulation pose c theta
                radius dist armType frame in
  let shape (calls : list call) (res : R) (a : Arm) :=
    count is_store calls = 1%nat
    /\ count is_restore calls = 1%nat
    /\ count is_delete calls = 1%nat
    /\ Forall (fun x => call_arm x = Some a) calls
    /\ (if simulation
        then count is_motion calls = 0%nat /\ count is_ask calls = 2%nat
        else count is_motion calls = clear_reads st env 3
             /\ count is_ask calls = 0%nat /\ res = 0.0) in
  shape (snd (fst run1)) (snd run1)
    (dp_arm (draw_plan SE3inv dcm2axis axis2dcm (iCartCtrl st) c theta radius
               dist armType frame))
  /\ shape (snd (fst run2)) (snd run2)
       (dp_arm (draw2_plan SE3inv dcm2axis axis2dcm c pose theta radius dist
                  armType frame)).
Proof.
  cbv zeta. unfold draw, draw2.
  set (p1 := draw_plan _ _ _ _ _ _ _ _ _ _).
  set (p2 := draw2_plan _ _ _ _ _ _ _ _ _ _).
  destruct (env_ask1 env) as [[xdhat1 odhat1] q1].
  destruct (env_ask2 env) as [[xdhat2 odhat2] q2].
  destruct simulation; cbv iota; cbn [fst snd].
  - split;
      (split; [ | split; [ | split; [ | split; [ | split ] ] ] ]);
      try one_arm;
      count_calls; rewrite ?changeElbowHeight_count by reflexivity;
      reflexivity.
  - split;
      (split; [ | split; [ | split; [ | split; [ | split; [ | split ] ] ] ] ]);
      try reflexivity; try one_arm;
      count_calls; rewrite ?changeElbowHeight_count by reflexivity;
      rewrite ?draw_segment_count_other by reflexivity;
      rewrite ?draw_segment_count by (try reflexivity; lia);
      rewrite ?flag_set_iCartCtrl; unfold clear_reads; simpl;
      destruct (flag st env 0), (flag st env 1), (flag st env 2);
      reflexivity.
Qed.

Lemma vec_set_get_1 (c : Vector) : Vec.get (Vec.set c 1 0) 1 = 0.
Proof. destruct c as [ | c0 [ | c1 c]]; reflexivity. Qed.

Lemma draw_sagittal_from_y (current : option Arm) (c : Vector)
    (_c _s radius dist : R) :
  Vec.get (pose_xd (fst (draw_sagittal_from current c _c _s radius dist))) 1
  = radius * _c.
Proof.
  unfold draw_sagittal_from, pose_xd, Vec.subVector, Mat.getCol, draw_H0.
  simpl. unfold Mat.sum_upto, Vec.get. simpl.
  fold (Vec.get (Vec.set c 1 0) 1). rewrite vec_set_get_1.
  destruct current as [[ | ] | ]; simpl; ring.
Qed.

(** The plan of [draw] is the one made from the cosine and the sine of the
    angle. *)
Lemma draw_plan_from_trig (current : option Arm) (c : Vector)
    (theta radius dist : R) (armType : string) (frame : Matrix) :
  draw_plan SE3inv dcm2axis axis2dcm current c theta radius dist armType frame
  = draw_plan_from SE3inv dcm2axis axis2dcm current c
      (cos_theta theta) (sin_theta theta) radius dist armType frame.
Proof. reflexivity. Qed.

Lemma draw_from_arm (current : option Arm) (c : Vector)
    (_c _s radius dist : R) (frame : Matrix) :
  dp_arm (draw_plan_from SE3inv dcm2axis axis2dcm current c _c _s radius dist
            selectable frame)
  = if Dbl.geb (radius * _c) 0 then RightArm else LeftArm.
Proof.
  unfold draw_plan_from.
  pose proof (draw_sagittal_from_y current c _c _s radius dist) as Hy.
  destruct (draw_sagittal_from current c _c _s radius dist) as [H1 H2].
  simpl fst in Hy.
  destruct (Dbl.neqb (Vec.get c 1) 0);
    [ destruct (recover _ H1 H2 (Vec.get c 1)) | ];
    simpl dp_arm; unfold draw_arm;
    change (String.eqb selectable selectable) with true; cbv iota;
    rewrite Hy; reflexivity.
Qed.

(** X9. With the arm type "selectable", [draw] takes the right arm exactly
    when [radius * _c] is not negative, [_c] being the value the code got
    for the cosine of the angle, whatever that value is; the centroid plays
    no part: the same arm is taken wherever the object is.  [draw2] does
    the opposite: it takes the right arm exactly when the lateral coordinate
    of the centroid is not negative, whatever the angle. *)
Theorem draw_arm_selection (current : option Arm) (pose : Z) (c : Vector)
    (theta radius dist : R) (frame : Matrix) :
  (forall _c _s : R,
      dp_arm (draw_plan_from SE3inv dcm2axis axis2dcm current c _c _s radius
                dist selectable frame) = RightArm
      <-> 0 <= radius * _c)
  /\ (forall c' : Vector,
        dp_arm (draw_plan SE3inv dcm2axis axis2dcm current c' theta radius
                  dist selectable frame)
        = dp_arm (draw_plan SE3inv dcm2axis axis2dcm current c theta radius
                    dist selectable frame))
  /\ (dp_arm (draw2_plan SE3inv dcm2axis axis2dcm c pose theta radius dist
                selectable frame) = RightArm
      <-> 0 <= Vec.get c 1).
Proof.
  split; [ | split ].
  - intros _c _s. rewrite draw_from_arm. unfold Dbl.geb, Dbl.leb.
    destruct (Rle_dec 0 (radius * _c));
      split; intros; try reflexivity; try discriminate; lra.
  - intros c'. rewrite !draw_plan_from_trig, !draw_from_arm. reflexivity.
  - unfold draw2_plan.
    destruct (Dbl.neqb (Vec.get c 1) 0);
      [ destruct (recover _ _ _ (Vec.get c 1)) | ];
      simpl dp_arm;
      change (String.eqb selectable selectable) with true; cbv iota;
      unfold Dbl.geb, Dbl.leb;
      destruct (Rle_dec 0 (Vec.get c 1));
      split; intros; try reflexivity; try discriminate; lra.
Qed.

End DrawCalls.

(** ** Where the waypoints of a draw are *)

Section DrawGeometry.

Variable SE3inv : Matrix -> Matrix.
Variable dcm2axis : Matrix -> Vector.
Variable axis2dcm : Vector -> Matrix.

Lemma neqb_false (x y : R) : Dbl.neqb x y = false -> x = y.
Proof. unfold Dbl.neqb. destruct (Req_dec_T x y); [ auto | discriminate ]. Qed.

Lemma draw2_axes_size (a : Arm) (pose : Z) :
  rows (draw2_axes a pose) = 3%nat /\ cols (draw2_axes a pose) = 3%nat.
Proof.
  unfold draw2_axes, draw2_angles.
  destruct a; destruct (Z.eqb pose 0); split; reflexivity.
Qed.

Ltac waypoint Hid Hshape Hsize :=
  unfold pose_xd, Vec.subVector, Mat.getCol; simpl;
  rewrite ?(proj1 Hshape), ?(proj2 Hshape), ?(proj1 Hsize), ?(proj2 Hsize);
  simpl;
  unfold Mat.sum_upto, Vec.get; simpl;
  rewrite ?(proj1 Hshape), ?(proj2 Hshape), ?(proj1 Hsize), ?(proj2 Hsize);
  simpl;
  rewrite !Hid; simpl;
  repeat (f_equal; try ring).

(** X10. Without tool, the first waypoint of a draw is the point of the
    horizontal circle around the centroid at the given radius and angle,
    and the second is the first moved by [dist] along the x axis of the
    root frame, at the same lateral position and height, on whichever side
    of the sagittal plane the object lies.  [draw2] places its waypoints in
    the same way for the angle [theta - 90]. *)
Theorem draw_waypoints_without_tool (current : option Arm) (pose : Z)
    (c0 c1 c2 theta radius dist : R) (armType : string) (frame : Matrix) :
  is_identity (SE3inv frame) ->
  (forall v : Vector, is_4x4 (axis2dcm v)) ->
  let p := draw_plan SE3inv dcm2axis axis2dcm current [c0; c1; c2] theta
             radius dist armType frame in
  let p2 := draw2_plan SE3inv dcm2axis axis2dcm [c0; c1; c2] pose theta
              radius dist armType frame in
  let first t := [c0 - radius * sin_theta t; c1 + radius * cos_theta t; c2] in
  let second t :=
    [c0 - radius * sin_theta t + dist; c1 + radius * cos_theta t; c2] in
  dp_xd1 p = first theta /\ dp_xd2 p = second theta
  /\ dp_xd1 p2 = first (theta - 90) /\ dp_xd2 p2 = second (theta - 90).
Proof.
  intros Hid Hshape. cbv zeta.
  unfold draw_plan, draw2_plan, draw_sagittal.
  assert (draw_axes current = draw_axes None) as ->
    by (destruct current as [[ | ] | ]; reflexivity).
  change (Vec.get [c0; c1; c2] 1) with c1.
  change (Vec.get [c0; c1; c2] 0) with c0.
  change (cos (Dbl.CTRL_DEG2RAD * (theta - 90))) with (cos_theta (theta - 90)).
  change (sin (Dbl.CTRL_DEG2RAD * (theta - 90))) with (sin_theta (theta - 90)).
  set (R2 := draw2_axes _ pose).
  pose proof (draw2_axes_size
                (if String.eqb armType selectable
                 then if Dbl.geb c1 0 then RightArm else LeftArm
                 else if String.eqb armType "left" then LeftArm else RightArm)
                pose) as Hsize.
  fold R2 in Hsize.
  destruct (Dbl.neqb c1 0) eqn:Hc1.
  - unfold recover, recover_frame, clear_origin.
    set (r1 := [0; 0; -1; Dbl.atan2 c1 (Rabs c0)]).
    set (r2 := [0; 0; -1; 0]).
    pose proof (Hshape r1) as Hs1. pose proof (Hshape r2) as Hs2.
    repeat split; simpl dp_xd1; simpl dp_xd2.
    + waypoint Hid Hs1 Hsize.
    + waypoint Hid Hs1 Hsize.
    + waypoint Hid Hs2 Hsize.
    + waypoint Hid Hs2 Hsize.
  - apply neqb_false in Hc1. subst c1.
    pose proof (Hshape []) as Hs.
    repeat split; simpl dp_xd1; simpl dp_xd2.
    + waypoint Hid Hs Hsize.
    + waypoint Hid Hs Hsize.
    + waypoint Hid Hs Hsize.
    + waypoint Hid Hs Hsize.
Qed.

End DrawGeometry.

Lemma draw_waypoints_without_tool_witness :
  is_identity (Sample.SE3inv (Mat.eye 4 4))
  /\ (forall v : Vector, is_4x4 (Sample.axis2dcm v))
  /\ dp_xd2 (draw_plan Sample.SE3inv Sample.dcm2axis Sample.axis2dcm None
               [0.3; 0.1; 0] 0 0.1 0.2 selectable (Mat.eye 4 4))
     = [0.3 - 0.1 * sin_theta 0 + 0.2; 0.1 + 0.1 * cos_theta 0; 0].
Proof.
  assert (is_identity (Sample.SE3inv (Mat.eye 4 4))) as Hid
    by (intros i j; reflexivity).
  assert (forall v : Vector, is_4x4 (Sample.axis2dcm v)) as Hshape
    by (intros v; split; reflexivity).
  split; [ exact Hid | ]. split; [ exact Hshape | ].
  apply (draw_waypoints_without_tool Sample.SE3inv Sample.dcm2axis
           Sample.axis2dcm None 0 0.3 0.1 0 0 0.1 0.2 selectable (Mat.eye 4 4)
           Hid Hshape).
Defined.

(** ** The motions of a push *)

Lemma motions_app (t u : list call) : motions (t ++ u) = motions t ++ motions u.
Proof. unfold motions. apply flat_map_app. Qed.

Section PushMotions.

Variable SE3inv : Matrix -> Matrix.
Variable dcm2axis : Matrix -> Vector.
Variable axis2dcm : Vector -> Matrix.

Lemma push_target_without_tool (c0 c1 c2 : R) (od : Vector) (frame : Matrix) :
  is_4x4 (axis2dcm od) -> rows frame = 4%nat -> is_identity frame ->
  push_target axis2dcm [c0; c1; c2] od frame = [c0; c1; c2].
Proof.
  intros [Hr Hc] Hrows Hid.
  unfold push_target, Mat.mulv, Mat.getCol. simpl.
  rewrite Hr, Hc, Hrows. simpl.
  unfold Mat.sum_upto, Vec.get. simpl. rewrite !Hid. simpl.
  f_equal; [ ring | f_equal; [ ring | f_equal; ring ] ].
Qed.

(** X11. A push that is not interrupted, without tool, makes four motions:
    to the point 0.1 above the chosen pose in one second, down to the pose
    in one second, to the centroid itself in the interpolated duration,
    and back to the chosen pose in one second. *)
Theorem push_motions_without_tool (st : KarmaMotor) (env : Env)
    (c0 c1 c2 theta radius : R) (armType : string) (frame : Matrix) :
  interrupting st = false -> stop_at env = None ->
  (forall v : Vector, is_4x4 (axis2dcm v)) ->
  rows frame = 4%nat -> is_identity frame ->
  let p := push_plan SE3inv dcm2axis [c0; c1; c2] theta radius frame in
  let a := push_arm armType (pp_xd1 p) in
  let xd := cand_xd p (push_select axis2dcm p env (normalize theta) a) in
  motions (snd (push SE3inv dcm2axis axis2dcm st env [c0; c1; c2] theta radius
                  armType frame))
  = [(Vec.add xd [0; 0; 0.1], 1.0); (xd, 1.0);
     ([c0; c1; c2], push_trajTime theta radius armType); (xd, 1.0)].
Proof.
  intros H0 Hnone Hshape Hrows Hid. cbv zeta.
  unfold push. cbv zeta. cbn [snd].
  rewrite !motions_app. unfold push_segment.
  rewrite !flag_set_iCartCtrl, !(flag_never st env _ H0 Hnone).
  rewrite push_target_without_tool by (auto || apply Hshape).
  unfold changeElbowHeight. destruct (elbow_set _); reflexivity.
Qed.

End PushMotions.

Lemma push_motions_without_tool_witness :
  interrupting Sample.st = false /\ stop_at (Sample.env None) = None
  /\ (forall v : Vector, is_4x4 (Sample.axis2dcm v))
  /\ rows (Mat.eye 4 4) = 4%nat /\ is_identity (Mat.eye 4 4)
  /\ List.length
       (motions (snd (push Sample.SE3inv Sample.dcm2axis Sample.axis2dcm
                        Sample.st (Sample.env None) [0.3; 0.1; 0] 0 0.1
                        selectable (Mat.eye 4 4))))
     = 4%nat.
Proof.
  assert (forall v : Vector, is_4x4 (Sample.axis2dcm v)) as Hshape
    by (intros v; split; reflexivity).
  assert (is_identity (Mat.eye 4 4)) as Hid by (intros i j; reflexivity).
  repeat (split; [ reflexivity || assumption | ]).
  rewrite (push_motions_without_tool Sample.SE3inv Sample.dcm2axis
             Sample.axis2dcm Sample.st (Sample.env None) 0.3 0.1 0 0 0.1
             selectable (Mat.eye 4 4) eq_refl eq_refl Hshape eq_refl Hid).
  reflexivity.
Defined.

(** ** [push2] *)

Section Push2Facts.

Variable SE3inv : Matrix -> Matrix.
Variable dcm2axis : Matrix -> Vector.

Lemma push2_segment_count (p : call -> bool) (st : KarmaMotor) (env : Env)
    (a : Arm) (T2R : Matrix) (t timeout : R) (i : nat) :
  (forall b x o d, p (goToPoseSync b x o d) = true) ->
  (forall b x y, p (waitMotionDone b x y) = false) ->
  count p (push2_segment dcm2axis st env a T2R t timeout i)
  = if flag st env i then 0%nat else 1%nat.
Proof.
  intros Hgo Hwait. unfold push2_segment, count.
  destruct (flag st env i); simpl; rewrite ?Hgo, ?Hwait; reflexivity.
Qed.

Lemma push2_segment_count_other (p : call -> bool) (st : KarmaMotor)
    (env : Env) (a : Arm) (T2R : Matrix) (t timeout : R) (i : nat) :
  (forall b x o d, p (goToPoseSync b x o d) = false) ->
  (forall b x y, p (waitMotionDone b x y) = false) ->
  count p (push2_segment dcm2axis st env a T2R t timeout i) = 0%nat.
Proof.
  intros Hgo Hwait. unfold push2_segment, count.
  destruct (flag st env i); simpl; rewrite ?Hgo, ?Hwait; reflexivity.
Qed.

Lemma push2_segment_one_arm (st : KarmaMotor) (env : Env) (a : Arm)
    (T2R : Matrix) (t timeout : R) (i : nat) :
  Forall (fun x => call_arm x = Some a)
    (push2_segment dcm2axis st env a T2R t timeout i).
Proof.
  unfold push2_segment. destruct (flag st env i); repeat constructor.
Qed.

(** [push2] runs exactly when a controller is designated, and then on
    it. *)
Lemma push2_runs (st : KarmaMotor) (env : Env) (pose : Z) (c : Vector)
    (theta radius : R) (armType : string) (frame : Matrix) :
  match fst (push2_arm (iCartCtrl st) armType c) with
  | None =>
      push2 SE3inv dcm2axis st env pose c theta radius armType frame = None
  | Some a =>
      exists calls : list call,
        push2 SE3inv dcm2axis st env pose c theta radius armType frame
        = Some (set_iCartCtrl st a, calls)
        /\ count is_store calls = 1%nat
        /\ count is_restore calls = 1%nat
        /\ count is_delete calls = 1%nat
        /\ count is_ask calls = 0%nat
        /\ count is_motion calls = clear_reads st env 4
        /\ Forall (fun x => call_arm x = Some a) calls
  end.
Proof.
  unfold push2.
  destruct (push2_arm (iCartCtrl st) armType c) as [[a | ] fi]; cbn [fst].
  - assert (clear_reads st env 4
            = ((if flag st env 0 then 0 else 1)
               + ((if flag st env 1 then 0 else 1)
                  + ((if flag st env 2 then 0 else 1)
                     + (if flag st env 3 then 0 else 1))))%nat) as Hclear.
    { unfold clear_reads. simpl.
      destruct (flag st env 0), (flag st env 1), (flag st env 2),
        (flag st env 3); reflexivity. }
    destruct (Z.eqb pose 0); cbv iota beta;
      (eexists; split; [ reflexivity | ]);
      (split; [ | split; [ | split; [ | split; [ | split ] ] ] ]);
      try (repeat first
             [ apply Forall_nil
             | apply Forall_cons; [ reflexivity | ]
             | apply Forall_app; split
             | apply push2_segment_one_arm ]; fail);
      count_calls;
      rewrite ?push2_segment_count_other by reflexivity;
      rewrite ?push2_segment_count by reflexivity;
      rewrite ?flag_set_iCartCtrl, ?Hclear;
      cbn [is_store is_restore is_delete is_ask is_motion count filter
           List.length Nat.add];
      rewrite ?Nat.add_0_r; reflexivity.
  - destruct (Z.eqb pose 0); reflexivity.
Qed.

(** X12. [push2] chooses its arm from the centroid: with "selectable" the
    right arm exactly when the lateral coordinate of the centroid is not
    negative; "left" and "right" are obeyed.  It then stores and releases
    the context once, asks the controller nothing, and makes one motion for
    each of its four segments that finds the flag clear, all on that arm. *)
Theorem push2_calls_shape (st : KarmaMotor) (env : Env) (pose : Z)
    (c : Vector) (theta radius : R) (frame : Matrix) :
  let run armType :=
    push2 SE3inv dcm2axis st env pose c theta radius armType frame in
  let runs_on armType a :=
    exists calls : list call,
      run armType = Some (set_iCartCtrl st a, calls)
      /\ count is_store calls = 1%nat
      /\ count is_restore calls = 1%nat
      /\ count is_delete calls = 1%nat
      /\ count is_ask calls = 0%nat
      /\ count is_motion calls = clear_reads st env 4
      /\ Forall (fun x => call_arm x = Some a) calls in
  (0 <= Vec.get c 1 -> runs_on selectable RightArm)
  /\ (Vec.get c 1 < 0 -> runs_on selectable LeftArm)
  /\ runs_on "left"%string LeftArm
  /\ runs_on "right"%string RightArm.
Proof.
  cbv zeta.
  split; [ | split; [ | split ] ].
  - intros Hy.
    pose proof (push2_runs st env pose c theta radius selectable frame) as H.
    unfold push2_arm in H.
    change (String.eqb selectable selectable) with true in H.
    rewrite (proj2 (DblFacts.geb_true _ _) Hy) in H. exact H.
  - intros Hy.
    pose proof (push2_runs st env pose c theta radius selectable frame) as H.
    unfold push2_arm in H.
    change (String.eqb selectable selectable) with true in H.
    change (String.eqb selectable "right") with false in H.
    rewrite (proj2 (DblFacts.geb_false _ _) Hy) in H.
    rewrite (proj2 (DblFacts.ltb_true _ _) Hy) in H. exact H.
  - exact (push2_runs st env pose c theta radius "left" frame).
  - exact (push2_runs st env pose c theta radius "right" frame).
Qed.

(** X13. An arm type that is none of "selectable", "left" and "right"
    makes [push] take the right arm, but leaves [push2] with the controller
    of the action before: [push2] then runs on that arm, and when no action
    has selected one yet it has no controller to call. *)
Theorem unknown_arm_type (axis2dcm : Vector -> Matrix) (st : KarmaMotor)
    (env : Env) (pose : Z) (c : Vector) (theta radius : R) (armType : string)
    (frame : Matrix) :
  String.eqb armType selectable = false ->
  String.eqb armType "left" = false ->
  String.eqb armType "right" = false ->
  iCartCtrl (fst (push SE3inv dcm2axis axis2dcm st env c theta radius armType
                    frame)) = Some RightArm
  /\ match iCartCtrl st with
     | None =>
         push2 SE3inv dcm2axis st env pose c theta radius armType frame = None
     | Some a =>
         exists calls : list call,
           push2 SE3inv dcm2axis st env pose c theta radius armType frame
           = Some (set_iCartCtrl st a, calls)
           /\ Forall (fun x => call_arm x = Some a) calls
     end.
Proof.
  intros Hs Hl Hr. split.
  - rewrite push_iCartCtrl. unfold push_arm. rewrite Hs, Hl. reflexivity.
  - pose proof (push2_runs st env pose c theta radius armType frame) as H.
    unfold push2_arm in H. rewrite Hs, Hl, Hr in H. simpl in H.
    destruct (iCartCtrl st) as [a | ]; [ | exact H ].
    destruct H as (calls & Hrun & _ & _ & _ & _ & _ & Harm).
    exists calls. split; assumption.
Qed.

End Push2Facts.

Lemma push2_calls_shape_witness :
  0 <= Vec.get [0.3; 0.1; 0] 1
  /\ exists calls : list call,
       push2 Sample.SE3inv Sample.dcm2axis Sample.st (Sample.env (Some 1%nat))
         1 [0.3; 0.1; 0] 0 0.1 selectable (Mat.eye 4 4)
       = Some (set_iCartCtrl Sample.st RightArm, calls)
       /\ count is_motion calls = 1%nat.
Proof.
  assert (0 <= Vec.get [0.3; 0.1; 0] 1) as Hy by (unfold Vec.get; simpl; lra).
  split; [ exact Hy | ].
  destruct (push2_calls_shape Sample.SE3inv Sample.dcm2axis Sample.st
              (Sample.env (Some 1%nat)) 1 [0.3; 0.1; 0] 0 0.1 (Mat.eye 4 4))
    as (Hright & _).
  destruct (Hright Hy) as (calls & Hrun & _ & _ & _ & _ & Hm & _).
  exists calls. split; [ exact Hrun | ]. rewrite Hm. reflexivity.
Defined.

Lemma unknown_arm_type_witness :
  String.eqb "both" selectable = false
  /\ String.eqb "both" "left" = false
  /\ String.eqb "both" "right" = false
  /\ push2 Sample.SE3inv Sample.dcm2axis Sample.st (Sample.env None) 1
       [0.3; 0.1; 0] 0 0.1 "both" (Mat.eye 4 4) = None.
Proof.
  repeat (split; [ reflexivity | ]).
  destruct (unknown_arm_type Sample.SE3inv Sample.dcm2axis Sample.axis2dcm
              Sample.st (Sample.env None) 1 [0.3; 0.1; 0] 0 0.1 "both"
              (Mat.eye 4 4) eq_refl eq_refl eq_refl) as [_ H].
  exact H.
Defined.

Lemma half_turn (x : R) :
  cos (Dbl.CTRL_DEG2RAD * (x + 180)) = - cos (Dbl.CTRL_DEG2RAD * x)
  /\ sin (Dbl.CTRL_DEG2RAD * (x + 180)) = - sin (Dbl.CTRL_DEG2RAD * x).
Proof.
  replace (Dbl.CTRL_DEG2RAD * (x + 180)) with (Dbl.CTRL_DEG2RAD * x + PI)
    by (unfold Dbl.CTRL_DEG2RAD; field).
  split; [ apply neg_cos | apply neg_sin ].
Qed.

Section Push2Motions.

Variable SE3inv : Matrix -> Matrix.
Variable dcm2axis : Matrix -> Vector.

Ltac push2_point Hid :=
  unfold pose_xd, Vec.subVector, Mat.getCol; simpl;
  unfold Mat.sum_upto, Vec.get; simpl;
  rewrite !Hid; simpl;
  repeat (f_equal; try ring).

(** X14. A [push2] that is not interrupted, without tool, moves the hand
    across the object: from 0.1 above the point of the circle at the
    normalised angle, down to that point, then in [mov_time] to the point
    of the circle diametrically opposite, and 0.1 up from there. *)
Theorem push2_motions_without_tool (st : KarmaMotor) (env : Env) (pose : Z)
    (c0 c1 c2 theta radius : R) (armType : string) (frame : Matrix)
    (a : Arm) :
  interrupting st = false -> stop_at env = None ->
  is_identity (SE3inv frame) ->
  fst (push2_arm (iCartCtrl st) armType [c0; c1; c2]) = Some a ->
  let alfa := Dbl.CTRL_DEG2RAD * normalize theta in
  let near z := [c0 + radius * cos alfa; c1 + radius * sin alfa; c2 + z] in
  let far z := [c0 - radius * cos alfa; c1 - radius * sin alfa; c2 + z] in
  exists calls : list call,
    push2 SE3inv dcm2axis st env pose [c0; c1; c2] theta radius armType frame
    = Some (set_iCartCtrl st a, calls)
    /\ motions calls
       = [(near 0.1, 1.0); (near 0, 1.0); (far 0, mov_time st); (far 0.1, 1.0)].
Proof.
  intros H0 Hnone Hid Harm. cbv zeta. unfold push2.
  destruct (push2_arm (iCartCtrl st) armType [c0; c1; c2]) as [ctrl fi].
  simpl in Harm. subst ctrl.
  destruct (half_turn (normalize theta)) as [Hcos Hsin].
  assert (normalize theta + 0 = normalize theta) as Hz by ring.
  destruct (Z.eqb pose 0); cbv iota beta;
    (eexists; split; [ reflexivity | ]);
    rewrite !motions_app; unfold push2_segment;
    rewrite !flag_set_iCartCtrl, !(flag_never st env _ H0 Hnone);
    cbv iota; unfold motions; simpl flat_map;
    unfold push2_P2O; rewrite Hz, Hcos, Hsin; cbn [app];
    repeat (apply (f_equal2 cons);
            [ apply (f_equal2 pair); [ push2_point Hid | reflexivity ] | ]);
    reflexivity.
Qed.

End Push2Motions.

Lemma push2_motions_without_tool_witness :
  interrupting Sample.st = false /\ stop_at (Sample.env None) = None
  /\ is_identity (Sample.SE3inv (Mat.eye 4 4))
  /\ fst (push2_arm (iCartCtrl Sample.st) "left" [0.3; 0.1; 0]) = Some LeftArm
  /\ exists calls : list call,
       push2 Sample.SE3inv Sample.dcm2axis Sample.st (Sample.env None) 0
         [0.3; 0.1; 0] 0 0.1 "left" (Mat.eye 4 4)
       = Some (set_iCartCtrl Sample.st LeftArm, calls)
       /\ List.length (motions calls) = 4%nat.
Proof.
  assert (is_identity (Sample.SE3inv (Mat.eye 4 4))) as Hid
    by (intros i j; reflexivity).
  repeat (split; [ reflexivity || assumption | ]).
  destruct (push2_motions_without_tool Sample.SE3inv Sample.dcm2axis Sample.st
              (Sample.env None) 0 0.3 0.1 0 0 0.1 "left" (Mat.eye 4 4) LeftArm
              eq_refl eq_refl Hid eq_refl) as (calls & Hrun & Hm).
  exists calls. split; [ exact Hrun | ]. rewrite Hm. reflexivity.
Defined.

(** ** More on requests and replies *)

Section RespondMore.

Variable SE3inv : Matrix -> Matrix.
Variable dcm2axis : Matrix -> Vector.
Variable axis2dcm : Vector -> Matrix.
Variable findToolTip :
  KarmaMotor -> Env -> string -> string -> KarmaMotor * list call * Bottle * bool.
Variable RFModule_respond : Bottle -> Bottle * bool.

Local Notation respond' :=
  (respond SE3inv dcm2axis axis2dcm findToolTip RFModule_respond).

(** X15. A virtual draw request with its six fields is answered with [ack]
    followed by the quality [draw] computed in simulation, and makes no
    motion call; a request with fewer fields gets an empty reply. *)
Theorem respond_vdraw (st : KarmaMotor) (env : Env) (command : Bottle) :
  Btl.asVocab (Btl.get command 0) = Vocab.VOCAB4 "v" "d" "r" "a" ->
  let payload := Btl.tail command in
  let run :=
    draw SE3inv dcm2axis axis2dcm st env true
      [dbl payload 0; dbl payload 1; dbl payload 2]
      (dbl payload 3) (dbl payload 4) (dbl payload 5) (pushHand st)
      (toolFrame st) in
  ((6 <= Btl.size payload)%nat ->
   respond' st env command
   = Some (set_interrupting (fst (fst run)) false,
           [VVocab ack; VDouble (snd run)], snd (fst run), true)
   /\ count is_motion (snd (fst run)) = 0%nat)
  /\ ((Btl.size payload < 6)%nat ->
      respond' st env command = Some (set_interrupting st false, [], [], true)).
Proof.
  intros Hv. cbv zeta. split; intros Hn.
  - split; [ | apply draw_simulation_still ].
    unfold respond. rewrite Hv. vocab.
    cbv beta iota zeta delta [orb].
    rewrite (proj2 (Nat.leb_le _ _) Hn).
    destruct (draw _ _ _ _ _ _ _ _ _ _ _ _) as [[st' calls] res]. reflexivity.
  - unfold respond. rewrite Hv. vocab.
    cbv beta iota zeta delta [orb].
    rewrite (proj2 (Nat.leb_gt _ _) Hn). reflexivity.
Qed.

(** X16. A tool command, of either kind and whatever follows the verb,
    makes no call on any endpoint and leaves the selected controller as it
    was.  It is answered with [ack] or not at all, and when it is not
    answered (a missing or unknown subcommand, an attach with fewer than
    four fields) the tool frame and the arm name are unchanged. *)
Theorem tool_command_is_local (alt : bool) (st : KarmaMotor) (env : Env)
    (rest : Bottle) :
  exists (st' : KarmaMotor) (reply : Bottle),
    respond' st env (VString (tool_verb alt) :: rest)
    = Some (st', reply, [], true)
    /\ iCartCtrl st' = iCartCtrl st
    /\ interrupting st' = false
    /\ (reply = [] \/ Btl.get reply 0 = VVocab ack)
    /\ (reply = [] -> pushHand st' = pushHand st /\ toolFrame st' = toolFrame st).
Proof.
  rewrite respond_tool_verb. unfold respond_tool.
  destruct (Nat.ltb 1 (Btl.size (VString (tool_verb alt) :: rest)));
    [ | eexists _, _; repeat split; auto ].
  destruct (Z.eqb _ (Vocab.encode "attach")).
  { destruct (Nat.leb 4 _).
    - eexists _, _. split; [ reflexivity | ].
      repeat split; auto; discriminate.
    - eexists _, _. repeat split; auto. }
  destruct (Z.eqb _ (Vocab.encode "get")).
  { eexists _, _. split; [ reflexivity | ].
    repeat split; auto; discriminate. }
  destruct (Z.eqb _ (Vocab.encode "remove")).
  { eexists _, _. split; [ reflexivity | ].
    repeat split; auto; discriminate. }
  eexists _, _. repeat split; auto.
Qed.

End RespondMore.

Lemma respond_vdraw_witness :
  Btl.asVocab (Btl.get [VString "vdraw"; VDouble 0.3] 0)
  = Vocab.VOCAB4 "v" "d" "r" "a"
  /\ (Btl.size (Btl.tail [VString "vdraw"; VDouble 0.3]) < 6)%nat
  /\ respond Sample.SE3inv Sample.dcm2axis Sample.axis2dcm Sample.findToolTip
       Sample.RFModule_respond Sample.st (Sample.env None)
       [VString "vdraw"; VDouble 0.3]
     = Some (set_interrupting Sample.st false, [], [], true)
  /\ (6 <= Btl.size (Btl.tail Sample2.virtual_draw))%nat
  /\ count is_motion
       (snd (fst (draw Sample.SE3inv Sample.dcm2axis Sample.axis2dcm Sample.st
                    (Sample.env None) true [0.3; 0; 0] 90 0.1 0.1 selectable
                    (Mat.eye 4 4)))) = 0%nat.
Proof.
  assert (Btl.size (Btl.tail [VString "vdraw"; VDouble 0.3]) < 6)%nat as Hn
    by (simpl; lia).
  assert (6 <= Btl.size (Btl.tail Sample2.virtual_draw))%nat as Hfull
    by (simpl; lia).
  split; [ reflexivity | ]. split; [ exact Hn | ].
  destruct (respond_vdraw Sample.SE3inv Sample.dcm2axis Sample.axis2dcm
              Sample.findToolTip Sample.RFModule_respond Sample.st
              (Sample.env None) [VString "vdraw"; VDouble 0.3] eq_refl)
    as [_ Hshort].
  split; [ exact (Hshort Hn) | ]. split; [ exact Hfull | ].
  destruct (respond_vdraw Sample.SE3inv Sample.dcm2axis Sample.axis2dcm
              Sample.findToolTip Sample.RFModule_respond Sample.st
              (Sample.env None) Sample2.virtual_draw eq_refl)
    as [Hlong _].
  exact (proj2 (Hlong Hfull)).
Defined.


(** * The hand shaking and the stop port *)

Section ShakingFacts.

Variable sign : R -> R.
Hypothesis sign_pos : forall v, 0 < v -> sign v = 1.
Hypothesis sign_neg : forall v, v < 0 -> sign v = -1.

(** X17. One step of the shaking keeps the joint and the amplitude of the
    target: the target is kept, or replaced by its opposite when the joint
    has gone past it.  The target left is never behind the joint: a
    positive target is at or above the position read, a negative one at or
    below it.  The step reads the encoder and commands one velocity on the
    shaken joint of the hand in use, 120 towards the target left when the
    joint is below it and -120 when it is above. *)
Theorem shake_heads_for_target (st : KarmaMotor) (h : Hand) (pos : R) :
  let h' := fst (shakeHand sign st h pos) in
  let hand := hand_of (handUsed st) in
  (flip_hand h' = flip_hand h \/ flip_hand h' = - flip_hand h)
  /\ (flip_hand h' = - flip_hand h <->
      (0 < flip_hand h /\ flip_hand h < pos)
      \/ (flip_hand h < 0 /\ pos < flip_hand h)
      \/ flip_hand h = 0)
  /\ shake_joint h' = shake_joint h
  /\ (0 < flip_hand h' -> pos <= flip_hand h')
  /\ (flip_hand h' < 0 -> flip_hand h' <= pos)
  /\ exists v,
       snd (shakeHand sign st h pos)
       = [getEncoder hand (shake_joint h); velocityMove hand (shake_joint h) v]
       /\ (pos < flip_hand h' -> v = 120)
       /\ (flip_hand h' < pos -> v = -120).
Proof.
  cbv zeta. unfold shakeHand, Dbl.ltb.
  destruct (Rlt_dec 0 (flip_hand h)) as [Hp | Hp];
    destruct (Rlt_dec (flip_hand h - pos) 0) as [He1 | He1];
    destruct (Rlt_dec (flip_hand h) 0) as [Hn | Hn];
    destruct (Rlt_dec 0 (flip_hand h - pos)) as [He2 | He2];
    cbn [andb orb fst snd flip_hand shake_joint];
    try (exfalso; lra);
    (split; [ first [ left; reflexivity | right; reflexivity ] | ]);
    (split; [ split; [ intros; lra | intros [[? ?] | [[? ?] | ?]]; lra ] | ]);
    (split; [ reflexivity | ]);
    (split; [ intros; lra | ]);
    (split; [ intros; lra | ]);
    eexists; (split; [ reflexivity | ]);
    (split; intros Hv;
     [ rewrite sign_pos by lra; lra | rewrite sign_neg by lra; lra ]).
Qed.

End ShakingFacts.

(** The stand-in sign, the target 6 and the joint read at 7: the target
    becomes -6 and the joint is sent back at -120. *)
Lemma shake_heads_for_target_witness :
  flip_hand (fst (shakeHand Sample3.sign Sample3.exploring Sample3.hand 7))
  = - flip_hand Sample3.hand
  /\ snd (shakeHand Sample3.sign Sample3.exploring Sample3.hand 7)
     = [getEncoder LeftArm 4; velocityMove LeftArm 4 (-120)].
Proof.
  assert (forall v, 0 < v -> Sample3.sign v = 1) as Hpos.
  { intros v Hv. unfold Sample3.sign. dbl_solve. }
  assert (forall v, v < 0 -> Sample3.sign v = -1) as Hneg.
  { intros v Hv. unfold Sample3.sign. dbl_solve. }
  destruct (shake_heads_for_target Sample3.sign Hpos Hneg
              Sample3.exploring Sample3.hand 7)
    as (_ & [_ Hflip] & _ & _ & _ & v & Hcalls & _ & Hv).
  assert (flip_hand
            (fst (shakeHand Sample3.sign Sample3.exploring Sample3.hand 7))
          = - flip_hand Sample3.hand) as Hf.
  { apply Hflip. left. simpl. lra. }
  split; [ exact Hf | ].
  rewrite Hcalls. rewrite Hv by (rewrite Hf; simpl; lra). reflexivity.
Defined.


(** X18. The module shakes the hand only while a tool is explored and no
    stop is pending: [updateModule] makes no call, and leaves the target
    as it was, exactly when the flag is set or no hand is in use;
    otherwise it makes one shaking step.  So it makes no call once the stop
    port has read a message, whatever the state was.  The stop port, for
    its part, stops no joint other than joint 4, of either hand, and none
    when no hand is in use. *)
Theorem module_shakes_only_while_exploring (sign : R -> R) (st : KarmaMotor)
    (h : Hand) (pos : R) :
  (updateModule sign st h pos = (h, [], true)
   <-> interrupting st = true \/ handUsed st = "null"%string)
  /\ (updateModule sign st h pos = (shakeHand sign st h pos, true)
      <-> interrupting st = false /\ handUsed st <> "null"%string)
  /\ updateModule sign (fst (fst (read st))) h pos = (h, [], true)
  /\ stopped_joints (snd (fst (read st)))
     = if String.eqb (handUsed st) "null" then []
       else [(LeftArm, 4%Z); (RightArm, 4%Z)].
Proof.
  assert (forall r : Hand * list tcall * bool,
            r = (shakeHand sign st h pos, true) -> r <> (h, [], true))
    as Hne.
  { intros r -> Heq. unfold shakeHand in Heq.
    destruct (_ || _) in Heq; discriminate. }
  unfold updateModule, read, interruptModule.
  cbn [negb andb fst snd interrupting set_interrupting].
  destruct (String.eqb (handUsed st) "null") eqn:Hn.
  - apply String.eqb_eq in Hn.
    rewrite Bool.andb_false_r. cbn [stopped_joints flat_map].
    split; [ split; [ intros _; right; exact Hn | reflexivity ] | ].
    split; [ split; [ intros Heq | intros [_ Hnn]; contradiction ] | ].
    { exfalso. symmetry in Heq. exact (Hne _ eq_refl Heq). }
    split; reflexivity.
  - apply String.eqb_neq in Hn. rewrite Bool.andb_true_r.
    destruct (interrupting st) eqn:Hi; cbn [negb].
    + split; [ split; [ intros _; left; reflexivity | reflexivity ] | ].
      split; [ split; [ intros Heq | intros [Hf _]; discriminate ] | ].
      { exfalso. symmetry in Heq. exact (Hne _ eq_refl Heq). }
      split; reflexivity.
    + split; [ split; [ intros Heq | intros [Hf | Hf] ] | ].
      { exfalso. exact (Hne _ eq_refl Heq). }
      { discriminate. }
      { contradiction. }
      split; [ split; [ intros _; split; [ reflexivity | exact Hn ]
                      | reflexivity ] | ].
      split; reflexivity.
Qed.


(** * One position of the tool exploration *)

Lemma gaze_run_loop (eye : string) (ticks : list Tick) (s : GazeLoop)
    (r : GazeLoop * list call) :
  gaze_run eye s ticks = Some r -> gaze_loop eye s ticks = r.
Proof.
  revert s r. induction ticks as [ | tk ticks IH]; intros s r; simpl.
  - destruct (done s); [ | discriminate ]. now intros [= <-].
  - destruct (negb (tick_interrupting tk) && negb (done s));
      [ | now intros [= <-] ].
    destruct (gaze_body eye s (tick_now tk) (tick_target tk)) as [s' calls].
    destruct (gaze_run eye s' ticks) as [[s'' calls'] | ] eqn:Hrun;
      [ | discriminate ].
    intros [= <-]. rewrite (IH _ _ Hrun). reflexivity.
Qed.

(** The first loop is left with [done] set, or at a test that finds the
    flag set. *)
Lemma gaze_run_exit (eye : string) (ticks : list Tick) (s s' : GazeLoop)
    (looks : list call) :
  gaze_run eye s ticks = Some (s', looks) ->
  done s' = true \/ Exists (fun tk => tick_interrupting tk = true) ticks.
Proof.
  revert s s' looks. induction ticks as [ | tk ticks IH]; intros s s' looks;
    simpl.
  - destruct (done s) eqn:Hd; [ | discriminate ].
    intros [= <- _]. left. exact Hd.
  - destruct (tick_interrupting tk) eqn:Hi; simpl.
    + intros _. right. constructor. exact Hi.
    + destruct (done s) eqn:Hd; simpl.
      * intros [= <- _]. left. exact Hd.
      * destruct (gaze_body eye s (tick_now tk) (tick_target tk))
          as [s1 calls].
        destruct (gaze_run eye s1 ticks) as [[s2 calls'] | ] eqn:Hrun;
          [ | discriminate ].
        intros [= <- _]. destruct (IH _ _ _ Hrun) as [H | H].
        -- left. exact H.
        -- right. apply Exists_cons_tl. exact H.
Qed.

Lemma gaze_body_pixels (eye : string) (s : GazeLoop) (t1 : R)
    (target : option Bottle) :
  Forall (fun c => exists k px, c = lookAtMonoPixel k px)
    (snd (gaze_body eye s t1 target)).
Proof.
  rewrite gaze_body_unfold. cbv zeta. cbn [snd].
  apply Forall_forall. intros c Hin. apply in_map_iff in Hin.
  destruct Hin as (p & <- & _). eexists _, _. reflexivity.
Qed.

Lemma gaze_run_pixels (eye : string) (ticks : list Tick) (s s' : GazeLoop)
    (looks : list call) :
  gaze_run eye s ticks = Some (s', looks) ->
  Forall (fun c => exists k px, c = lookAtMonoPixel k px) looks.
Proof.
  revert s s' looks. induction ticks as [ | tk ticks IH]; intros s s' looks;
    simpl.
  - destruct (done s); [ | discriminate ]. intros [= _ <-]. constructor.
  - destruct (negb (tick_interrupting tk) && negb (done s));
      [ | intros [= _ <-]; constructor ].
    pose proof (gaze_body_pixels eye s (tick_now tk) (tick_target tk)) as Hb.
    destruct (gaze_body eye s (tick_now tk) (tick_target tk)) as [s1 calls].
    destruct (gaze_run eye s1 ticks) as [[s2 calls'] | ] eqn:Hrun;
      [ | discriminate ].
    intros [= _ <-]. apply Forall_app. split; [ exact Hb | ].
    exact (IH _ _ _ Hrun).
Qed.

Lemma gather_loop_calls (eye : string) (ticks : list GatherTick)
    (nItems bound : Z) (calls : list tcall) :
  gather_loop eye nItems bound ticks = Some calls -> Forall collecting calls.
Proof.
  revert nItems calls. induction ticks as [ | tk ticks IH];
    intros nItems calls; cbn [gather_loop].
  - destruct (Z.ltb nItems bound); [ discriminate | ].
    intros [= <-]. constructor.
  - destruct (negb (g_interrupting tk) && Z.ltb nItems bound);
      [ | intros [= <-]; constructor ].
    destruct (gather_loop eye _ bound ticks) as [rest | ] eqn:Hrun;
      [ | discriminate ].
    intros [= <-]. constructor; [ left; reflexivity | ].
    apply Forall_app. split; [ | exact (IH _ _ Hrun) ].
    destruct (g_target tk) as [target | ]; [ | constructor ].
    match goal with
    | |- Forall collecting (if ?b then _ else _) => destruct b
    end; [ | constructor ].
    constructor; [ | constructor ]. right. eexists _, _. reflexivity.
Qed.

(** The second loop is left when the finder has counted enough items, or
    at a test that finds the flag set. *)
Lemma gather_loop_exit (eye : string) (ticks : list GatherTick)
    (nItems bound : Z) (calls : list tcall) :
  gather_loop eye nItems bound ticks = Some calls ->
  (bound <= nItems)%Z
  \/ Exists (fun tk => (bound <= items (g_reply tk))%Z) ticks
  \/ Exists (fun tk => g_interrupting tk = true) ticks.
Proof.
  revert nItems calls. induction ticks as [ | tk ticks IH];
    intros nItems calls; cbn [gather_loop].
  - destruct (Z.ltb nItems bound) eqn:Hlt; [ discriminate | ].
    intros _. left. apply Z.ltb_ge. exact Hlt.
  - destruct (g_interrupting tk) eqn:Hi; simpl.
    + intros _. right. right. constructor. exact Hi.
    + destruct (Z.ltb nItems bound) eqn:Hlt.
      * destruct (gather_loop eye _ bound ticks) as [rest | ] eqn:Hrun;
          [ | discriminate ].
        intros _. destruct (IH _ _ Hrun) as [H | [H | H]].
        -- right. left. constructor. exact H.
        -- right. left. apply Exists_cons_tl. exact H.
        -- right. right. apply Exists_cons_tl. exact H.
      * intros _. left. apply Z.ltb_ge. exact Hlt.
Qed.

(** What is not in the calls of the two loops. *)
Lemma quiet_collecting {A : Type} (f : tcall -> list A) (t : list tcall) :
  f (finder [VVocab (Vocab.encode "num")]) = [] ->
  (forall k px, f (on_arm (lookAtMonoPixel k px)) = []) ->
  Forall collecting t -> flat_map f t = [].
Proof.
  intros Hnum Hpx Hall. induction Hall as [ | c t Hc _ IH]; cbn [flat_map].
  - reflexivity.
  - rewrite IH, app_nil_r.
    destruct Hc as [-> | (k & px & ->)]; [ exact Hnum | apply Hpx ].
Qed.

Lemma quiet_pixels {A : Type} (f : tcall -> list A) (looks : list call) :
  (forall k px, f (on_arm (lookAtMonoPixel k px)) = []) ->
  Forall (fun c => exists k px, c = lookAtMonoPixel k px) looks ->
  flat_map f (map on_arm looks) = [].
Proof.
  intros Hpx Hall. induction Hall as [ | c t Hc _ IH]; cbn [flat_map map].
  - reflexivity.
  - rewrite IH, app_nil_r. destruct Hc as (k & px & ->). apply Hpx.
Qed.

Lemma moveTool_inv (st : KarmaMotor) (h : Hand) (env : ToolEnv)
    (arm eye : string) (xd od xOffset : Vector) (maxItems : Z)
    (st' : KarmaMotor) (calls : list tcall) :
  moveTool st h env arm eye xd od xOffset maxItems = Some (st', calls) ->
  exists (a : Arm) (s : GazeLoop) (looks : list call) (gathered : list tcall),
    iCartCtrl st = Some a
    /\ gaze_run eye (gaze_init (te_now env)) (te_gaze env) = Some (s, looks)
    /\ gather_loop eye 0 (items (te_num env) + maxItems) (te_gather env)
       = Some gathered
    /\ st' = set_handUsed st "null"
    /\ calls
       = [gaze_restoreContext 0]
         ++ (if te_interrupting env then []
             else [setTrackingMode true;
                   lookAtFixationPoint (Vec.add xd xOffset);
                   on_arm (goToPoseSync a xd od 1.0);
                   on_arm (waitMotionDone a 0.1 0.0)])
         ++ [setSaccadesStatus false; setNeckTrajTime 2.5;
             setEyesTrajTime 1.5;
             setControlMode (hand_of arm) (shake_joint h) VOCAB_CM_VELOCITY]
         ++ map on_arm looks
         ++ [finder [VVocab (Vocab.encode "enable")];
             finder [VVocab (Vocab.encode "num")]]
         ++ gathered
         ++ [finder [VVocab (Vocab.encode "disable")];
             stopJoint (hand_of arm) 4].
Proof.
  unfold moveTool, items.
  destruct (iCartCtrl st) as [a | ]; [ | discriminate ].
  destruct (gaze_run eye _ _) as [[s looks] | ]; [ | discriminate ].
  destruct (gather_loop eye 0 _ _) as [gathered | ]; [ | discriminate ].
  intros [= <- <-]. exists a, s, looks, gathered.
  repeat (split; [ reflexivity | ]).
  destruct (te_interrupting env); reflexivity.
Qed.

Ltac quiet_looks looks Hlooks :=
  match goal with
  | |- context [flat_map ?f (map on_arm looks)] =>
      rewrite (quiet_pixels f looks (fun _ _ => eq_refl) Hlooks)
  end.

Ltac quiet_gathered gathered Hgathered :=
  match goal with
  | |- context [flat_map ?f gathered] =>
      rewrite (quiet_collecting f gathered eq_refl (fun _ _ => eq_refl)
                 Hgathered)
  end.

Ltac trace_parts looks Hlooks gathered Hgathered :=
  rewrite ?flat_map_app;
  quiet_looks looks Hlooks; quiet_gathered gathered Hgathered.

Section MoveToolFacts.

Variables (st : KarmaMotor) (h : Hand) (env : ToolEnv) (arm eye : string)
  (xd od xOffset : Vector) (maxItems : Z) (st' : KarmaMotor)
  (calls : list tcall).

Hypothesis Hrun :
  moveTool st h env arm eye xd od xOffset maxItems = Some (st', calls).

Lemma moveTool_state : st' = set_handUsed st "null".
Proof.
  destruct (moveTool_inv _ _ _ _ _ _ _ _ _ _ _ Hrun)
    as (a & s & looks & gathered & _ & _ & _ & Hst & _).
  exact Hst.
Qed.

Lemma moveTool_finder_words :
  filter (fun v => negb (Z.eqb v (Vocab.encode "num"))) (finder_words calls)
  = [Vocab.encode "enable"; Vocab.encode "disable"].
Proof.
  destruct (moveTool_inv _ _ _ _ _ _ _ _ _ _ _ Hrun)
    as (a & s & looks & gathered & Ha & Hgaze & Hgather & Hst & Hcalls).
  pose proof (gaze_run_pixels _ _ _ _ _ Hgaze) as Hlooks.
  pose proof (gather_loop_calls _ _ _ _ _ Hgather) as Hgathered.
  rewrite Hcalls. unfold finder_words. rewrite !flat_map_app.
  quiet_looks looks Hlooks.
  assert (filter (fun v => negb (Z.eqb v (Vocab.encode "num")))
            (flat_map (fun c => match c with
                                | finder (VVocab v :: _) => [v]
                                | _ => []
                                end) gathered) = []) as Hnum.
  { clear - Hgathered.
    induction Hgathered as [ | c t Hc _ IH]; [ reflexivity | ].
    cbn [flat_map]. rewrite filter_app, IH, app_nil_r.
    destruct Hc as [-> | (k & px & ->)]; reflexivity. }
  rewrite !filter_app, Hnum.
  destruct (te_interrupting env); reflexivity.
Qed.

Lemma moveTool_mode_joints :
  mode_joints calls = [(hand_of arm, shake_joint h)].
Proof.
  destruct (moveTool_inv _ _ _ _ _ _ _ _ _ _ _ Hrun)
    as (a & s & looks & gathered & Ha & Hgaze & Hgather & Hst & Hcalls).
  pose proof (gaze_run_pixels _ _ _ _ _ Hgaze) as Hlooks.
  pose proof (gather_loop_calls _ _ _ _ _ Hgather) as Hgathered.
  rewrite Hcalls. unfold mode_joints.
  trace_parts looks Hlooks gathered Hgathered.
  destruct (te_interrupting env); reflexivity.
Qed.

Lemma moveTool_stopped_joints : stopped_joints calls = [(hand_of arm, 4%Z)].
Proof.
  destruct (moveTool_inv _ _ _ _ _ _ _ _ _ _ _ Hrun)
    as (a & s & looks & gathered & Ha & Hgaze & Hgather & Hst & Hcalls).
  pose proof (gaze_run_pixels _ _ _ _ _ Hgaze) as Hlooks.
  pose proof (gather_loop_calls _ _ _ _ _ Hgather) as Hgathered.
  rewrite Hcalls. unfold stopped_joints.
  trace_parts looks Hlooks gathered Hgathered.
  destruct (te_interrupting env); reflexivity.
Qed.

Lemma moveTool_gaze_restores : gaze_restores calls = [0%Z].
Proof.
  destruct (moveTool_inv _ _ _ _ _ _ _ _ _ _ _ Hrun)
    as (a & s & looks & gathered & Ha & Hgaze & Hgather & Hst & Hcalls).
  pose proof (gaze_run_pixels _ _ _ _ _ Hgaze) as Hlooks.
  pose proof (gather_loop_calls _ _ _ _ _ Hgather) as Hgathered.
  rewrite Hcalls. unfold gaze_restores.
  trace_parts looks Hlooks gathered Hgathered.
  destruct (te_interrupting env); reflexivity.
Qed.

Lemma moveTool_reaches :
  reaches calls = (if te_interrupting env then [] else [xd]).
Proof.
  destruct (moveTool_inv _ _ _ _ _ _ _ _ _ _ _ Hrun)
    as (a & s & looks & gathered & Ha & Hgaze & Hgather & Hst & Hcalls).
  pose proof (gaze_run_pixels _ _ _ _ _ Hgaze) as Hlooks.
  pose proof (gather_loop_calls _ _ _ _ _ Hgather) as Hgathered.
  rewrite Hcalls. unfold reaches.
  trace_parts looks Hlooks gathered Hgathered.
  destruct (te_interrupting env); reflexivity.
Qed.

Lemma moveTool_fixations :
  fixations calls
  = (if te_interrupting env then [] else [Vec.add xd xOffset]).
Proof.
  destruct (moveTool_inv _ _ _ _ _ _ _ _ _ _ _ Hrun)
    as (a & s & looks & gathered & Ha & Hgaze & Hgather & Hst & Hcalls).
  pose proof (gaze_run_pixels _ _ _ _ _ Hgaze) as Hlooks.
  pose proof (gather_loop_calls _ _ _ _ _ Hgather) as Hgathered.
  rewrite Hcalls. unfold fixations.
  trace_parts looks Hlooks gathered Hgathered.
  destruct (te_interrupting env); reflexivity.
Qed.

(** The calls on an arm are a reach and its wait, on the controller
    designated on entry, and pixels for the gaze. *)
Lemma moveTool_arm_calls :
  Forall (fun c => (call_arm c = iCartCtrl st \/ call_arm c = None)
                   /\ is_store c = false /\ is_restore c = false
                   /\ is_delete c = false)
    (arm_calls calls).
Proof.
  destruct (moveTool_inv _ _ _ _ _ _ _ _ _ _ _ Hrun)
    as (a & s & looks & gathered & Ha & Hgaze & Hgather & Hst & Hcalls).
  pose proof (gaze_run_pixels _ _ _ _ _ Hgaze) as Hlooks.
  pose proof (gather_loop_calls _ _ _ _ _ Hgather) as Hgathered.
  rewrite Hcalls.
  unfold arm_calls. rewrite !flat_map_app. cbn [flat_map app].
  apply Forall_app. split; [ | apply Forall_app; split ].
  - rewrite Ha. destruct (te_interrupting env); cbn [flat_map app];
      repeat (constructor;
              [ split; [ left; reflexivity | repeat split; reflexivity ] | ]);
      constructor.
  - clear - Hlooks.
    induction Hlooks as [ | c t (k & px & ->) _ IH]; cbn [flat_map map app].
    + constructor.
    + constructor; [ | exact IH ].
      split; [ right; reflexivity | repeat split; reflexivity ].
  - rewrite app_nil_r. clear - Hgathered.
    induction Hgathered as [ | c t Hc _ IH]; cbn [flat_map].
    + constructor.
    + apply Forall_app. split; [ | exact IH ].
      destruct Hc as [-> | (k & px & ->)]; [ constructor | ].
      constructor; [ | constructor ].
      split; [ right; reflexivity | repeat split; reflexivity ].
Qed.

Lemma moveTool_ends :
  exists middle : list tcall,
    calls = gaze_restoreContext 0 :: middle
            ++ [finder [VVocab (Vocab.encode "disable")];
                stopJoint (hand_of arm) 4].
Proof.
  destruct (moveTool_inv _ _ _ _ _ _ _ _ _ _ _ Hrun)
    as (a & s & looks & gathered & Ha & Hgaze & Hgather & Hst & Hcalls).
  rewrite Hcalls. eexists. cbn [app]. f_equal.
  rewrite !app_comm_cons. repeat rewrite app_assoc. reflexivity.
Qed.

End MoveToolFacts.

(** X19. A [moveTool] that returns leaves no hand in use and changes
    nothing else of the state.  It starts by restoring the gaze context 0
    and ends by telling the finder "disable" and stopping a joint of the
    hand; "enable" and "disable" are sent once each, around the requests
    "num".  The joint it puts in velocity mode is [shake_joint], the joint
    it stops is joint 4.  The hand is sent to [xd], and the gaze to
    [xd+xOffset], once, when the flag is clear on entry, and not at all
    when it is set; every call on an arm goes to the controller
    designated on entry. *)
Theorem moveTool_brackets_collection (st : KarmaMotor) (h : Hand)
    (env : ToolEnv) (arm eye : string) (xd od xOffset : Vector)
    (maxItems : Z) (st' : KarmaMotor) (calls : list tcall) :
  moveTool st h env arm eye xd od xOffset maxItems = Some (st', calls) ->
  st' = set_handUsed st "null"
  /\ (exists middle : list tcall,
        calls = gaze_restoreContext 0 :: middle
                ++ [finder [VVocab (Vocab.encode "disable")];
                    stopJoint (hand_of arm) 4])
  /\ filter (fun v => negb (Z.eqb v (Vocab.encode "num"))) (finder_words calls)
     = [Vocab.encode "enable"; Vocab.encode "disable"]
  /\ mode_joints calls = [(hand_of arm, shake_joint h)]
  /\ stopped_joints calls = [(hand_of arm, 4%Z)]
  /\ gaze_restores calls = [0%Z]
  /\ reaches calls = (if te_interrupting env then [] else [xd])
  /\ fixations calls
     = (if te_interrupting env then [] else [Vec.add xd xOffset])
  /\ Forall (fun c => call_arm c = iCartCtrl st \/ call_arm c = None)
       (arm_calls calls).
Proof.
  intros Hrun.
  split; [ exact (moveTool_state _ _ _ _ _ _ _ _ _ _ _ Hrun) | ].
  split; [ exact (moveTool_ends _ _ _ _ _ _ _ _ _ _ _ Hrun) | ].
  split; [ exact (moveTool_finder_words _ _ _ _ _ _ _ _ _ _ _ Hrun) | ].
  split; [ exact (moveTool_mode_joints _ _ _ _ _ _ _ _ _ _ _ Hrun) | ].
  split; [ exact (moveTool_stopped_joints _ _ _ _ _ _ _ _ _ _ _ Hrun) | ].
  split; [ exact (moveTool_gaze_restores _ _ _ _ _ _ _ _ _ _ _ Hrun) | ].
  split; [ exact (moveTool_reaches _ _ _ _ _ _ _ _ _ _ _ Hrun) | ].
  split; [ exact (moveTool_fixations _ _ _ _ _ _ _ _ _ _ _ Hrun) | ].
  pose proof (moveTool_arm_calls _ _ _ _ _ _ _ _ _ _ _ Hrun) as Harm.
  eapply Forall_impl; [ | exact Harm ]. intros c [Hc _]. exact Hc.
Qed.

(** The left arm was selected, the joint 4 shaken, and the flag is set at
    every test: the hand is sent nowhere. *)
Lemma moveTool_brackets_collection_witness :
  exists (st' : KarmaMotor) (calls : list tcall),
    moveTool Sample3.exploring Sample3.hand Sample3.stopped "left" "left"
      [-0.35; 0; 0] [0; 0; 1; 0] [0; 0; 0.1] 25
    = Some (st', calls)
    /\ handUsed st' = "null"%string
    /\ reaches calls = []
    /\ stopped_joints calls = [(LeftArm, 4%Z)].
Proof.
  eexists _, _. split; [ reflexivity | ].
  destruct (moveTool_brackets_collection Sample3.exploring Sample3.hand
              Sample3.stopped "left" "left" [-0.35; 0; 0] [0; 0; 1; 0]
              [0; 0; 0.1] 25 _ _ eq_refl)
    as (Hst & _ & _ & _ & Hstop & _ & Hreach & _).
  split; [ reflexivity | ]. split; [ exact Hreach | exact Hstop ].
Defined.

(** A [moveTool] entered with the flag set, and finding it set at the test
    of each loop. *)
Lemma moveTool_stopped (st : KarmaMotor) (h : Hand)
    (env : ToolEnv) (arm eye : string) (xd od xOffset : Vector)
    (maxItems : Z) (a : Arm) :
  iCartCtrl st = Some a -> stopped_throughout env ->
  moveTool st h env arm eye xd od xOffset maxItems
  = Some (set_handUsed st "null",
          [gaze_restoreContext 0;
           setSaccadesStatus false; setNeckTrajTime 2.5; setEyesTrajTime 1.5;
           setControlMode (hand_of arm) (shake_joint h) VOCAB_CM_VELOCITY;
           finder [VVocab (Vocab.encode "enable")];
           finder [VVocab (Vocab.encode "num")];
           finder [VVocab (Vocab.encode "disable")];
           stopJoint (hand_of arm) 4]).
Proof.
  intros Ha (Hin & (tk & rest & Hgaze & Htk) & (gk & grest & Hgather & Hgk)).
  unfold moveTool. rewrite Ha, Hin, Hgaze, Hgather.
  cbn [gaze_run gather_loop]. rewrite Htk, Hgk. reflexivity.
Qed.

Lemma never_interrupted {A : Type} (f : A -> bool) (l : list A) :
  Forall (fun x => f x = false) l -> ~ Exists (fun x => f x = true) l.
Proof.
  intros Hall Hex. apply Exists_exists in Hex. destruct Hex as (x & Hin & Hx).
  rewrite Forall_forall in Hall. rewrite (Hall x Hin) in Hx. discriminate.
Qed.

(** X20. A [moveTool] that returns without having found the flag set at a
    loop test has waited for both: the gaze loop has ended with [done]
    set, that is after a window of more than 20 pixels whose mean height
    passed the test; and, when the number of items to reach is positive,
    the finder has answered a request "num" with at least the items it
    counted before plus [maxItems]. *)
Theorem unstopped_moveTool_waits (st : KarmaMotor) (h : Hand) (env : ToolEnv)
    (arm eye : string) (xd od xOffset : Vector) (maxItems : Z)
    (st' : KarmaMotor) (calls : list tcall) :
  moveTool st h env arm eye xd od xOffset maxItems = Some (st', calls) ->
  never_stopped env ->
  done (fst (gaze_loop eye (gaze_init (te_now env)) (te_gaze env))) = true
  /\ ((0 < items (te_num env) + maxItems)%Z ->
      Exists (fun tk => (items (te_num env) + maxItems <= items (g_reply tk))%Z)
        (te_gather env)).
Proof.
  intros Hrun [Hgz Hgt].
  destruct (moveTool_inv _ _ _ _ _ _ _ _ _ _ _ Hrun)
    as (a & s & looks & gathered & _ & Hgaze & Hgather & _ & _).
  split.
  - rewrite (gaze_run_loop _ _ _ _ Hgaze). cbn [fst].
    destruct (gaze_run_exit _ _ _ _ _ Hgaze) as [Hd | Hex]; [ exact Hd | ].
    exfalso. exact (never_interrupted tick_interrupting _ Hgz Hex).
  - intros Hpos.
    destruct (gather_loop_exit _ _ _ _ _ Hgather) as [Hle | [Hex | Hex]].
    + lia.
    + exact Hex.
    + exfalso. exact (never_interrupted g_interrupting _ Hgt Hex).
Qed.


Lemma gaze_loop_app (eye : string) (ticks more : list Tick) (s : GazeLoop) :
  Forall (fun tk => tick_interrupting tk = false) ticks ->
  done (fst (gaze_loop eye s ticks)) = false ->
  fst (gaze_loop eye s (ticks ++ more))
  = fst (gaze_loop eye (fst (gaze_loop eye s ticks)) more).
Proof.
  intros Hall. revert s.
  induction Hall as [ | tk ticks Htk _ IH]; intros s Hd.
  - reflexivity.
  - cbn [gaze_loop app] in *. rewrite Htk in *. cbn [negb andb] in *.
    destruct (done s) eqn:Hs; cbn [negb] in *.
    + cbn [fst] in Hd. congruence.
    + destruct (gaze_body eye s (tick_now tk) (tick_target tk)) as [s1 calls].
      specialize (IH s1).
      destruct (gaze_loop eye s1 ticks) as [s2 calls2].
      destruct (gaze_loop eye s1 (ticks ++ more)) as [s3 calls3].
      cbn [fst] in *. exact (IH Hd).
Qed.

Lemma gaze_run_some (eye : string) (ticks : list Tick) (s : GazeLoop) :
  done (fst (gaze_loop eye s ticks)) = true ->
  exists r, gaze_run eye s ticks = Some r.
Proof.
  revert s. induction ticks as [ | tk ticks IH]; intros s;
    cbn [gaze_loop gaze_run].
  - cbn [fst]. intros ->. eexists. reflexivity.
  - destruct (negb (tick_interrupting tk) && negb (done s));
      [ | intros _; eexists; reflexivity ].
    destruct (gaze_body eye s (tick_now tk) (tick_target tk)) as [s1 calls].
    specialize (IH s1). destruct (gaze_loop eye s1 ticks) as [s2 calls2].
    cbn [fst] in *. intros Hd. destruct (IH Hd) as ([s3 calls3] & ->).
    eexists. reflexivity.
Qed.

(** The sample that settles: after twenty-one pixels at height 70, the
    iteration that closes the window sets [done]. *)
Lemma sample_settles :
  done (fst (gaze_loop "left" (gaze_init 0)
               (Sample.window 70 ++ [mkTick false 3 None]))) = true.
Proof.
  destruct (sample_window 70) as (Ht0 & Hdone & Hys).
  pose proof (accumulates_run "left" (Sample.window 70) _ _
                (accumulates_init 0)) as (Hcnt & _ & Hsum).
  rewrite (gaze_window_state "left" (Sample.window 70) (gaze_init 0) [])
    in Hcnt, Hsum.
  rewrite Hys in Hcnt, Hsum.
  rewrite gaze_loop_app;
    [ | apply Forall_forall; intros tk Hin; apply repeat_spec in Hin;
        subst tk; reflexivity
      | exact Hdone ].
  set (s := fst (gaze_loop "left" (gaze_init 0) (Sample.window 70))) in *.
  cbn [gaze_loop tick_interrupting tick_now tick_target negb andb].
  rewrite Hdone. cbn [negb].
  rewrite gaze_body_unfold. cbv zeta. cbn [fst snd app].
  unfold gaze_taken. cbn [raw_pixel].
  replace (Dbl.geb (3 - t0 s) 3.0) with true
    by (symmetry; apply DblFacts.geb_true; rewrite Ht0; lra).
  cbn [done]. rewrite Hcnt, Hsum.
  replace (Z.ltb 20 (Z.of_nat (List.length (repeat 70 21)))) with true
    by reflexivity.
  apply DblFacts.ltb_true.
  unfold sum. simpl. unfold Rabs.
  match goal with |- context [Rcase_abs ?x] => destruct (Rcase_abs x) end;
    lra.
Qed.

(** The left arm selected, the flag never set, the gaze settled on the
    first window and 25 items counted at the first request. *)
Lemma unstopped_moveTool_waits_witness :
  never_stopped Sample3.settled
  /\ exists (st' : KarmaMotor) (calls : list tcall),
       moveTool Sample3.exploring Sample3.hand Sample3.settled "left" "left"
         [-0.35; 0; 0] [0; 0; 1; 0] [0; 0; 0.1] 25
       = Some (st', calls)
       /\ done (fst (gaze_loop "left" (gaze_init 0) (te_gaze Sample3.settled)))
          = true
       /\ Exists (fun tk => (25 <= items (g_reply tk))%Z)
            (te_gather Sample3.settled).
Proof.
  assert (never_stopped Sample3.settled) as Hnever.
  { split.
    - apply Forall_app. split.
      + apply Forall_forall. intros tk Hin. apply repeat_spec in Hin.
        subst tk. reflexivity.
      + repeat constructor.
    - repeat constructor. }
  split; [ exact Hnever | ].
  destruct (gaze_run_some _ _ _ sample_settles) as ([s looks] & Hgaze).
  assert (moveTool Sample3.exploring Sample3.hand Sample3.settled
            "left" "left" [-0.35; 0; 0] [0; 0; 1; 0] [0; 0; 0.1] 25
          <> None) as Hsome.
  { unfold moveTool. cbn [iCartCtrl Sample3.exploring set_handUsed
                           set_iCartCtrl te_now te_gaze Sample3.settled].
    rewrite Hgaze. discriminate. }
  destruct (moveTool _ _ _ _ _ _ _ _ _) as [[st' calls] | ] eqn:Hrun;
    [ | contradiction ].
  exists st', calls. split; [ reflexivity | ].
  destruct (unstopped_moveTool_waits _ _ _ _ _ _ _ _ _ _ _ Hrun Hnever)
    as [Hd Hitems].
  split; [ exact Hd | ]. apply Hitems. reflexivity.
Defined.


(** * The tool exploration *)

Lemma hand_of_names_arm (arm : string) (left : bool) :
  names_arm arm left -> hand_of arm = if left then LeftArm else RightArm.
Proof. intros [[-> ->] | [-> ->]]; reflexivity. Qed.

Lemma mirror_find_xd (i : nat) : find_xd true i = mirror (find_xd false i).
Proof.
  unfold mirror, find_xd, Vec.get.
  destruct i as [ | [ | [ | [ | [ | i]]]]]; cbn [Vec.set nth];
    (f_equal; f_equal; lra).
Qed.

Lemma mirror_find_fixation (i : nat) :
  Vec.add (find_xd true i) (find_offset true i)
  = mirror (Vec.add (find_xd false i) (find_offset false i)).
Proof.
  unfold mirror, find_xd, find_offset, Vec.get.
  destruct i as [ | [ | [ | [ | [ | i]]]]]; cbn [Vec.add Vec.set nth];
    (f_equal; f_equal; lra).
Qed.

Section FindFacts.

Variable dcm2axis : Matrix -> Vector.
Variable axis2dcm : Vector -> Matrix.

Local Notation findToolTip' := (findToolTip dcm2axis axis2dcm).
Local Notation step' := (find_step dcm2axis axis2dcm).

Lemma findToolTip_known (st : KarmaMotor) (h : Hand) (env : FindEnv)
    (arm eye : string) (left : bool) :
  names_arm arm left ->
  let a := if left then LeftArm else RightArm in
  let step := step' h env arm eye left in
  findToolTip' st h env arm eye
  = match step 0%nat (set_iCartCtrl st a) with
    | None => None
    | Some (s1, c1) =>
    match step 1%nat s1 with
    | None => None
    | Some (s2, c2) =>
    match step 2%nat s2 with
    | None => None
    | Some (s3, c3) =>
    match step 3%nat s3 with
    | None => None
    | Some (s4, c4) =>
    match step 4%nat s4 with
    | None => None
    | Some (s5, c5) =>
    match step 5%nat s5 with
    | None => None
    | Some (s6, c6) =>
        Some (s6, mkHand (flip_hand h) 6,
              find_before a arm eye env
              ++ c1 ++ c2 ++ c3 ++ c4 ++ c5 ++ c6 ++ find_after a env,
              fe_solution env, true)
    end end end end end end.
Proof.
  intros [[-> ->] | [-> ->]]; reflexivity.
Qed.

(** A run on a known arm is made of its six positions, each entered with
    the chosen controller and no hand in use but for the first. *)
Lemma findToolTip_steps (st : KarmaMotor) (h : Hand) (env : FindEnv)
    (arm eye : string) (left : bool)
    (r : KarmaMotor * Hand * list tcall * Bottle * bool) :
  names_arm arm left ->
  findToolTip' st h env arm eye = Some r ->
  let a := if left then LeftArm else RightArm in
  let step := step' h env arm eye left in
  let s0 := set_iCartCtrl st a in
  let s := set_handUsed s0 "null" in
  exists c1 c2 c3 c4 c5 c6 : list tcall,
    step 0%nat s0 = Some (s, c1) /\ step 1%nat s = Some (s, c2)
    /\ step 2%nat s = Some (s, c3) /\ step 3%nat s = Some (s, c4)
    /\ step 4%nat s = Some (s, c5) /\ step 5%nat s = Some (s, c6)
    /\ r = (s, mkHand (flip_hand h) 6,
            find_before a arm eye env
            ++ c1 ++ c2 ++ c3 ++ c4 ++ c5 ++ c6 ++ find_after a env,
            fe_solution env, true).
Proof.
  intros Hn. rewrite (findToolTip_known st h env arm eye left Hn). cbv zeta.
  destruct (step' h env arm eye left 0 _) as [[s1 c1] | ] eqn:H1;
    [ | discriminate ].
  pose proof (moveTool_state _ _ _ _ _ _ _ _ _ _ _ H1) as ->.
  destruct (step' h env arm eye left 1 _) as [[s2 c2] | ] eqn:H2;
    [ | discriminate ].
  pose proof (moveTool_state _ _ _ _ _ _ _ _ _ _ _ H2) as ->.
  destruct (step' h env arm eye left 2 _) as [[s3 c3] | ] eqn:H3;
    [ | discriminate ].
  pose proof (moveTool_state _ _ _ _ _ _ _ _ _ _ _ H3) as ->.
  destruct (step' h env arm eye left 3 _) as [[s4 c4] | ] eqn:H4;
    [ | discriminate ].
  pose proof (moveTool_state _ _ _ _ _ _ _ _ _ _ _ H4) as ->.
  destruct (step' h env arm eye left 4 _) as [[s5 c5] | ] eqn:H5;
    [ | discriminate ].
  pose proof (moveTool_state _ _ _ _ _ _ _ _ _ _ _ H5) as ->.
  destruct (step' h env arm eye left 5 _) as [[s6 c6] | ] eqn:H6;
    [ | discriminate ].
  pose proof (moveTool_state _ _ _ _ _ _ _ _ _ _ _ H6) as ->.
  intros [= <-]. exists c1, c2, c3, c4, c5, c6.
  repeat (split; [ reflexivity | ]). reflexivity.
Qed.

Ltac find_run Hn Hrun :=
  let Hr := fresh "Hr" in
  destruct (findToolTip_steps _ _ _ _ _ _ _ Hn Hrun)
    as (c1 & c2 & c3 & c4 & c5 & c6 & H1 & H2 & H3 & H4 & H5 & H6 & Hr);
  cbv zeta in H1, H2, H3, H4, H5, H6, Hr;
  unfold find_step in H1, H2, H3, H4, H5, H6;
  let E := fresh "E" in
  pose proof (f_equal (fun r => fst (fst (fst (fst r)))) Hr) as E;
  cbn [fst snd] in E; subst;
  pose proof (f_equal (fun r => snd (fst (fst (fst r)))) Hr) as E;
  cbn [fst snd] in E; subst;
  pose proof (f_equal (fun r => snd (fst (fst r))) Hr) as E;
  cbn [fst snd] in E; subst;
  pose proof (f_equal (fun r => snd (fst r)) Hr) as E;
  cbn [fst snd] in E; subst;
  pose proof (f_equal (fun r => snd r) Hr) as E;
  cbn [fst snd] in E; subst; clear Hr.

(** X21. A [findToolTip] that returns on the arm "left" or "right" returns
    true, with the finder's reply to "find" as the solution, with the
    controller of that arm selected, no hand in use and joint 6 as the
    shaken joint.  On that arm it stores the context, reads and sets the
    enabled joints, and at the end restores and deletes the context it
    stored; between the two it makes no other context call and calls no
    other arm.  The gaze context restored is 0 once for each of the six
    positions, and the stored one at the end.  The request is answered
    with [ack] followed by the solution without its first element. *)
Theorem find_result_and_contexts (st : KarmaMotor) (h : Hand) (env : FindEnv)
    (arm eye : string) (left : bool) (rest : Bottle) (st' : KarmaMotor)
    (h' : Hand) (calls : list tcall) (sol : Bottle) (ok : bool) :
  names_arm arm left ->
  findToolTip' st h env arm eye = Some (st', h', calls, sol, ok) ->
  let a := if left then LeftArm else RightArm in
  ok = true /\ sol = fe_solution env
  /\ st' = set_handUsed (set_iCartCtrl st a) "null"
  /\ h' = mkHand (flip_hand h) 6
  /\ (exists middle : list call,
        arm_calls calls
        = [storeContext a; getDOF a;
           setDOF a (Vec.set (Vec.set (Vec.fill (fe_dof env) 1.0) 1 0.0) 0 0.0)]
          ++ middle
          ++ [restoreContext a (fe_context_arm env);
              deleteContext a (fe_context_arm env)]
        /\ Forall (fun c => (call_arm c = Some a \/ call_arm c = None)
                            /\ is_store c = false /\ is_restore c = false
                            /\ is_delete c = false) middle)
  /\ gaze_restores calls = [0; 0; 0; 0; 0; 0; fe_context_gaze env]%Z
  /\ respond_find dcm2axis axis2dcm st h env
       (VString "find" :: VString arm :: VString eye :: rest)
     = Some (set_interrupting st' false, h',
             VVocab ack :: tl (fe_solution env), calls, true).
Proof.
  intros Hn Hrun. cbv zeta.
  assert (respond_find dcm2axis axis2dcm st h env
            (VString "find" :: VString arm :: VString eye :: rest)
          = Some (set_interrupting st' false, h',
                  (if ok then VVocab ack :: tl sol else [VVocab nack]),
                  calls, true)) as Hreply.
  { unfold respond_find.
    cbn [Btl.tail Btl.size Btl.get Btl.asString tl nth List.length Nat.leb].
    rewrite Hrun. destruct ok; reflexivity. }
  find_run Hn Hrun.
  split; [ reflexivity | ]. split; [ reflexivity | ].
  split; [ reflexivity | ]. split; [ reflexivity | ].
  split; [ | split; [ | exact Hreply ] ].
  - exists (arm_calls c1 ++ arm_calls c2 ++ arm_calls c3 ++ arm_calls c4
            ++ arm_calls c5 ++ arm_calls c6).
    split.
    + unfold arm_calls. rewrite !flat_map_app. cbn [find_before find_after
        flat_map app]. rewrite <- !app_assoc. reflexivity.
    + repeat (apply Forall_app; split);
        [ exact (moveTool_arm_calls _ _ _ _ _ _ _ _ _ _ _ H1)
        | exact (moveTool_arm_calls _ _ _ _ _ _ _ _ _ _ _ H2)
        | exact (moveTool_arm_calls _ _ _ _ _ _ _ _ _ _ _ H3)
        | exact (moveTool_arm_calls _ _ _ _ _ _ _ _ _ _ _ H4)
        | exact (moveTool_arm_calls _ _ _ _ _ _ _ _ _ _ _ H5)
        | exact (moveTool_arm_calls _ _ _ _ _ _ _ _ _ _ _ H6) ].
  - unfold gaze_restores. rewrite !flat_map_app.
    fold (gaze_restores c1). fold (gaze_restores c2). fold (gaze_restores c3).
    fold (gaze_restores c4). fold (gaze_restores c5). fold (gaze_restores c6).
    rewrite (moveTool_gaze_restores _ _ _ _ _ _ _ _ _ _ _ H1),
      (moveTool_gaze_restores _ _ _ _ _ _ _ _ _ _ _ H2),
      (moveTool_gaze_restores _ _ _ _ _ _ _ _ _ _ _ H3),
      (moveTool_gaze_restores _ _ _ _ _ _ _ _ _ _ _ H4),
      (moveTool_gaze_restores _ _ _ _ _ _ _ _ _ _ _ H5),
      (moveTool_gaze_restores _ _ _ _ _ _ _ _ _ _ _ H6).
    reflexivity.
Qed.

(** X22. Along a [findToolTip] that returns, the joint put in velocity
    mode is joint 4 of the hand of the arm for the first five positions
    and joint 6 for the last, while the joint stopped at the end of each
    position is joint 4 all six times: joint 6 is never stopped.  Apart
    from the requests "num", the finder is told "clear" and "select", then
    "enable" and "disable" once for each position, then "find". *)
Theorem find_joints_and_requests (st : KarmaMotor) (h : Hand) (env : FindEnv)
    (arm eye : string) (left : bool) (st' : KarmaMotor) (h' : Hand)
    (calls : list tcall) (sol : Bottle) (ok : bool) :
  names_arm arm left ->
  findToolTip' st h env arm eye = Some (st', h', calls, sol, ok) ->
  let a := if left then LeftArm else RightArm in
  mode_joints calls
  = [(a, 4); (a, 4); (a, 4); (a, 4); (a, 4); (a, 6)]%Z
  /\ stopped_joints calls
     = [(a, 4); (a, 4); (a, 4); (a, 4); (a, 4); (a, 4)]%Z
  /\ filter (fun v => negb (Z.eqb v (Vocab.encode "num"))) (finder_words calls)
     = map Vocab.encode
         ["clear"; "select"; "enable"; "disable"; "enable"; "disable";
          "enable"; "disable"; "enable"; "disable"; "enable"; "disable";
          "enable"; "disable"; "find"]%string.
Proof.
  intros Hn Hrun. cbv zeta.
  pose proof (hand_of_names_arm arm left Hn) as Hhand.
  find_run Hn Hrun.
  split; [ | split ].
  - unfold mode_joints. rewrite !flat_map_app.
    fold (mode_joints c1). fold (mode_joints c2). fold (mode_joints c3).
    fold (mode_joints c4). fold (mode_joints c5). fold (mode_joints c6).
    rewrite (moveTool_mode_joints _ _ _ _ _ _ _ _ _ _ _ H1),
      (moveTool_mode_joints _ _ _ _ _ _ _ _ _ _ _ H2),
      (moveTool_mode_joints _ _ _ _ _ _ _ _ _ _ _ H3),
      (moveTool_mode_joints _ _ _ _ _ _ _ _ _ _ _ H4),
      (moveTool_mode_joints _ _ _ _ _ _ _ _ _ _ _ H5),
      (moveTool_mode_joints _ _ _ _ _ _ _ _ _ _ _ H6).
    rewrite Hhand. reflexivity.
  - unfold stopped_joints. rewrite !flat_map_app.
    fold (stopped_joints c1). fold (stopped_joints c2).
    fold (stopped_joints c3). fold (stopped_joints c4).
    fold (stopped_joints c5). fold (stopped_joints c6).
    rewrite (moveTool_stopped_joints _ _ _ _ _ _ _ _ _ _ _ H1),
      (moveTool_stopped_joints _ _ _ _ _ _ _ _ _ _ _ H2),
      (moveTool_stopped_joints _ _ _ _ _ _ _ _ _ _ _ H3),
      (moveTool_stopped_joints _ _ _ _ _ _ _ _ _ _ _ H4),
      (moveTool_stopped_joints _ _ _ _ _ _ _ _ _ _ _ H5),
      (moveTool_stopped_joints _ _ _ _ _ _ _ _ _ _ _ H6).
    rewrite Hhand. reflexivity.
  - unfold finder_words. rewrite !flat_map_app, !filter_app.
    fold (finder_words c1). fold (finder_words c2). fold (finder_words c3).
    fold (finder_words c4). fold (finder_words c5). fold (finder_words c6).
    rewrite (moveTool_finder_words _ _ _ _ _ _ _ _ _ _ _ H1),
      (moveTool_finder_words _ _ _ _ _ _ _ _ _ _ _ H2),
      (moveTool_finder_words _ _ _ _ _ _ _ _ _ _ _ H3),
      (moveTool_finder_words _ _ _ _ _ _ _ _ _ _ _ H4),
      (moveTool_finder_words _ _ _ _ _ _ _ _ _ _ _ H5),
      (moveTool_finder_words _ _ _ _ _ _ _ _ _ _ _ H6).
    reflexivity.
Qed.

(** X23. A [findToolTip] on a known arm that finds the flag set at every
    test, as after a stop request, still returns, and returns true: the
    hand is sent nowhere, the gaze is given neither a point nor a pixel,
    but the finder is told "clear", "select", six times "enable", "num",
    "disable", and "find", and the request is answered with [ack] and the
    finder's solution. *)
Theorem stopped_find_still_acks (st : KarmaMotor) (h : Hand) (env : FindEnv)
    (arm eye : string) (left : bool) (rest : Bottle) :
  names_arm arm left ->
  (forall i : nat, (i < 6)%nat -> stopped_throughout (fe_point env i)) ->
  let a := if left then LeftArm else RightArm in
  let st' := set_handUsed (set_iCartCtrl st a) "null" in
  let h' := mkHand (flip_hand h) 6 in
  exists calls : list tcall,
    findToolTip' st h env arm eye
    = Some (st', h', calls, fe_solution env, true)
    /\ reaches calls = [] /\ fixations calls = [] /\ pixels calls = []
    /\ finder_words calls
       = map Vocab.encode
           ["clear"; "select";
            "enable"; "num"; "disable"; "enable"; "num"; "disable";
            "enable"; "num"; "disable"; "enable"; "num"; "disable";
            "enable"; "num"; "disable"; "enable"; "num"; "disable";
            "find"]%string
    /\ respond_find dcm2axis axis2dcm st h env
         (VString "find" :: VString arm :: VString eye :: rest)
       = Some (set_interrupting st' false, h',
               VVocab ack :: tl (fe_solution env), calls, true).
Proof.
  intros Hn Hstop. cbv zeta.
  assert (forall (i : nat) (s : KarmaMotor),
            (i < 6)%nat ->
            iCartCtrl s = Some (if left then LeftArm else RightArm) ->
            step' h env arm eye left i s
            = Some (set_handUsed s "null",
                    [gaze_restoreContext 0;
                     setSaccadesStatus false; setNeckTrajTime 2.5;
                     setEyesTrajTime 1.5;
                     setControlMode (hand_of arm) (find_joint i)
                       VOCAB_CM_VELOCITY;
                     finder [VVocab (Vocab.encode "enable")];
                     finder [VVocab (Vocab.encode "num")];
                     finder [VVocab (Vocab.encode "disable")];
                     stopJoint (hand_of arm) 4])) as Hstep.
  { intros i s Hi Hs. unfold find_step.
    exact (moveTool_stopped s (mkHand (flip_hand h) (find_joint i))
             (fe_point env i) arm eye _ _ _ _ _ Hs (Hstop i Hi)). }
  eexists. split; [ | split; [ | split; [ | split; [ | split ] ] ] ].
  - rewrite (findToolTip_known st h env arm eye left Hn). cbv zeta.
    rewrite (Hstep 0%nat) by (reflexivity || lia).
    rewrite (Hstep 1%nat) by (reflexivity || lia).
    rewrite (Hstep 2%nat) by (reflexivity || lia).
    rewrite (Hstep 3%nat) by (reflexivity || lia).
    rewrite (Hstep 4%nat) by (reflexivity || lia).
    rewrite (Hstep 5%nat) by (reflexivity || lia).
    reflexivity.
  - reflexivity.
  - reflexivity.
  - reflexivity.
  - reflexivity.
  - unfold respond_find.
    cbn [Btl.tail Btl.size Btl.get Btl.asString tl nth List.length Nat.leb].
    rewrite (findToolTip_known st h env arm eye left Hn). cbv zeta.
    rewrite (Hstep 0%nat) by (reflexivity || lia).
    rewrite (Hstep 1%nat) by (reflexivity || lia).
    rewrite (Hstep 2%nat) by (reflexivity || lia).
    rewrite (Hstep 3%nat) by (reflexivity || lia).
    rewrite (Hstep 4%nat) by (reflexivity || lia).
    rewrite (Hstep 5%nat) by (reflexivity || lia).
    reflexivity.
Qed.

(** X24. The exploration of the left arm is the mirror image of that of
    the right arm: under the same observations, the positions the left
    hand is sent to, and the points the gaze is sent to, are those of the
    right arm reflected in the sagittal plane of the robot. *)
Theorem find_sides_mirror (st : KarmaMotor) (h : Hand) (env : FindEnv)
    (eye : string) (rl rr : KarmaMotor * Hand * list tcall * Bottle * bool) :
  findToolTip' st h env "left" eye = Some rl ->
  findToolTip' st h env "right" eye = Some rr ->
  let trace (r : KarmaMotor * Hand * list tcall * Bottle * bool) :=
    snd (fst (fst r)) in
  reaches (trace rl) = map mirror (reaches (trace rr))
  /\ fixations (trace rl) = map mirror (fixations (trace rr)).
Proof.
  intros Hl Hr. cbv zeta.
  assert (names_arm "left" true) as Hnl by (left; split; reflexivity).
  assert (names_arm "right" false) as Hnr by (right; split; reflexivity).
  destruct (findToolTip_steps _ _ _ _ _ _ _ Hnl Hl)
    as (l1 & l2 & l3 & l4 & l5 & l6 & L1 & L2 & L3 & L4 & L5 & L6 & ->).
  destruct (findToolTip_steps _ _ _ _ _ _ _ Hnr Hr)
    as (r1 & r2 & r3 & r4 & r5 & r6 & R1 & R2 & R3 & R4 & R5 & R6 & ->).
  cbv zeta in *. unfold find_step in *. cbn [fst snd].
  split.
  - unfold reaches. rewrite !flat_map_app, !map_app.
    fold (reaches l1). fold (reaches l2). fold (reaches l3).
    fold (reaches l4). fold (reaches l5). fold (reaches l6).
    fold (reaches r1). fold (reaches r2). fold (reaches r3).
    fold (reaches r4). fold (reaches r5). fold (reaches r6).
    rewrite (moveTool_reaches _ _ _ _ _ _ _ _ _ _ _ L1),
      (moveTool_reaches _ _ _ _ _ _ _ _ _ _ _ L2),
      (moveTool_reaches _ _ _ _ _ _ _ _ _ _ _ L3),
      (moveTool_reaches _ _ _ _ _ _ _ _ _ _ _ L4),
      (moveTool_reaches _ _ _ _ _ _ _ _ _ _ _ L5),
      (moveTool_reaches _ _ _ _ _ _ _ _ _ _ _ L6),
      (moveTool_reaches _ _ _ _ _ _ _ _ _ _ _ R1),
      (moveTool_reaches _ _ _ _ _ _ _ _ _ _ _ R2),
      (moveTool_reaches _ _ _ _ _ _ _ _ _ _ _ R3),
      (moveTool_reaches _ _ _ _ _ _ _ _ _ _ _ R4),
      (moveTool_reaches _ _ _ _ _ _ _ _ _ _ _ R5),
      (moveTool_reaches _ _ _ _ _ _ _ _ _ _ _ R6).
    rewrite !mirror_find_xd.
    destruct (te_interrupting (fe_point env 0)),
      (te_interrupting (fe_point env 1)), (te_interrupting (fe_point env 2)),
      (te_interrupting (fe_point env 3)), (te_interrupting (fe_point env 4)),
      (te_interrupting (fe_point env 5)); reflexivity.
  - unfold fixations. rewrite !flat_map_app, !map_app.
    fold (fixations l1). fold (fixations l2). fold (fixations l3).
    fold (fixations l4). fold (fixations l5). fold (fixations l6).
    fold (fixations r1). fold (fixations r2). fold (fixations r3).
    fold (fixations r4). fold (fixations r5). fold (fixations r6).
    rewrite (moveTool_fixations _ _ _ _ _ _ _ _ _ _ _ L1),
      (moveTool_fixations _ _ _ _ _ _ _ _ _ _ _ L2),
      (moveTool_fixations _ _ _ _ _ _ _ _ _ _ _ L3),
      (moveTool_fixations _ _ _ _ _ _ _ _ _ _ _ L4),
      (moveTool_fixations _ _ _ _ _ _ _ _ _ _ _ L5),
      (moveTool_fixations _ _ _ _ _ _ _ _ _ _ _ L6),
      (moveTool_fixations _ _ _ _ _ _ _ _ _ _ _ R1),
      (moveTool_fixations _ _ _ _ _ _ _ _ _ _ _ R2),
      (moveTool_fixations _ _ _ _ _ _ _ _ _ _ _ R3),
      (moveTool_fixations _ _ _ _ _ _ _ _ _ _ _ R4),
      (moveTool_fixations _ _ _ _ _ _ _ _ _ _ _ R5),
      (moveTool_fixations _ _ _ _ _ _ _ _ _ _ _ R6).
    rewrite !mirror_find_fixation.
    destruct (te_interrupting (fe_point env 0)),
      (te_interrupting (fe_point env 1)), (te_interrupting (fe_point env 2)),
      (te_interrupting (fe_point env 3)), (te_interrupting (fe_point env 4)),
      (te_interrupting (fe_point env 5)); reflexivity.
Qed.

End FindFacts.


(** A [moveTool] returns when a controller is designated and both loops
    are left within the observations. *)
Lemma moveTool_returns (st : KarmaMotor) (h : Hand) (env : ToolEnv)
    (arm eye : string) (xd od xOffset : Vector) (maxItems : Z) :
  iCartCtrl st <> None ->
  gaze_run eye (gaze_init (te_now env)) (te_gaze env) <> None ->
  gather_loop eye 0 (items (te_num env) + maxItems) (te_gather env) <> None ->
  exists calls : list tcall,
    moveTool st h env arm eye xd od xOffset maxItems
    = Some (set_handUsed st "null", calls).
Proof.
  intros Ha Hgaze Hgather. unfold moveTool.
  destruct (iCartCtrl st) as [a | ]; [ | contradiction ].
  destruct (gaze_run eye _ _) as [[s looks] | ]; [ | contradiction ].
  unfold items in Hgather.
  destruct (gather_loop eye 0 _ _) as [gathered | ]; [ | contradiction ].
  eexists. reflexivity.
Qed.

(** [findToolTip] returns on a known arm when each of its six positions
    does. *)
Lemma findToolTip_returns (dcm2axis : Matrix -> Vector)
    (axis2dcm : Vector -> Matrix) (st : KarmaMotor) (h : Hand)
    (env : FindEnv) (arm eye : string) (left : bool) :
  names_arm arm left ->
  (forall (i : nat) (s : KarmaMotor),
     (i < 6)%nat -> iCartCtrl s <> None ->
     exists calls : list tcall,
       find_step dcm2axis axis2dcm h env arm eye left i s
       = Some (set_handUsed s "null", calls)) ->
  exists r, findToolTip dcm2axis axis2dcm st h env arm eye = Some r.
Proof.
  intros Hn Hstep.
  rewrite (findToolTip_known dcm2axis axis2dcm st h env arm eye left Hn).
  cbv zeta.
  destruct (Hstep 0%nat (set_iCartCtrl st (if left then LeftArm else RightArm)))
    as (c1 & ->); [ lia | discriminate | ].
  destruct (Hstep 1%nat (set_handUsed
                           (set_iCartCtrl st
                              (if left then LeftArm else RightArm)) "null"))
    as (c2 & ->); [ lia | discriminate | ].
  destruct (Hstep 2%nat (set_handUsed
                           (set_handUsed
                              (set_iCartCtrl st
                                 (if left then LeftArm else RightArm)) "null")
                           "null"))
    as (c3 & ->); [ lia | discriminate | ].
  match goal with
  | |- context [find_step _ _ _ _ _ _ _ 3%nat ?s] =>
      destruct (Hstep 3%nat s) as (c4 & ->); [ lia | discriminate | ]
  end.
  match goal with
  | |- context [find_step _ _ _ _ _ _ _ 4%nat ?s] =>
      destruct (Hstep 4%nat s) as (c5 & ->); [ lia | discriminate | ]
  end.
  match goal with
  | |- context [find_step _ _ _ _ _ _ _ 5%nat ?s] =>
      destruct (Hstep 5%nat s) as (c6 & ->); [ lia | discriminate | ]
  end.
  eexists. reflexivity.
Qed.

(** The sample explorations return. *)
Lemma sample_find_returns (st : KarmaMotor) (point : ToolEnv)
    (arm : string) (left : bool) :
  names_arm arm left ->
  point = Sample3.stopped \/ point = Sample3.stopped_late ->
  exists r,
    findToolTip Sample.dcm2axis Sample.axis2dcm st Sample3.hand
      (Sample3.find_env point) arm "left" = Some r.
Proof.
  intros Hn Hpoint.
  apply (findToolTip_returns _ _ _ _ _ _ _ left Hn).
  intros i s _ Hs. unfold find_step.
  apply moveTool_returns; [ exact Hs | | ];
    destruct Hpoint as [-> | ->]; discriminate.
Qed.

(** The left arm explored with the flag found clear on entry of each
    position and set at the test of each loop. *)
Lemma find_result_and_contexts_witness :
  names_arm "left" true
  /\ exists (st' : KarmaMotor) (h' : Hand) (calls : list tcall) (sol : Bottle)
       (ok : bool),
       findToolTip Sample.dcm2axis Sample.axis2dcm Sample.st Sample3.hand
         (Sample3.find_env Sample3.stopped_late) "left" "left"
       = Some (st', h', calls, sol, ok)
       /\ ok = true
       /\ iCartCtrl st' = Some LeftArm
       /\ gaze_restores calls = [0; 0; 0; 0; 0; 0; 2]%Z.
Proof.
  assert (names_arm "left" true) as Hn by (left; split; reflexivity).
  split; [ exact Hn | ].
  destruct (sample_find_returns Sample.st Sample3.stopped_late "left" true Hn
              (or_intror eq_refl)) as ([[[[st' h'] calls] sol] ok] & Hrun).
  exists st', h', calls, sol, ok. split; [ exact Hrun | ].
  destruct (find_result_and_contexts Sample.dcm2axis Sample.axis2dcm
              Sample.st Sample3.hand (Sample3.find_env Sample3.stopped_late)
              "left" "left" true [] _ _ _ _ _ Hn Hrun)
    as (Hok & _ & Hst & _ & _ & Hgaze & _).
  split; [ exact Hok | ]. split; [ rewrite Hst; reflexivity | exact Hgaze ].
Defined.

Lemma find_joints_and_requests_witness :
  names_arm "right" false
  /\ exists (st' : KarmaMotor) (h' : Hand) (calls : list tcall) (sol : Bottle)
       (ok : bool),
       findToolTip Sample.dcm2axis Sample.axis2dcm Sample.st Sample3.hand
         (Sample3.find_env Sample3.stopped_late) "right" "left"
       = Some (st', h', calls, sol, ok)
       /\ mode_joints calls
          = [(RightArm, 4); (RightArm, 4); (RightArm, 4); (RightArm, 4);
             (RightArm, 4); (RightArm, 6)]%Z
       /\ stopped_joints calls
          = [(RightArm, 4); (RightArm, 4); (RightArm, 4); (RightArm, 4);
             (RightArm, 4); (RightArm, 4)]%Z.
Proof.
  assert (names_arm "right" false) as Hn by (right; split; reflexivity).
  split; [ exact Hn | ].
  destruct (sample_find_returns Sample.st Sample3.stopped_late "right" false
              Hn (or_intror eq_refl)) as ([[[[st' h'] calls] sol] ok] & Hrun).
  exists st', h', calls, sol, ok. split; [ exact Hrun | ].
  destruct (find_joints_and_requests Sample.dcm2axis Sample.axis2dcm
              Sample.st Sample3.hand (Sample3.find_env Sample3.stopped_late)
              "right" "left" false _ _ _ _ _ Hn Hrun)
    as (Hmode & Hstop & _).
  split; [ exact Hmode | exact Hstop ].
Defined.

Lemma stopped_find_still_acks_witness :
  names_arm "left" true
  /\ (forall i : nat, (i < 6)%nat ->
      stopped_throughout (fe_point (Sample3.find_env Sample3.stopped) i))
  /\ exists calls : list tcall,
       respond_find Sample.dcm2axis Sample.axis2dcm
         (set_interrupting Sample.st true) Sample3.hand
         (Sample3.find_env Sample3.stopped)
         [VString "find"; VString "left"; VString "left"]
       = Some (set_interrupting
                 (set_handUsed
                    (set_iCartCtrl (set_interrupting Sample.st true) LeftArm)
                    "null") false,
               mkHand (flip_hand Sample3.hand) 6,
               VVocab ack :: tl (fe_solution (Sample3.find_env Sample3.stopped)),
               calls, true)
       /\ reaches calls = [].
Proof.
  assert (names_arm "left" true) as Hn by (left; split; reflexivity).
  assert (forall i : nat, (i < 6)%nat ->
          stopped_throughout (fe_point (Sample3.find_env Sample3.stopped) i))
    as Hstop.
  { intros i _. split; [ reflexivity | ].
    split; eexists _, _; split; reflexivity. }
  split; [ exact Hn | ]. split; [ exact Hstop | ].
  destruct (stopped_find_still_acks Sample.dcm2axis Sample.axis2dcm
              (set_interrupting Sample.st true) Sample3.hand
              (Sample3.find_env Sample3.stopped) "left" "left" true [] Hn Hstop)
    as (calls & _ & Hreach & _ & _ & _ & Hreply).
  exists calls. split; [ exact Hreply | exact Hreach ].
Defined.

Lemma find_sides_mirror_witness :
  exists rl rr : KarmaMotor * Hand * list tcall * Bottle * bool,
    findToolTip Sample.dcm2axis Sample.axis2dcm Sample.st Sample3.hand
      (Sample3.find_env Sample3.stopped_late) "left" "left" = Some rl
    /\ findToolTip Sample.dcm2axis Sample.axis2dcm Sample.st Sample3.hand
         (Sample3.find_env Sample3.stopped_late) "right" "left" = Some rr
    /\ reaches (snd (fst (fst rl))) = map mirror (reaches (snd (fst (fst rr)))).
Proof.
  destruct (sample_find_returns Sample.st Sample3.stopped_late "left" true
              (or_introl (conj eq_refl eq_refl)) (or_intror eq_refl))
    as (rl & Hl).
  destruct (sample_find_returns Sample.st Sample3.stopped_late "right" false
              (or_intror (conj eq_refl eq_refl)) (or_intror eq_refl))
    as (rr & Hr).
  exists rl, rr. split; [ exact Hl | ]. split; [ exact Hr | ].
  exact (proj1 (find_sides_mirror Sample.dcm2axis Sample.axis2dcm Sample.st
                  Sample3.hand (Sample3.find_env Sample3.stopped_late) "left"
                  rl rr Hl Hr)).
Defined.

(** * Requests to find the tool tip *)

Section RespondFind.

Variable SE3inv : Matrix -> Matrix.
Variable dcm2axis : Matrix -> Vector.
Variable axis2dcm : Vector -> Matrix.
Variable RFModule_respond : Bottle -> Bottle * bool.

Lemma respond_find_request
    (ftt : KarmaMotor -> Env -> string -> string
           -> KarmaMotor * list call * Bottle * bool)
    (st : KarmaMotor) (env : Env) (arm eye : string) (rest : Bottle) :
  respond SE3inv dcm2axis axis2dcm ftt RFModule_respond st env
    (VString "find" :: VString arm :: VString eye :: rest)
  = let '(st1, calls, sol, ok) := ftt st env arm eye in
    Some (set_interrupting st1 false,
          (if ok then VVocab ack :: tl sol else [VVocab nack]), calls, true).
Proof.
  unfold respond. simpl Btl.asVocab. vocab. cbv iota.
  cbn [Btl.tail Btl.size Btl.get Btl.asString tl nth List.length Nat.leb orb].
  destruct (ftt st env arm eye) as [[[st1 calls] sol] [ | ]]; reflexivity.
Qed.

(** X25. A request to find the tool tip on an arm that is neither "left"
    nor "right" is refused at once: [findToolTip] returns false without a
    call and without touching the state, not even the selected controller,
    and the request is answered with [nack]. *)
Theorem find_unknown_arm_is_refused
    (ftt : KarmaMotor -> Env -> string -> string
           -> KarmaMotor * list call * Bottle * bool)
    (st : KarmaMotor) (h : Hand) (env : Env) (fenv : FindEnv)
    (arm eye : string) (rest : Bottle) :
  arm <> "left"%string -> arm <> "right"%string ->
  (forall st' h' calls sol ok,
     findToolTip dcm2axis axis2dcm st h fenv arm eye
     = Some (st', h', calls, sol, ok) ->
     ftt st env arm eye = (st', arm_calls calls, sol, ok)) ->
  findToolTip dcm2axis axis2dcm st h fenv arm eye = Some (st, h, [], [], false)
  /\ respond_find dcm2axis axis2dcm st h fenv
       (VString "find" :: VString arm :: VString eye :: rest)
     = Some (set_interrupting st false, h, [VVocab nack], [], true)
  /\ respond SE3inv dcm2axis axis2dcm ftt RFModule_respond st env
       (VString "find" :: VString arm :: VString eye :: rest)
     = Some (set_interrupting st false, [VVocab nack], [], true).
Proof.
  intros Hl Hr Hagree.
  assert (findToolTip dcm2axis axis2dcm st h fenv arm eye
          = Some (st, h, [], [], false)) as Hfind.
  { unfold findToolTip.
    rewrite (proj2 (String.eqb_neq _ _) Hl), (proj2 (String.eqb_neq _ _) Hr).
    reflexivity. }
  split; [ exact Hfind | ]. split.
  - unfold respond_find.
    cbn [Btl.tail Btl.size Btl.get Btl.asString tl nth List.length Nat.leb].
    rewrite Hfind. reflexivity.
  - rewrite respond_find_request, (Hagree _ _ _ _ _ Hfind). reflexivity.
Qed.

End RespondFind.

Lemma find_unknown_arm_is_refused_witness :
  "both"%string <> "left"%string /\ "both"%string <> "right"%string
  /\ respond Sample.SE3inv Sample.dcm2axis Sample.axis2dcm Sample.findToolTip
       Sample.RFModule_respond Sample.st (Sample.env None)
       [VString "find"; VString "both"; VString "left"]
     = Some (set_interrupting Sample.st false, [VVocab nack], [], true).
Proof.
  assert ("both"%string <> "left"%string) as Hl by discriminate.
  assert ("both"%string <> "right"%string) as Hr by discriminate.
  split; [ exact Hl | ]. split; [ exact Hr | ].
  refine (proj2 (proj2 (find_unknown_arm_is_refused Sample.SE3inv
                          Sample.dcm2axis Sample.axis2dcm
                          Sample.RFModule_respond Sample.findToolTip Sample.st
                          Sample3.hand (Sample.env None)
                          (Sample3.find_env Sample3.stopped) "both" "left" []
                          Hl Hr _))).
  intros st' h' calls sol ok Hrun.
  injection Hrun as <- _ <- <- <-. reflexivity.
Defined.


(** * Start and end of the module *)

(** X26. [configure] succeeds exactly when all five devices open.  It
    tries them in the order gaze, left arm, right arm, left hand, right
    hand and stops at the first that does not open; it then closes the
    devices opened before, in the order they were opened, opens no port
    and leaves the flag, the hand in use, the arm name and the tool frame
    as they were.  On success it closes nothing and opens the four
    ports. *)
Theorem configure_all_or_nothing (rf : ResourceFinder) (opens : Driver -> bool)
    (st : KarmaMotor) (h : Hand) :
  let '(st', h', calls, ok) := configure rf opens st h in
  (ok = true <-> forall d : Driver, opens d = true)
  /\ (ok = true ->
      drivers_tried calls = all_drivers /\ drivers_closed calls = []
      /\ ports_opened calls = all_ports)
  /\ (ok = false ->
      exists k : nat,
        (k < 5)%nat
        /\ opens (nth k all_drivers DriverG) = false
        /\ (forall j : nat, (j < k)%nat ->
            opens (nth j all_drivers DriverG) = true)
        /\ drivers_tried calls = firstn (S k) all_drivers
        /\ drivers_closed calls = firstn k all_drivers
        /\ ports_opened calls = []
        /\ h' = h
        /\ interrupting st' = interrupting st /\ handUsed st' = handUsed st
        /\ pushHand st' = pushHand st /\ toolFrame st' = toolFrame st).
Proof.
  unfold configure.
  destruct (if rf_check rf "elbow_set" then _ else _) as [eh ew].
  destruct (opens DriverG) eqn:HG; cbn [negb];
    [ destruct (opens DriverL) eqn:HL; cbn [negb];
      [ destruct (opens DriverR) eqn:HR; cbn [negb];
        [ destruct (opens DriverHL) eqn:HHL; cbn [negb];
          [ destruct (opens DriverHR) eqn:HHR; cbn [negb] | ] | ] | ] | ].
  - split; [ split; [ intros _ [ | | | | ]; assumption | reflexivity ] | ].
    split; [ intros _; repeat split | discriminate ].
  - split; [ split; [ discriminate | intros H; rewrite H in HHR; discriminate ] | ].
    split; [ discriminate | intros _ ].
    exists 4%nat. split; [ lia | ]. split; [ exact HHR | ].
    split; [ intros [ | [ | [ | [ | j]]]] Hj; try lia; assumption | ].
    repeat split.
  - split; [ split; [ discriminate | intros H; rewrite H in HHL; discriminate ] | ].
    split; [ discriminate | intros _ ].
    exists 3%nat. split; [ lia | ]. split; [ exact HHL | ].
    split; [ intros [ | [ | [ | j]]] Hj; try lia; assumption | ].
    repeat split.
  - split; [ split; [ discriminate | intros H; rewrite H in HR; discriminate ] | ].
    split; [ discriminate | intros _ ].
    exists 2%nat. split; [ lia | ]. split; [ exact HR | ].
    split; [ intros [ | [ | j]] Hj; try lia; assumption | ].
    repeat split.
  - split; [ split; [ discriminate | intros H; rewrite H in HL; discriminate ] | ].
    split; [ discriminate | intros _ ].
    exists 1%nat. split; [ lia | ]. split; [ exact HL | ].
    split; [ intros [ | j] Hj; try lia; assumption | ].
    repeat split.
  - split; [ split; [ discriminate | intros H; rewrite H in HG; discriminate ] | ].
    split; [ discriminate | intros _ ].
    exists 0%nat. split; [ lia | ]. split; [ exact HG | ].
    split; [ intros j Hj; lia | ].
    repeat split.
Qed.


(** X27. A module that was configured and is closed leaves nothing open:
    [close] closes each of the four ports [configure] opened, then each of
    the five devices, in the order they were opened; the ports, the stop
    port among them, are all closed before the first device is. *)
Theorem configure_then_close_is_balanced (rf : ResourceFinder)
    (opens : Driver -> bool) (st : KarmaMotor) (h : Hand) :
  (forall d : Driver, opens d = true) ->
  let started := snd (fst (configure rf opens st h)) in
  let ended := fst close in
  snd (configure rf opens st h) = true
  /\ snd close = true
  /\ ports_closed ended = ports_opened started
  /\ drivers_closed ended = drivers_tried started
  /\ drivers_closed started = [] /\ ports_closed started = []
  /\ drivers_tried ended = [] /\ ports_opened ended = []
  /\ ended = map port_close all_ports ++ map driver_close all_drivers.
Proof.
  intros Hall. cbv zeta. unfold configure.
  destruct (if rf_check rf "elbow_set" then _ else _) as [eh ew].
  rewrite !Hall. cbn [negb fst snd]. repeat split.
Qed.

Lemma configure_then_close_is_balanced_witness :
  (forall d : Driver, (fun _ : Driver => true) d = true)
  /\ drivers_closed (fst close)
     = drivers_tried
         (snd (fst (configure Sample4.no_option (fun _ => true)
                      Sample4.before Sample3.hand))).
Proof.
  assert (forall d : Driver, (fun _ : Driver => true) d = true) as Hall
    by reflexivity.
  split; [ exact Hall | ].
  destruct (configure_then_close_is_balanced Sample4.no_option
              (fun _ => true) Sample4.before Sample3.hand Hall)
    as (_ & _ & _ & Hd & _).
  exact Hd.
Defined.

Section ConfiguredFacts.

Variable SE3inv : Matrix -> Matrix.
Variable dcm2axis : Matrix -> Vector.
Variable axis2dcm : Vector -> Matrix.
Variable findToolTip :
  KarmaMotor -> Env -> string -> string -> KarmaMotor * list call * Bottle * bool.
Variable RFModule_respond : Bottle -> Bottle * bool.
Variable sign : R -> R.

(** X28. A successful [configure] leaves the module idle and without
    tool, whatever its members held before: the periodic update makes no
    call, a request "tool get" is answered with [ack], the arm name
    "selectable" and the origin, and the flag is clear, so that the first
    action is not cancelled.  The duration of the movements is the option
    "movTime", one second without it; the selected controller and the
    shaken joint are not set. *)
Theorem configure_leaves_module_idle (rf : ResourceFinder)
    (opens : Driver -> bool) (st : KarmaMotor) (h : Hand) (env : Env)
    (pos : R) :
  (forall d : Driver, opens d = true) ->
  let st' := fst (fst (fst (configure rf opens st h))) in
  let h' := snd (fst (fst (configure rf opens st h))) in
  updateModule sign st' h' pos = (h', [], true)
  /\ respond SE3inv dcm2axis axis2dcm findToolTip RFModule_respond st' env
       [VString "tool"; VString "get"]
     = Some (st', [VVocab ack; VString selectable; VDouble 0; VDouble 0;
                   VDouble 0], [], true)
  /\ (forall i : nat, stop_at env = None -> flag st' env i = false)
  /\ mov_time st'
     = match rf "movTime"%string with
       | Some v => Btl.asDouble v
       | None => 1.0
       end
  /\ flip_hand h' = 6.0
  /\ iCartCtrl st' = iCartCtrl st /\ shake_joint h' = shake_joint h.
Proof.
  intros Hall. cbv zeta. unfold configure.
  destruct (if rf_check rf "elbow_set" then _ else _) as [eh ew].
  rewrite !Hall. cbn [negb fst snd].
  split; [ reflexivity | ]. split.
  - rewrite (respond_tool_verb SE3inv dcm2axis axis2dcm findToolTip
               RFModule_respond false _ env [VString "get"]).
    unfold respond_tool.
    cbn [Btl.size Btl.tail Btl.get Btl.asVocab tl nth List.length Nat.ltb
         Nat.leb tool_verb].
    vocab. cbv iota. reflexivity.
  - split; [ intros i Hnone; apply flag_never; [ reflexivity | exact Hnone ] | ].
    split; [ | repeat split ].
    unfold rf_check_default. cbn [mov_time].
    destruct (rf "movTime"%string); reflexivity.
Qed.

End ConfiguredFacts.

Lemma configure_leaves_module_idle_witness :
  (forall d : Driver, (fun _ : Driver => true) d = true)
  /\ updateModule Sample3.sign
       (fst (fst (fst (configure Sample4.no_option (fun _ => true)
                         Sample4.before Sample3.hand))))
       (snd (fst (fst (configure Sample4.no_option (fun _ => true)
                         Sample4.before Sample3.hand)))) 0
     = (snd (fst (fst (configure Sample4.no_option (fun _ => true)
                         Sample4.before Sample3.hand))), [], true).
Proof.
  assert (forall d : Driver, (fun _ : Driver => true) d = true) as Hall
    by reflexivity.
  split; [ exact Hall | ].
  exact (proj1 (configure_leaves_module_idle Sample.SE3inv Sample.dcm2axis
                  Sample.axis2dcm Sample.findToolTip Sample.RFModule_respond
                  Sample3.sign Sample4.no_option (fun _ => true)
                  Sample4.before Sample3.hand (Sample.env None) 0 Hall)).
Defined.


(** * The elbow task *)

Section ElbowFacts.

Variable SE3inv : Matrix -> Matrix.
Variable dcm2axis : Matrix -> Vector.
Variable axis2dcm : Vector -> Matrix.

Lemma tweaks_push_segment (st : KarmaMotor) (env : Env) (a : Arm)
    (c xd od : Vector) (t : R) (frame : Matrix) (i : nat) :
  tweaks (push_segment axis2dcm st env a c xd od t frame i) = [].
Proof.
  unfold push_segment. destruct (flag st env i); [ reflexivity | ].
  destruct i as [ | [ | [ | [ | i]]]]; reflexivity.
Qed.

Lemma tweaks_draw_segment (st : KarmaMotor) (env : Env) (p : DrawPlan)
    (t3 : R) (i : nat) :
  tweaks (draw_segment st env p t3 i) = [].
Proof.
  unfold draw_segment. destruct (flag st env i); [ reflexivity | ].
  destruct i as [ | [ | [ | i]]]; reflexivity.
Qed.

Lemma tweaks_push2_segment (st : KarmaMotor) (env : Env) (a : Arm)
    (T2R : Matrix) (t timeout : R) (i : nat) :
  tweaks (push2_segment dcm2axis st env a T2R t timeout i) = [].
Proof. unfold push2_segment. destruct (flag st env i); reflexivity. Qed.

Lemma tweaks_app (t u : list call) : tweaks (t ++ u) = tweaks t ++ tweaks u.
Proof. apply flat_map_app. Qed.

(** X29. The option "elbow_set" is honoured by [push] and [draw] only.
    After a [configure] with the option, each of them sends the
    controller of its arm, after the option of straightness, the elbow
    task with the height and the weight asked for: the two numbers of the
    option's list, or 0.4 and 30 when the option has no list.  Without
    the option they send the straightness alone, and [push2] and [draw2]
    send the straightness alone in any case. *)
Theorem elbow_option_is_for_push_and_draw (rf : ResourceFinder)
    (opens : Driver -> bool) (st : KarmaMotor) (h : Hand) (env : Env)
    (c : Vector) (theta radius dist : R) (armType : string) (frame : Matrix) :
  (forall d : Driver, opens d = true) ->
  let st' := fst (fst (fst (configure rf opens st h))) in
  let elbow := map (fun hw => elbow_task (fst hw) (snd hw)) (elbow_option rf) in
  tweaks (snd (push SE3inv dcm2axis axis2dcm st' env c theta radius armType
                 frame))
  = straightness 10.0 :: elbow
  /\ (forall simulation : bool,
        tweaks (snd (fst (draw SE3inv dcm2axis axis2dcm st' env simulation c
                            theta radius dist armType frame)))
        = straightness 30.0 :: elbow)
  /\ (forall (simulation : bool) (pose : Z),
        tweaks (snd (fst (draw2 SE3inv dcm2axis axis2dcm st' env simulation
                            pose c theta radius dist armType frame)))
        = [straightness 30.0])
  /\ (forall (pose : Z) (r : KarmaMotor * list call),
        push2 SE3inv dcm2axis st' env pose c theta radius armType frame
        = Some r ->
        tweaks (snd r) = [straightness 10.0]).
Proof.
  intros Hall. cbv zeta.
  assert (forall a : Arm,
            tweaks (changeElbowHeight
                      (set_iCartCtrl
                         (fst (fst (fst (configure rf opens st h)))) a) a)
            = map (fun hw => elbow_task (fst hw) (snd hw)) (elbow_option rf))
    as Helbow.
  { intros a. unfold configure, rf_check, elbow_option, changeElbowHeight.
    rewrite !Hall. cbn [negb].
    destruct (rf "elbow_set"%string) as [[ | n | d | s | v | l] | ];
      reflexivity. }
  split; [ | split; [ | split ] ].
  - unfold push. cbv zeta. cbn [snd].
    rewrite !tweaks_app, !tweaks_push_segment, Helbow.
    cbn [tweaks flat_map app]. rewrite ?app_nil_r. reflexivity.
  - intros simulation. unfold draw. cbv zeta.
    destruct (env_ask1 env) as [[xdhat1 odhat1] q1].
    destruct (env_ask2 env) as [[xdhat2 odhat2] q2].
    destruct simulation; cbn [fst snd];
      rewrite !tweaks_app, ?tweaks_draw_segment, Helbow;
      cbn [tweaks flat_map app]; rewrite ?app_nil_r; reflexivity.
  - intros simulation pose. unfold draw2. cbv zeta.
    destruct (env_ask1 env) as [[xdhat1 odhat1] q1].
    destruct (env_ask2 env) as [[xdhat2 odhat2] q2].
    destruct simulation; cbn [fst snd];
      rewrite !tweaks_app, ?tweaks_draw_segment;
      cbn [tweaks flat_map app]; reflexivity.
  - intros pose r Hr. unfold push2 in Hr.
    destruct (push2_arm _ armType c) as [[a | ] fi];
      destruct (Z.eqb pose 0); cbv iota beta in Hr; try discriminate Hr;
      apply (f_equal (fun o : option (KarmaMotor * list call) =>
                        match o with Some x => snd x | None => [] end)) in Hr;
      cbv beta iota in Hr; rewrite <- Hr; cbn [snd];
      rewrite ?tweaks_app, ?tweaks_push2_segment;
      cbn [tweaks flat_map app]; reflexivity.
Qed.

End ElbowFacts.

(** The elbow task asked for at the height 0.3 with the weight 20. *)
Lemma elbow_option_is_for_push_and_draw_witness :
  (forall d : Driver, (fun _ : Driver => true) d = true)
  /\ tweaks
       (snd (push Sample.SE3inv Sample.dcm2axis Sample.axis2dcm
               (fst (fst (fst (configure
                                 (fun key =>
                                    if String.eqb key "elbow_set"
                                    then Some (VList [VDouble 0.3; VDouble 20])
                                    else None)
                                 (fun _ => true) Sample4.before Sample3.hand))))
               (Sample.env None) [0.3; 0.1; 0] 0 0.1 selectable (Mat.eye 4 4)))
     = [straightness 10.0; elbow_task 0.3 20].
Proof.
  assert (forall d : Driver, (fun _ : Driver => true) d = true) as Hall
    by reflexivity.
  split; [ exact Hall | ].
  exact (proj1 (elbow_option_is_for_push_and_draw Sample.SE3inv
                  Sample.dcm2axis Sample.axis2dcm
                  (fun key =>
                     if String.eqb key "elbow_set"
                     then Some (VList [VDouble 0.3; VDouble 20])
                     else None)
                  (fun _ => true) Sample4.before Sample3.hand
                  (Sample.env None) [0.3; 0.1; 0] 0 0.1 0 selectable
                  (Mat.eye 4 4) Hall)).
Defined.
